(** * rgb2aled: a cycle-level model of the WS2812 capture / relay / commit loop

    The whole core of [rgb2aled.ino] is the inline assembly of [loop()].
    It is embedded here as an AVR program: the macros [READ_BIT] and
    [READ_BYTE], the [.rept 256] relay block and the update phase are
    expanded into a list of instructions, assembled into program words
    (the AVR program counter counts 16-bit words; [jmp] and [sts] take two
    words) and run by a step function that charges each instruction its
    ATmega328P cycle count.  The input line (D7, or D6 with
    [ALTERNATE_DATA_PINS]) is a function from cycle number to level; the
    output line and the PWM compare registers live in the data space. *)

From Stdlib Require Import ZArith List Bool Lia.
Import ListNotations.

Open Scope Z_scope.

(** ** Build-time configuration ([#define TWO_LEDS], [#define ALTERNATE_DATA_PINS]) *)

Record config := mkConfig {
  two_leds_defined : bool;
  alternate_data_pins : bool
}.

(** [ALTERNATE_DATA_PINS] does [#undef TWO_LEDS]. *)
Definition TWO_LEDS (c : config) : bool :=
  two_leds_defined c && negb (alternate_data_pins c).

Definition DATA_IN (c : config) : Z := if alternate_data_pins c then 6 else 7.
Definition DATA_OUT (c : config) : Z := if alternate_data_pins c then 7 else 2.

(** The configuration of the source as shipped, and the 1-LED build. *)
Definition cfg_default : config := mkConfig true false.
Definition cfg_one_led : config := mkConfig false false.

(** ** Instructions *)

Inductive label :=
  | start_frame | wait_reset | r_chk | capture_start
  | relay_entry | relay_bit | update_now.

Definition label_eqb (a b : label) : bool :=
  match a, b with
  | start_frame, start_frame | wait_reset, wait_reset | r_chk, r_chk
  | capture_start, capture_start | relay_entry, relay_entry
  | relay_bit, relay_bit | update_now, update_now => true
  | _, _ => false
  end.

Inductive instr :=
  | SBIS (ioa b : Z)     (* skip if bit in I/O register set *)
  | SBIC (ioa b : Z)     (* skip if bit in I/O register cleared *)
  | SBI (ioa b : Z)
  | CBI (ioa b : Z)
  | RJMP (k : Z)         (* [rjmp .+k]: k bytes after the next instruction *)
  | JMP (l : label)
  | BRNE (l : label)
  | NOP
  | LSL (r : Z)
  | ORI (r k : Z)
  | LDI (r k : Z)
  | DEC (r : Z)
  | COM (r : Z)
  | STS (a r : Z).

(** Size in program words. *)
Definition size (i : instr) : nat :=
  match i with
  | JMP _ | STS _ _ => 2
  | _ => 1
  end.

Inductive item :=
  | Lab (l : label)
  | Ins (i : instr).

(** I/O address of PIND and PORTD. *)
Definition PIND : Z := 9.
Definition PORTD : Z := 11.

(** ** The program of [loop()] *)

Section Program.
Variable c : config.

(** [READ_BIT reg]; the local label [1:] is the first [sbis], [2:] the
    third [sbic], so [rjmp 1b] and [rjmp 2b] are [rjmp .-4]. *)
Definition READ_BIT (reg : Z) : list item :=
  [ Ins (SBIS PIND (DATA_IN c)); Ins (RJMP (-4));
    Ins NOP; Ins NOP; Ins NOP; Ins NOP;
    Ins (LSL reg);
    Ins (SBIC PIND (DATA_IN c));
    Ins (ORI reg 1);
    Ins (SBIC PIND (DATA_IN c)); Ins (RJMP (-4)) ].

Definition READ_BYTE (reg : Z) : list item :=
  concat (repeat (READ_BIT reg) 8).

Definition sync_part : list item :=
  [Lab start_frame] ++
  (if TWO_LEDS c then []
   else [Ins (LDI 19 255); Ins (LDI 20 255); Ins (LDI 21 255)]) ++
  [ Lab wait_reset; Ins (LDI 22 250);
    Lab r_chk; Ins (SBIC PIND (DATA_IN c)); Ins (JMP wait_reset);
    Ins (DEC 22); Ins (BRNE r_chk) ].

(** Registers of the captured channel bytes: G1 R1 B1 (G2 R2 B2). *)
Definition capture_regs : list Z :=
  [16; 17; 18] ++ (if TWO_LEDS c then [19; 20; 21] else []).

Definition capture_part : list item :=
  [Lab capture_start] ++ concat (map READ_BYTE capture_regs).

(** One check of the [.rept 256] block. *)
Definition relay_check : list item :=
  [ Ins (SBIS PIND (DATA_IN c)); Ins (RJMP 6);
    Ins (SBI PORTD (DATA_OUT c)); Ins (JMP relay_bit) ].

Definition relay_part : list item :=
  [Lab relay_entry] ++ concat (repeat relay_check 256) ++ [Ins (JMP update_now)].

Definition relay_bit_part : list item :=
  [ Lab relay_bit;
    Ins (SBIS PIND (DATA_IN c));
    Ins (CBI PORTD (DATA_OUT c));
    Ins (SBIC PIND (DATA_IN c));
    Ins (RJMP 0);
    Ins NOP;
    Ins (CBI PORTD (DATA_OUT c));
    Ins (JMP relay_entry) ].

Definition update_part : list item :=
  [ Lab update_now; Ins (COM 16); Ins (COM 17); Ins (COM 18) ] ++
  (if TWO_LEDS c then [Ins (COM 19); Ins (COM 20); Ins (COM 21)] else []) ++
  [ Ins (STS 136 17);   (* 0x88 OCR1A (D9)  - LED1 Red   *)
    Ins (STS 138 16);   (* 0x8A OCR1B (D10) - LED1 Green *)
    Ins (STS 179 18);   (* 0xB3 OCR2A (D11) - LED1 Blue  *)
    Ins (STS 180 20);   (* 0xB4 OCR2B (D3)  - LED2 Red   *)
    Ins (STS 72 19);    (* 0x48 OCR0B (D5)  - LED2 Green *)
    Ins (STS 71 21);    (* 0x47 OCR0A (D6)  - LED2 Blue  *)
    Ins (JMP capture_start) ].

Definition program : list item :=
  sync_part ++ capture_part ++ relay_part ++ relay_bit_part ++ update_part.

End Program.

(** ** Assembly into program words *)

Fixpoint assemble (l : list item) : list (option instr) :=
  match l with
  | [] => []
  | Lab _ :: r => assemble r
  | Ins i :: r => Some i :: repeat None (pred (size i)) ++ assemble r
  end.

Fixpoint lab_from (l : label) (its : list item) (a : nat) : nat :=
  match its with
  | [] => 0
  | Lab l' :: r => if label_eqb l l' then a else lab_from l r a
  | Ins i :: r => lab_from l r (size i + a)
  end.

Definition words (c : config) : list (option instr) := assemble (program c).
Definition lab (c : config) (l : label) : nat := lab_from l (program c) 0.

Definition fetch (c : config) (p : nat) : option instr :=
  match nth_error (words c) p with
  | Some (Some i) => Some i
  | _ => None
  end.

(** ** Machine state *)

Record state := mkState {
  pc : nat;            (* word address *)
  time : Z;            (* cycles elapsed *)
  regs : Z -> Z;       (* r0 .. r31 *)
  ds : Z -> Z;         (* data space: I/O registers at 0x20 + a, OCRnx *)
  zf : bool            (* Z flag of SREG *)
}.

Definition upd (f : Z -> Z) (k v : Z) : Z -> Z :=
  fun x => if Z.eqb x k then v else f x.

(** Level of the input line at cycle [t]. *)
Definition input := Z -> bool.

(** Bit [b] of I/O register [a] as read by [sbis]/[sbic]: the data-in pin
    of PIND is the input line at the current cycle. *)
Definition io_bit (c : config) (inp : input) (s : state) (a b : Z) : bool :=
  if Z.eqb a PIND && Z.eqb b (DATA_IN c) then inp (time s)
  else Z.testbit (ds s (a + 32)) b.

Definition out_level (c : config) (s : state) : bool :=
  Z.testbit (ds s (PORTD + 32)) (DATA_OUT c).

Definition jump (s : state) (p : nat) (dt : Z) : state :=
  mkState p (time s + dt) (regs s) (ds s) (zf s).

Definition set_reg (s : state) (r v : Z) (dt : Z) : state :=
  mkState (S (pc s)) (time s + dt) (upd (regs s) r v) (ds s) (Z.eqb v 0).

Definition set_ds (s : state) (a v : Z) (dt : Z) (w : nat) : state :=
  mkState (w + pc s) (time s + dt) (regs s) (upd (ds s) a v) (zf s).

(** A skip takes one extra cycle per word of the skipped instruction. *)
Definition skip (c : config) (s : state) (cond : bool) : option state :=
  if cond then
    match fetch c (S (pc s)) with
    | Some j => Some (jump s (size j + S (pc s)) (1 + Z.of_nat (size j)))
    | None => None
    end
  else Some (jump s (S (pc s)) 1).

Definition step (c : config) (inp : input) (s : state) : option state :=
  match fetch c (pc s) with
  | None => None
  | Some i =>
    match i with
    | SBIS a b => skip c s (io_bit c inp s a b)
    | SBIC a b => skip c s (negb (io_bit c inp s a b))
    | SBI a b => Some (set_ds s (a + 32) (Z.setbit (ds s (a + 32)) b) 2 1)
    | CBI a b => Some (set_ds s (a + 32) (Z.clearbit (ds s (a + 32)) b) 2 1)
    | RJMP k => Some (jump s (Z.to_nat (Z.of_nat (S (pc s)) + k / 2)) 2)
    | JMP l => Some (jump s (lab c l) 3)
    | BRNE l => if zf s then Some (jump s (S (pc s)) 1)
                else Some (jump s (lab c l) 2)
    | NOP => Some (jump s (S (pc s)) 1)
    | LSL r => Some (set_reg s r ((2 * regs s r) mod 256) 1)
    | ORI r k => Some (set_reg s r (Z.lor (regs s r) k) 1)
    | LDI r k => Some (mkState (S (pc s)) (time s + 1) (upd (regs s) r k) (ds s) (zf s))
    | DEC r => Some (set_reg s r ((regs s r - 1) mod 256) 1)
    | COM r => Some (set_reg s r (255 - regs s r) 1)
    | STS a r => Some (set_ds s a (regs s r) 2 2)
    end
  end.

Fixpoint run (c : config) (inp : input) (n : nat) (s : state) : option state :=
  match n with
  | O => Some s
  | S n' => match step c inp s with
            | Some s' => run c inp n' s'
            | None => None
            end
  end.

(** ** Code layout facts *)

Definition instr_eq_dec (x y : instr) : {x = y} + {x <> y}.
Proof. decide equality; try apply Z.eq_dec; decide equality. Defined.

Definition oinstr_eq_dec (x y : option instr) : {x = y} + {x <> y}.
Proof. decide equality; apply instr_eq_dec. Defined.

(** [blk] sits in the program words at address [a]. *)
Definition code_at (c : config) (a : nat) (blk : list (option instr)) : Prop :=
  firstn (length blk) (skipn a (words c)) = blk.

Definition code_atb (w : list (option instr)) (a : nat) (blk : list (option instr)) : bool :=
  if list_eq_dec oinstr_eq_dec (firstn (length blk) (skipn a w)) blk
  then true else false.

Lemma code_atb_ok c a blk : code_atb (words c) a blk = true -> code_at c a blk.
Proof. unfold code_atb, code_at. destruct list_eq_dec; congruence. Qed.

Lemma code_at_fetch c a blk i x :
  code_at c a blk -> nth_error blk i = Some (Some x) -> fetch c (i + a) = Some x.
Proof.
  unfold code_at, fetch. intros H Hi.
  assert (Hlt : (i < length blk)%nat).
  { apply nth_error_Some. congruence. }
  rewrite <- H, nth_error_firstn, nth_error_skipn in Hi.
  replace (Nat.ltb i (length blk)) with true in Hi
    by (symmetry; apply Nat.ltb_lt; exact Hlt).
  rewrite Nat.add_comm, Hi. reflexivity.
Qed.

Ltac offset p a :=
  match p with
  | a => constr:(0%nat)
  | S ?q => let k := offset q a in constr:(S k)
  | (?k + a)%nat => k
  | (?k + ?q)%nat => let j := offset q a in constr:((k + j)%nat)
  end.

(** Solves [fetch c p = Some x] from a [code_at] hypothesis. *)
Ltac fetch_tac :=
  match goal with
  | H : code_at ?c ?a ?blk |- fetch ?c ?p = Some _ =>
      let i := offset p a in
      change p with (i + a)%nat;
      apply (code_at_fetch c a blk i _ H); reflexivity
  end.

(** ** Running *)

Lemma run_S c inp n s s' :
  step c inp s = Some s' -> run c inp (S n) s = run c inp n s'.
Proof. intros H. simpl. rewrite H. reflexivity. Qed.

Lemma run_plus c inp n m s :
  run c inp (n + m) s =
  match run c inp n s with Some s' => run c inp m s' | None => None end.
Proof.
  revert s. induction n as [|n IH]; intros s; simpl; [reflexivity|].
  destruct (step c inp s); [apply IH|reflexivity].
Qed.

Lemma run_seq c inp n m s s1 s2 :
  run c inp n s = Some s1 -> run c inp m s1 = Some s2 -> run c inp (n + m) s = Some s2.
Proof. intros H1 H2. rewrite run_plus, H1. exact H2. Qed.

Lemma run_S_tail c inp n s :
  run c inp (S n) s =
  match run c inp n s with Some s' => step c inp s' | None => None end.
Proof.
  replace (S n) with (n + 1)%nat by lia. rewrite run_plus.
  destruct (run c inp n s); [simpl; destruct step; reflexivity | reflexivity].
Qed.

Lemma jump_jump s p dt p' dt' :
  jump (jump s p dt) p' dt' = jump s p' (dt + dt').
Proof. unfold jump. simpl. f_equal. ring. Qed.

Lemma jump_0 s : jump s (pc s) 0 = s.
Proof. destruct s. unfold jump. simpl. f_equal. ring. Qed.

(** ** One-step lemmas *)

Section Steps.
Variables (c : config) (inp : input) (s : state).

Lemma step_sbis_no a b :
  fetch c (pc s) = Some (SBIS a b) -> io_bit c inp s a b = false ->
  step c inp s = Some (jump s (S (pc s)) 1).
Proof. intros F B. unfold step, skip. rewrite F, B. reflexivity. Qed.

Lemma step_sbis_yes a b j :
  fetch c (pc s) = Some (SBIS a b) -> io_bit c inp s a b = true ->
  fetch c (S (pc s)) = Some j ->
  step c inp s = Some (jump s (size j + S (pc s)) (1 + Z.of_nat (size j))).
Proof. intros F B G. unfold step, skip. rewrite F, B, G. reflexivity. Qed.

Lemma step_sbic_no a b :
  fetch c (pc s) = Some (SBIC a b) -> io_bit c inp s a b = true ->
  step c inp s = Some (jump s (S (pc s)) 1).
Proof. intros F B. unfold step, skip. rewrite F, B. reflexivity. Qed.

Lemma step_sbic_yes a b j :
  fetch c (pc s) = Some (SBIC a b) -> io_bit c inp s a b = false ->
  fetch c (S (pc s)) = Some j ->
  step c inp s = Some (jump s (size j + S (pc s)) (1 + Z.of_nat (size j))).
Proof. intros F B G. unfold step, skip. rewrite F, B, G. reflexivity. Qed.

Lemma step_rjmp k p :
  fetch c (pc s) = Some (RJMP k) -> Z.of_nat (S (pc s)) + k / 2 = Z.of_nat p ->
  step c inp s = Some (jump s p 2).
Proof.
  intros F E. unfold step. rewrite F, E, Nat2Z.id. reflexivity.
Qed.

Lemma step_jmp l :
  fetch c (pc s) = Some (JMP l) -> step c inp s = Some (jump s (lab c l) 3).
Proof. intros F. unfold step. rewrite F. reflexivity. Qed.

Lemma step_nop :
  fetch c (pc s) = Some NOP -> step c inp s = Some (jump s (S (pc s)) 1).
Proof. intros F. unfold step. rewrite F. reflexivity. Qed.

Lemma step_lsl r :
  fetch c (pc s) = Some (LSL r) ->
  step c inp s = Some (set_reg s r ((2 * regs s r) mod 256) 1).
Proof. intros F. unfold step. rewrite F. reflexivity. Qed.

Lemma step_ori r k :
  fetch c (pc s) = Some (ORI r k) ->
  step c inp s = Some (set_reg s r (Z.lor (regs s r) k) 1).
Proof. intros F. unfold step. rewrite F. reflexivity. Qed.

Lemma step_com r :
  fetch c (pc s) = Some (COM r) ->
  step c inp s = Some (set_reg s r (255 - regs s r) 1).
Proof. intros F. unfold step. rewrite F. reflexivity. Qed.

Lemma step_sts a r :
  fetch c (pc s) = Some (STS a r) ->
  step c inp s = Some (set_ds s a (regs s r) 2 2).
Proof. intros F. unfold step. rewrite F. reflexivity. Qed.

Lemma step_sbi a b :
  fetch c (pc s) = Some (SBI a b) ->
  step c inp s = Some (set_ds s (a + 32) (Z.setbit (ds s (a + 32)) b) 2 1).
Proof. intros F. unfold step. rewrite F. reflexivity. Qed.

Lemma step_cbi a b :
  fetch c (pc s) = Some (CBI a b) ->
  step c inp s = Some (set_ds s (a + 32) (Z.clearbit (ds s (a + 32)) b) 2 1).
Proof. intros F. unfold step. rewrite F. reflexivity. Qed.

End Steps.

Lemma io_bit_in c inp s : io_bit c inp s PIND (DATA_IN c) = inp (time s).
Proof. unfold io_bit. rewrite !Z.eqb_refl. reflexivity. Qed.

(** ** Time and input locality *)

Lemma step_time c inp s s' : step c inp s = Some s' -> time s < time s'.
Proof.
  unfold step, skip. destruct (fetch c (pc s)) as [i|]; [|discriminate].
  destruct i; try (intros H; injection H as <-; cbn [time jump set_reg set_ds]; lia).
  - destruct (io_bit _ _ _ _ _); [|intros H; injection H as <-; cbn [time jump set_reg set_ds]; lia].
    destruct (fetch c (S (pc s))) as [j|]; [|discriminate].
    intros H; injection H as <-; cbn [time jump]; destruct j; simpl; lia.
  - destruct (negb (io_bit _ _ _ _ _)); [|intros H; injection H as <-; cbn [time jump set_reg set_ds]; lia].
    destruct (fetch c (S (pc s))) as [j|]; [|discriminate].
    intros H; injection H as <-; cbn [time jump]; destruct j; simpl; lia.
  - destruct (zf s); intros H; injection H as <-; cbn [time jump set_reg set_ds]; lia.
Qed.

Lemma run_time_mono c inp n : forall s s', run c inp n s = Some s' -> time s <= time s'.
Proof.
  induction n as [|n IH]; intros s s' R; simpl in R.
  - injection R as <-. lia.
  - destruct (step c inp s) as [s1|] eqn:E; [|discriminate].
    apply step_time in E. apply IH in R. lia.
Qed.

(** A step reads the input only at the current cycle. *)
Lemma step_local c inp inp' s :
  inp (time s) = inp' (time s) -> step c inp s = step c inp' s.
Proof.
  intros I. unfold step, skip, io_bit. rewrite I. reflexivity.
Qed.

(** A run reads the input only at the cycles of the states it passes. *)
Lemma run_local c inp inp' n : forall s,
  (forall i s1, (i < n)%nat -> run c inp i s = Some s1 -> inp (time s1) = inp' (time s1)) ->
  run c inp n s = run c inp' n s.
Proof.
  induction n as [|n IH]; intros s H; [reflexivity|].
  simpl. rewrite <- (step_local c inp inp' s) by (apply (H 0%nat s); [lia | reflexivity]).
  destruct (step c inp s) as [s1|] eqn:E; [|reflexivity].
  apply IH. intros i s2 Hi R. apply (H (S i)); [lia|]. simpl. rewrite E. exact R.
Qed.

(** ** Busy-wait loops [n: sbis/sbic PIND, DATA_IN ; rjmp nb] *)

Definition poll_instr (c : config) (pol : bool) : instr :=
  if pol then SBIS PIND (DATA_IN c) else SBIC PIND (DATA_IN c).

Section Poll.
Variables (c : config) (inp : input) (pol : bool) (a : nat).
Hypothesis F0 : fetch c a = Some (poll_instr c pol).
Hypothesis F1 : fetch c (S a) = Some (RJMP (-4)).

Lemma poll_again s :
  pc s = a -> inp (time s) = negb pol -> run c inp 2 s = Some (jump s a 3).
Proof.
  intros P I.
  assert (E : step c inp s = Some (jump s (S a) 1)).
  { rewrite <- P. unfold poll_instr in F0. rewrite <- P in F0.
    destruct pol.
    - apply (step_sbis_no _ _ _ PIND (DATA_IN c)); [exact F0|].
      rewrite io_bit_in. exact I.
    - apply (step_sbic_no _ _ _ PIND (DATA_IN c)); [exact F0|].
      rewrite io_bit_in. exact I. }
  rewrite (run_S _ _ _ _ _ E).
  rewrite (run_S _ _ _ _ (jump s a 3)); [reflexivity|].
  rewrite (step_rjmp _ _ _ (-4) a); [ | exact F1 | cbn [pc jump]; change (-4 / 2) with (-2); lia ].
  rewrite jump_jump. reflexivity.
Qed.

Lemma poll_exit s :
  pc s = a -> inp (time s) = pol -> run c inp 1 s = Some (jump s (2 + a) 2).
Proof.
  intros P I. simpl.
  unfold poll_instr in F0. rewrite <- P in F0, F1.
  destruct pol.
  - rewrite (step_sbis_yes _ _ _ PIND (DATA_IN c) (RJMP (-4))); try assumption;
      [rewrite P; reflexivity | rewrite io_bit_in; exact I].
  - rewrite (step_sbic_yes _ _ _ PIND (DATA_IN c) (RJMP (-4))); try assumption;
      [rewrite P; reflexivity | rewrite io_bit_in, I; reflexivity].
Qed.

(** While the line does not show [pol], the loop spins 3 cycles a check. *)
Lemma poll_spin m s :
  pc s = a -> (forall j, (j < m)%nat -> inp (time s + 3 * Z.of_nat j) = negb pol) ->
  run c inp (2 * m) s = Some (jump s a (3 * Z.of_nat m)).
Proof.
  revert s. induction m as [|m IH]; intros s P I.
  - simpl. rewrite <- P at 1. rewrite jump_0. reflexivity.
  - replace (2 * S m)%nat with (2 + 2 * m)%nat by lia.
    rewrite run_plus, poll_again; [| exact P | ].
    + rewrite IH; [ | reflexivity | ].
      * rewrite jump_jump. f_equal. f_equal. lia.
      * intros j Hj. cbn [time jump]. rewrite <- Z.add_assoc.
        replace (3 + 3 * Z.of_nat j) with (3 * Z.of_nat (S j)) by lia.
        apply I. lia.
    + replace (time s) with (time s + 3 * Z.of_nat 0) by lia. apply I. lia.
Qed.

(** The loop leaves at the first check at or after [f]. *)
Lemma poll_ok s f :
  pc s = a -> time s <= f + 2 ->
  (forall t, time s <= t < f -> inp t = negb pol) ->
  (forall t, Z.max (time s) f <= t <= f + 2 -> inp t = pol) ->
  exists n d, Z.max (time s) f <= d <= f + 2 /\
              run c inp n s = Some (jump s (2 + a) (d + 2 - time s)).
Proof.
  intros P Hx Lo Hi.
  set (m := Z.to_nat ((f - time s + 2) / 3)).
  assert (Hm : 3 * Z.of_nat m <= Z.max 0 (f - time s + 2) < 3 * Z.of_nat m + 3).
  { unfold m. rewrite Z2Nat.id by (apply Z.div_pos; lia).
    pose proof (Z.mul_div_le (f - time s + 2) 3).
    pose proof (Z.mod_pos_bound (f - time s + 2) 3).
    pose proof (Z.div_mod (f - time s + 2) 3). lia. }
  exists (2 * m + 1)%nat, (time s + 3 * Z.of_nat m). split; [lia|].
  rewrite run_plus, poll_spin; [ | exact P | ].
  - rewrite poll_exit; [ | reflexivity | ].
    + rewrite jump_jump. f_equal. f_equal. lia.
    + cbn [time jump]. apply Hi. lia.
  - intros j Hj. apply Lo. lia.
Qed.

(** While the line does not show [pol], the loop stays on its two words
    and changes neither registers nor data space. *)
Lemma poll_stay T n : forall s s',
  (pc s = a \/ pc s = S a) -> run c inp n s = Some s' -> time s' < T ->
  (forall t, time s <= t < T -> inp t = negb pol) ->
  (pc s' = a \/ pc s' = S a) /\ regs s' = regs s /\ ds s' = ds s.
Proof.
  induction n as [|n IH]; intros s s' P R Ts Lo.
  - simpl in R. injection R as <-. auto.
  - simpl in R. destruct (step c inp s) as [s1|] eqn:E; [|discriminate].
    assert (T1 := run_time_mono _ _ _ _ _ R).
    assert (T0 := step_time _ _ _ _ E).
    assert (P1 : (pc s1 = a \/ pc s1 = S a) /\ regs s1 = regs s /\ ds s1 = ds s).
    { destruct P as [P|P].
      - assert (E' : step c inp s = Some (jump s (S a) 1)).
        { rewrite <- P. unfold poll_instr in F0. rewrite <- P in F0.
          assert (I : inp (time s) = negb pol) by (apply Lo; lia).
          destruct pol.
          - apply (step_sbis_no _ _ _ PIND (DATA_IN c)); [exact F0|].
            rewrite io_bit_in. exact I.
          - apply (step_sbic_no _ _ _ PIND (DATA_IN c)); [exact F0|].
            rewrite io_bit_in. exact I. }
        rewrite E' in E. injection E as <-. cbn [pc regs ds jump]. auto.
      - rewrite (step_rjmp _ _ _ (-4) a) in E;
          [ | rewrite P; exact F1 | rewrite P; change (-4 / 2) with (-2); lia ].
        injection E as <-. cbn [pc regs ds jump]. auto. }
    destruct P1 as (P1 & G1 & D1).
    destruct (IH s1 s' P1 R Ts) as (P2 & G2 & D2).
    + intros t Ht. apply Lo. lia.
    + split; [exact P2|]. split; congruence.
Qed.

End Poll.

(** ** [READ_BIT]: one pulse, one bit *)

Lemma lor_double_1 k : Z.lor (2 * k) 1 = 2 * k + 1.
Proof.
  apply Z.bits_inj'. intros n Hn. rewrite Z.lor_spec.
  destruct (Z.eq_dec n 0) as [->|Hn0].
  - rewrite Z.testbit_even_0, Z.testbit_odd_0. reflexivity.
  - replace n with (Z.succ (Z.pred n)) by lia.
    rewrite Z.testbit_even_succ, Z.testbit_odd_succ by lia.
    replace (Z.testbit 1 (Z.succ (Z.pred n))) with false.
    + apply Bool.orb_false_r.
    + symmetry. apply (Z.bits_above_log2 1); simpl; lia.
Qed.

(** The value left in the register by one [READ_BIT]: shifted left, new
    bit in bit 0. *)
Definition shift_in (v : Z) (b : bool) : Z :=
  (2 * v) mod 256 + (if b then 1 else 0).

(** Cycles the line stays high for a WS2812 0 and 1 bit, and is low for
    the rest of the 20-cycle (1.25us) bit period. *)
Definition hi_len (b : bool) : Z := if b then 12 else 6.

Ltac cbn_st := cbn [pc time regs ds zf jump set_reg set_ds size].

Ltac nop_step :=
  erewrite run_S; [ | apply step_nop; cbn_st; fetch_tac ]; cbn_st.

Lemma read_bit_ok c inp r a s e h b :
  code_at c a (assemble (READ_BIT c r)) -> pc s = a ->
  (b = false /\ 4 <= h <= 7 \/ b = true /\ 10 <= h) ->
  time s <= e + 2 ->
  (forall t, time s <= t < e -> inp t = false) ->
  (forall t, e <= t < e + h -> inp t = true) ->
  (forall t, e + h <= t < e + h + 8 -> inp t = false) ->
  exists n s', run c inp n s = Some s' /\ pc s' = (11 + a)%nat /\
    e + h < time s' <= Z.max (e + 13) (e + h + 4) /\
    (forall q, regs s' q = upd (regs s) r (shift_in (regs s r) b) q) /\
    ds s' = ds s.
Proof.
  intros H P HB Hx Lo Hi Lo2.
  (* 1. wait for rise *)
  destruct (poll_ok c inp true a ltac:(fetch_tac) ltac:(fetch_tac) s e P Hx Lo)
    as (n1 & d & Hd & R1).
  { intros t Ht. apply Hi. lia. }
  set (s1 := jump s (2 + a) (d + 2 - time s)) in R1.
  (* 2. four nops, lsl *)
  assert (R2 : run c inp 5 s1 =
               Some (set_reg (jump s1 (6 + a) 4) r ((2 * regs s r) mod 256) 1)).
  { unfold s1. do 4 nop_step.
    erewrite run_S; [ | apply step_lsl; cbn_st; fetch_tac ].
    cbn_st. rewrite !jump_jump. reflexivity. }
  set (s2 := set_reg (jump s1 (6 + a) 4) r ((2 * regs s r) mod 256) 1) in R2.
  assert (T2 : time s2 = d + 7) by (unfold s2, s1; cbn_st; lia).
  (* 3. sample *)
  assert (R3 : exists s3, run c inp (if b then 2 else 1)%nat s2 = Some s3 /\
                 pc s3 = (9 + a)%nat /\ time s3 = d + 9 /\
                 (forall q, regs s3 q = upd (regs s) r (shift_in (regs s r) b) q) /\
                 ds s3 = ds s).
  { destruct HB as [[-> Hh] | [-> Hh]].
    - eexists. split.
      + erewrite run_S; [reflexivity | ].
        apply (step_sbic_yes _ _ _ PIND (DATA_IN c) (ORI r 1));
          [ unfold s2; cbn_st; fetch_tac
          | rewrite io_bit_in, T2; apply Lo2; lia
          | unfold s2; cbn_st; fetch_tac ].
      + unfold s2, s1, shift_in. cbn_st. repeat split; try lia.
        intros q. unfold upd. destruct (q =? r); lia.
    - eexists. split.
      + erewrite run_S; [ | apply (step_sbic_no _ _ _ PIND (DATA_IN c));
          [ unfold s2; cbn_st; fetch_tac | rewrite io_bit_in, T2; apply Hi; lia ] ].
        erewrite run_S; [reflexivity | apply step_ori; unfold s2; cbn_st; fetch_tac ].
      + unfold s2, s1, shift_in. cbn_st. repeat split; try lia.
        intros q. unfold upd. destruct (q =? r); [|reflexivity].
        rewrite Z.eqb_refl.
        replace ((2 * regs s r) mod 256) with (2 * (regs s r mod 128))
          by (symmetry; apply (Z.mul_mod_distr_l _ 128 2); lia).
        apply lor_double_1. }
  destruct R3 as (s3 & R3 & P3 & T3 & G3 & D3).
  (* 4. wait for fall *)
  set (f := if b then e + h else d + 7).
  destruct (poll_ok c inp false (9 + a) ltac:(fetch_tac) ltac:(fetch_tac) s3 f P3)
    as (n4 & d' & Hd' & R4).
  { unfold f. destruct HB as [[-> ?] | [-> ?]]; lia. }
  { intros t Ht. unfold f in Ht. destruct HB as [[-> ?] | [-> ?]]; [lia|].
    apply Hi. lia. }
  { intros t Ht. unfold f in Ht. apply Lo2.
    destruct HB as [[-> ?] | [-> ?]]; lia. }
  eexists. eexists. split.
  { eapply run_seq; [exact R1|].
    eapply run_seq; [exact R2|].
    eapply run_seq; [exact R3|]. exact R4. }
  cbn_st. split; [reflexivity|]. split; [|split; [exact G3 | exact D3]].
  unfold f in Hd'. destruct HB as [[-> ?] | [-> ?]]; lia.
Qed.

(** ** Where the blocks of the program sit *)

Definition capture_layout_b (c : config) : bool :=
  let w := words c in
  forallb (fun k => code_atb w (11 * k + lab c capture_start)
                      (assemble (READ_BIT c (nth (k / 8) (capture_regs c) 0))))
          (seq 0 (8 * length (capture_regs c))).

Definition relay_layout_b (c : config) : bool :=
  let w := words c in
  forallb (fun k => code_atb w (5 * k + lab c relay_entry) (assemble (relay_check c)))
          (seq 0 256) &&
  code_atb w (1280 + lab c relay_entry) (assemble [Ins (JMP update_now)]) &&
  code_atb w (lab c relay_bit) (assemble (relay_bit_part c)) &&
  code_atb w (lab c update_now) (assemble (update_part c)) &&
  Nat.eqb (lab c relay_entry) (88 * length (capture_regs c) + lab c capture_start) &&
  Nat.eqb (lab c relay_bit) (1282 + lab c relay_entry) &&
  Nat.eqb (lab c update_now) (1290 + lab c relay_entry).

Definition all_configs : list config :=
  [mkConfig true false; mkConfig false false; mkConfig true true; mkConfig false true].

Lemma all_configs_in c : In c all_configs.
Proof. destruct c as [[|] [|]]; simpl; tauto. Qed.

Lemma layouts_ok : forallb (fun c => capture_layout_b c && relay_layout_b c) all_configs = true.
Proof. vm_compute. reflexivity. Qed.

Lemma layout_of c : capture_layout_b c = true /\ relay_layout_b c = true.
Proof.
  pose proof layouts_ok as H. rewrite forallb_forall in H.
  specialize (H c (all_configs_in c)). apply andb_prop in H. exact H.
Qed.

Ltac split_andb :=
  repeat match goal with
         | H : andb _ _ = true |- _ => apply andb_prop in H; destruct H
         end.

Lemma capture_code c k :
  (k < 8 * length (capture_regs c))%nat ->
  code_at c (11 * k + lab c capture_start)
    (assemble (READ_BIT c (nth (k / 8) (capture_regs c) 0))).
Proof.
  intros Hk. destruct (layout_of c) as [H _]. unfold capture_layout_b in H; cbv zeta in H.
  rewrite forallb_forall in H. apply code_atb_ok, H, in_seq. lia.
Qed.

Lemma relay_code c k :
  (k < 256)%nat -> code_at c (5 * k + lab c relay_entry) (assemble (relay_check c)).
Proof.
  intros Hk. destruct (layout_of c) as [_ H]. unfold relay_layout_b in H; cbv zeta in H.
  split_andb.
  match goal with Hf : forallb _ _ = true |- _ =>
    rewrite forallb_forall in Hf; apply code_atb_ok, Hf, in_seq; lia end.
Qed.

Lemma relay_end_code c :
  code_at c (1280 + lab c relay_entry) (assemble [Ins (JMP update_now)]).
Proof.
  destruct (layout_of c) as [_ H]. unfold relay_layout_b in H; cbv zeta in H.
  split_andb. apply code_atb_ok. assumption.
Qed.

Lemma relay_bit_code c : code_at c (lab c relay_bit) (assemble (relay_bit_part c)).
Proof.
  destruct (layout_of c) as [_ H]. unfold relay_layout_b in H; cbv zeta in H.
  split_andb. apply code_atb_ok. assumption.
Qed.

Lemma update_code c : code_at c (lab c update_now) (assemble (update_part c)).
Proof.
  destruct (layout_of c) as [_ H]. unfold relay_layout_b in H; cbv zeta in H.
  split_andb. apply code_atb_ok. assumption.
Qed.

Lemma lab_relay_entry c :
  lab c relay_entry = (88 * length (capture_regs c) + lab c capture_start)%nat.
Proof.
  destruct (layout_of c) as [_ H]. unfold relay_layout_b in H; cbv zeta in H.
  split_andb. apply Nat.eqb_eq. assumption.
Qed.

Lemma lab_relay_bit c : lab c relay_bit = (1282 + lab c relay_entry)%nat.
Proof.
  destruct (layout_of c) as [_ H]. unfold relay_layout_b in H; cbv zeta in H.
  split_andb. apply Nat.eqb_eq. assumption.
Qed.

Lemma lab_update_now c : lab c update_now = (1290 + lab c relay_entry)%nat.
Proof.
  destruct (layout_of c) as [_ H]. unfold relay_layout_b in H; cbv zeta in H.
  split_andb. apply Nat.eqb_eq. assumption.
Qed.

(** ** Runs that never pass a given address *)

Definition avoids (c : config) (inp : input) (n : nat) (s : state) (p : nat) : Prop :=
  forall i s', (i <= n)%nat -> run c inp i s = Some s' -> pc s' <> p.

Lemma avoids_0 c inp s p : pc s <> p -> avoids c inp 0 s p.
Proof.
  intros H i s' Hi R. assert (i = 0%nat) by lia. subst. simpl in R.
  injection R as <-. exact H.
Qed.

Lemma avoids_S c inp n s s1 p :
  pc s <> p -> step c inp s = Some s1 -> avoids c inp n s1 p -> avoids c inp (S n) s p.
Proof.
  intros H E A i s' Hi R. destruct i as [|i].
  - simpl in R. injection R as <-. exact H.
  - rewrite (run_S _ _ _ _ _ E) in R. apply (A i); [lia | exact R].
Qed.

Lemma avoids_seq c inp n m s s1 p :
  avoids c inp n s p -> run c inp n s = Some s1 -> avoids c inp m s1 p ->
  avoids c inp (n + m) s p.
Proof.
  intros A1 R1 A2 i s' Hi R.
  destruct (Nat.le_gt_cases i n) as [Hle|Hgt].
  - exact (A1 i s' Hle R).
  - replace i with (n + (i - n))%nat in R by lia.
    rewrite run_plus, R1 in R. apply (A2 (i - n)%nat); [lia | exact R].
Qed.

Lemma state_ext s s' :
  pc s = pc s' -> time s = time s' -> regs s = regs s' -> ds s = ds s' -> zf s = zf s' ->
  s = s'.
Proof. destruct s, s'. simpl. intros; subst. reflexivity. Qed.

Lemma clearbit_clearbit x n : Z.clearbit (Z.clearbit x n) n = Z.clearbit x n.
Proof.
  apply Z.bits_inj'. intros m Hm. rewrite !Z.clearbit_eqb.
  destruct (Z.testbit x m), (n =? m); reflexivity.
Qed.

(** ** The relay phase *)

(** The state after the output line has been raised. *)
Definition raise_out (c : config) (s : state) : Z -> Z :=
  upd (ds s) (PORTD + 32) (Z.setbit (ds s (PORTD + 32)) (DATA_OUT c)).

Definition lower_out (c : config) (s : state) : Z -> Z :=
  upd (ds s) (PORTD + 32) (Z.clearbit (ds s (PORTD + 32)) (DATA_OUT c)).

Section Relay.
Variables (c : config) (inp : input).
Let R := lab c relay_entry.

Lemma update_not_check k : (k < 256)%nat ->
  (5 * k + R)%nat <> lab c update_now /\ S (5 * k + R) <> lab c update_now.
Proof. intros Hk. rewrite lab_update_now. unfold R. lia. Qed.

(** A check that sees the line low moves to the next check, 3 cycles later. *)
Lemma relay_spin m : forall k s,
  (k + m <= 256)%nat -> pc s = (5 * k + R)%nat ->
  (forall j, (j < m)%nat -> inp (time s + 3 * Z.of_nat j) = false) ->
  run c inp (2 * m) s = Some (jump s (5 * (k + m) + R) (3 * Z.of_nat m)) /\
  avoids c inp (2 * m) s (lab c update_now).
Proof.
  induction m as [|m IH]; intros k s Hk P I.
  - split.
    + simpl. f_equal. apply state_ext; cbn_st; try reflexivity; lia.
    + apply avoids_0. rewrite P, lab_update_now. unfold R. lia.
  - assert (Hc := relay_code c k ltac:(lia)). fold R in Hc.
    assert (E1 : step c inp s = Some (jump s (S (pc s)) 1)).
    { apply (step_sbis_no _ _ _ PIND (DATA_IN c)).
      - rewrite P. fetch_tac.
      - rewrite io_bit_in. replace (time s) with (time s + 3 * Z.of_nat 0) by lia.
        apply I. lia. }
    assert (E2 : step c inp (jump s (S (pc s)) 1) =
                 Some (jump (jump s (S (pc s)) 1) (5 * S k + R) 2)).
    { apply (step_rjmp _ _ _ 6).
      - cbn_st. rewrite P. fetch_tac.
      - cbn_st. rewrite P. change (6 / 2) with 3. lia. }
    set (s2 := jump (jump s (S (pc s)) 1) (5 * S k + R) 2) in E2.
    destruct (IH (S k) s2) as [R3 A3]; [lia | reflexivity | | ].
    { intros j Hj. unfold s2. cbn_st.
      replace (time s + 1 + 2 + 3 * Z.of_nat j) with (time s + 3 * Z.of_nat (S j)) by lia.
      apply I. lia. }
    destruct (update_not_check k ltac:(lia)) as [N1 N2].
    split.
    + replace (2 * S m)%nat with (S (S (2 * m))) by lia.
      rewrite (run_S _ _ _ _ _ E1), (run_S _ _ _ _ _ E2), R3.
      f_equal. unfold s2. apply state_ext; cbn_st; try reflexivity; lia.
    + replace (2 * S m)%nat with (S (S (2 * m))) by lia.
      eapply avoids_S; [ rewrite P; exact N1 | exact E1 | ].
      eapply avoids_S; [ cbn_st; rewrite P; exact N2 | exact E2 | exact A3 ].
Qed.

End Relay.

Definition reaches (c : config) (inp : input) (n : nat) (s s' : state) (p : nat) : Prop :=
  run c inp n s = Some s' /\ avoids c inp n s p.

Lemma reaches_0 c inp s p : pc s <> p -> reaches c inp 0 s s p.
Proof. intros H. split; [reflexivity | apply avoids_0, H]. Qed.

Lemma reaches_S c inp n s s1 s' p :
  pc s <> p -> step c inp s = Some s1 -> reaches c inp n s1 s' p ->
  reaches c inp (S n) s s' p.
Proof.
  intros H E [R A]. split; [rewrite (run_S _ _ _ _ _ E); exact R|].
  exact (avoids_S _ _ _ _ _ _ H E A).
Qed.

Lemma reaches_seq c inp n m s s1 s2 p :
  reaches c inp n s s1 p -> reaches c inp m s1 s2 p -> reaches c inp (n + m) s s2 p.
Proof.
  intros [R1 A1] [R2 A2]. split; [exact (run_seq _ _ _ _ _ _ _ R1 R2)|].
  exact (avoids_seq _ _ _ _ _ _ _ A1 R1 A2).
Qed.

Lemma reaches_eq c inp n s s1 s2 p : s1 = s2 -> reaches c inp n s s1 p -> reaches c inp n s s2 p.
Proof. intros ->. exact (fun H => H). Qed.

Section Relay2.
Variables (c : config) (inp : input).
Let R := lab c relay_entry.
Let B := lab c relay_bit.

Ltac neq_tac :=
  cbn_st;
  repeat match goal with P : pc _ = _ |- _ => rewrite P; clear P end;
  unfold R, B; rewrite ?lab_update_now, ?lab_relay_bit; lia.

(** A check that sees the line high raises the output (end of cycle 4)
    and reaches [relay_bit] 7 cycles after the check started. *)
Lemma relay_detect k s :
  (k < 256)%nat -> pc s = (5 * k + R)%nat -> inp (time s) = true ->
  reaches c inp 3 s
    (mkState B (time s + 7) (regs s) (raise_out c s) (zf s)) (lab c update_now).
Proof.
  intros Hk P I. assert (Hc := relay_code c k Hk). fold R in Hc.
  eapply reaches_S; [ neq_tac | apply (step_sbis_yes _ _ _ PIND (DATA_IN c) (RJMP 6));
    [ rewrite P; fetch_tac | rewrite io_bit_in; exact I | rewrite P; fetch_tac ] | ].
  eapply reaches_S; [ neq_tac | apply step_sbi; cbn_st; rewrite P; fetch_tac | ].
  eapply reaches_S; [ neq_tac | apply step_jmp; cbn_st; rewrite P; fetch_tac | ].
  eapply reaches_eq; [ | apply reaches_0; neq_tac ].
  apply state_ext; cbn_st; try reflexivity. lia.
Qed.

(** The same, step by step: the output line rises with the [sbi], 4
    cycles after the check that saw the line high. *)
Lemma relay_raise k s :
  (k < 256)%nat -> pc s = (5 * k + R)%nat -> inp (time s) = true ->
  exists s1, run c inp 2 s = Some s1 /\ time s1 = time s + 4 /\ out_level c s1 = true /\
    reaches c inp 1 s1
      (mkState B (time s + 7) (regs s) (raise_out c s) (zf s)) (lab c update_now).
Proof.
  intros Hk P I. assert (Hc := relay_code c k Hk). fold R in Hc.
  eexists. split.
  - erewrite run_S; [ | apply (step_sbis_yes _ _ _ PIND (DATA_IN c) (RJMP 6));
      [ rewrite P; fetch_tac | rewrite io_bit_in; exact I | rewrite P; fetch_tac ] ].
    erewrite run_S; [ reflexivity | apply step_sbi; cbn_st; rewrite P; fetch_tac ].
  - split; [cbn_st; lia|]. split.
    + unfold out_level. cbn_st. unfold upd. rewrite Z.eqb_refl. apply Z.setbit_eq.
      unfold DATA_OUT. destruct (alternate_data_pins c); lia.
    + eapply reaches_S; [ neq_tac | apply step_jmp; cbn_st; rewrite P; fetch_tac | ].
      eapply reaches_eq; [ | apply reaches_0; neq_tac ].
      apply state_ext; cbn_st; try reflexivity. lia.
Qed.

(** The 256th check falls through to [jmp update_now]. *)
Lemma relay_exhausted s :
  pc s = (1280 + R)%nat ->
  run c inp 1 s = Some (jump s (lab c update_now) 3).
Proof.
  intros P. assert (Hc := relay_end_code c). fold R in Hc.
  simpl. rewrite (step_jmp _ _ _ update_now); [reflexivity|].
  rewrite P. fetch_tac.
Qed.

(** Cycles from [relay_bit] back to [relay_entry], by the line level at
    the first sample and at the second one. *)
Definition relay_dur (b1 b2 : bool) : Z :=
  if b1 then (if b2 then 11 else 10) else (if b2 then 12 else 11).

Definition relay_steps (b1 b2 : bool) : nat :=
  if b1 then (if b2 then 6 else 5) else (if b2 then 7 else 6).

Lemma relay_bit_ok s :
  pc s = B ->
  let b1 := inp (time s) in
  let b2 := inp (time s + if b1 then 2 else 3) in
  exists s', reaches c inp (relay_steps b1 b2) s s' (lab c update_now) /\
    pc s' = R /\ time s' = time s + relay_dur b1 b2 /\
    regs s' = regs s /\ (forall q, ds s' q = lower_out c s q) /\ zf s' = zf s.
Proof.
  intros P b1 b2. assert (Hc := relay_bit_code c). fold B in Hc.
  unfold b2, b1; clear b1 b2.
  destruct (inp (time s)) eqn:I1;
  [ destruct (inp (time s + 2)) eqn:I2 | destruct (inp (time s + 3)) eqn:I2 ];
  eexists; split.
  - (* 1-bit, still high at the second sample *)
    eapply reaches_S; [ neq_tac | apply (step_sbis_yes _ _ _ PIND (DATA_IN c) (CBI PORTD (DATA_OUT c)));
      [ rewrite P; fetch_tac | rewrite io_bit_in; exact I1 | rewrite P; fetch_tac ] | ].
    eapply reaches_S; [ neq_tac | apply (step_sbic_no _ _ _ PIND (DATA_IN c));
      [ cbn_st; rewrite P; fetch_tac | rewrite io_bit_in; cbn_st; rewrite <- I2; f_equal; lia ] | ].
    eapply reaches_S; [ neq_tac | apply (step_rjmp _ _ _ 0 (4 + B));
      [ cbn_st; rewrite P; fetch_tac | cbn_st; rewrite P; change (0 / 2) with 0; lia ] | ].
    eapply reaches_S; [ neq_tac | apply step_nop; cbn_st; fetch_tac | ].
    eapply reaches_S; [ neq_tac | apply step_cbi; cbn_st; fetch_tac | ].
    eapply reaches_S; [ neq_tac | apply step_jmp; cbn_st; fetch_tac | ].
    apply reaches_0; neq_tac.
  - cbn_st. unfold relay_dur. repeat split; try reflexivity; try lia.
  - (* 1-bit that has fallen by the second sample *)
    eapply reaches_S; [ neq_tac | apply (step_sbis_yes _ _ _ PIND (DATA_IN c) (CBI PORTD (DATA_OUT c)));
      [ rewrite P; fetch_tac | rewrite io_bit_in; exact I1 | rewrite P; fetch_tac ] | ].
    eapply reaches_S; [ neq_tac | apply (step_sbic_yes _ _ _ PIND (DATA_IN c) (RJMP 0));
      [ cbn_st; rewrite P; fetch_tac | rewrite io_bit_in; cbn_st; rewrite <- I2; f_equal; lia
      | cbn_st; rewrite P; fetch_tac ] | ].
    eapply reaches_S; [ neq_tac | apply step_nop; cbn_st; rewrite P; fetch_tac | ].
    eapply reaches_S; [ neq_tac | apply step_cbi; cbn_st; rewrite P; fetch_tac | ].
    eapply reaches_S; [ neq_tac | apply step_jmp; cbn_st; rewrite P; fetch_tac | ].
    apply reaches_0; neq_tac.
  - cbn_st. unfold relay_dur. repeat split; try reflexivity; try lia.
  - (* low at the first sample, high again at the second *)
    eapply reaches_S; [ neq_tac | apply (step_sbis_no _ _ _ PIND (DATA_IN c));
      [ rewrite P; fetch_tac | rewrite io_bit_in; exact I1 ] | ].
    eapply reaches_S; [ neq_tac | apply step_cbi; cbn_st; rewrite P; fetch_tac | ].
    eapply reaches_S; [ neq_tac | apply (step_sbic_no _ _ _ PIND (DATA_IN c));
      [ cbn_st; rewrite P; fetch_tac | rewrite io_bit_in; cbn_st; rewrite <- I2; f_equal; lia ] | ].
    eapply reaches_S; [ neq_tac | apply (step_rjmp _ _ _ 0 (4 + B));
      [ cbn_st; rewrite P; fetch_tac | cbn_st; rewrite P; change (0 / 2) with 0; lia ] | ].
    eapply reaches_S; [ neq_tac | apply step_nop; cbn_st; fetch_tac | ].
    eapply reaches_S; [ neq_tac | apply step_cbi; cbn_st; fetch_tac | ].
    eapply reaches_S; [ neq_tac | apply step_jmp; cbn_st; fetch_tac | ].
    apply reaches_0; neq_tac.
  - cbn_st. unfold relay_dur. repeat split; try reflexivity; try lia.
    intros q. unfold lower_out, upd. destruct (q =? PORTD + 32); [|reflexivity].
    rewrite Z.eqb_refl. apply clearbit_clearbit.
  - (* 0-bit *)
    eapply reaches_S; [ neq_tac | apply (step_sbis_no _ _ _ PIND (DATA_IN c));
      [ rewrite P; fetch_tac | rewrite io_bit_in; exact I1 ] | ].
    eapply reaches_S; [ neq_tac | apply step_cbi; cbn_st; rewrite P; fetch_tac | ].
    eapply reaches_S; [ neq_tac | apply (step_sbic_yes _ _ _ PIND (DATA_IN c) (RJMP 0));
      [ cbn_st; rewrite P; fetch_tac | rewrite io_bit_in; cbn_st; rewrite <- I2; f_equal; lia
      | cbn_st; rewrite P; fetch_tac ] | ].
    eapply reaches_S; [ neq_tac | apply step_nop; cbn_st; rewrite P; fetch_tac | ].
    eapply reaches_S; [ neq_tac | apply step_cbi; cbn_st; rewrite P; fetch_tac | ].
    eapply reaches_S; [ neq_tac | apply step_jmp; cbn_st; rewrite P; fetch_tac | ].
    apply reaches_0; neq_tac.
  - cbn_st. unfold relay_dur. repeat split; try reflexivity; try lia.
    intros q. unfold lower_out, upd. destruct (q =? PORTD + 32); [|reflexivity].
    rewrite Z.eqb_refl. apply clearbit_clearbit.
Qed.

End Relay2.

(** ** The update phase *)

(** [com] on the registers of the captured bytes. *)
Definition com_regs (c : config) (g : Z -> Z) : Z -> Z :=
  fun q => if existsb (Z.eqb q) (capture_regs c) then 255 - g q else g q.

(** The six [sts] of the update phase, as (address, register). *)
Definition ocr_writes : list (Z * Z) :=
  [(136, 17); (138, 16); (179, 18); (180, 20); (72, 19); (71, 21)].

Definition commit_ds (g : Z -> Z) (d : Z -> Z) : Z -> Z :=
  fold_left (fun d' ar => upd d' (fst ar) (g (snd ar))) ocr_writes d.

Definition update_steps (c : config) : nat := if TWO_LEDS c then 13 else 10.
Definition update_cycles (c : config) : Z := if TWO_LEDS c then 21 else 18.

Ltac split_eqb q :=
  repeat match goal with
         | |- context [Z.eqb q ?x] => destruct (Z.eqb_spec q x); subst
         end.

Lemma update_ok c inp s :
  pc s = lab c update_now ->
  exists s', run c inp (update_steps c) s = Some s' /\
    pc s' = lab c capture_start /\ time s' = time s + update_cycles c /\
    (forall q, regs s' q = com_regs c (regs s) q) /\
    (forall q, ds s' q = commit_ds (com_regs c (regs s)) (ds s) q).
Proof.
  intros P. assert (Hc := update_code c). unfold update_part in Hc.
  unfold update_steps, update_cycles, com_regs, commit_ds, capture_regs.
  destruct (TWO_LEDS c).
  - eexists. split.
    + do 6 (erewrite run_S; [ | apply step_com; cbn_st; rewrite ?P; fetch_tac ]).
      do 6 (erewrite run_S; [ | apply step_sts; cbn_st; rewrite ?P; fetch_tac ]).
      erewrite run_S; [ reflexivity | apply step_jmp; cbn_st; rewrite ?P; fetch_tac ].
    + cbn_st. split; [reflexivity|]. split; [lia|].
      split; intros q; unfold upd, ocr_writes;
        cbn [fold_left fst snd existsb app regs ds set_reg set_ds];
        split_eqb q; reflexivity.
  - eexists. split.
    + do 3 (erewrite run_S; [ | apply step_com; cbn_st; rewrite ?P; fetch_tac ]).
      do 6 (erewrite run_S; [ | apply step_sts; cbn_st; rewrite ?P; fetch_tac ]).
      erewrite run_S; [ reflexivity | apply step_jmp; cbn_st; rewrite ?P; fetch_tac ].
    + cbn_st. split; [reflexivity|]. split; [lia|].
      split; intros q; unfold upd, ocr_writes;
        cbn [fold_left fst snd existsb app regs ds set_reg set_ds];
        split_eqb q; reflexivity.
Qed.

(** After its first step the update phase does not come back to
    [update_now]. *)
Lemma update_avoids c inp s :
  pc s = lab c update_now ->
  exists s1, step c inp s = Some s1 /\
    avoids c inp (pred (update_steps c)) s1 (lab c update_now).
Proof.
  intros P. assert (Hc := update_code c). unfold update_part in Hc.
  unfold update_steps.
  assert (N : lab c capture_start <> lab c update_now)
    by (rewrite lab_update_now, lab_relay_entry; lia).
  destruct (TWO_LEDS c); (eexists; split; [apply step_com; rewrite P; fetch_tac|]);
    repeat (eapply avoids_S;
      [ cbn_st; rewrite ?P; lia
      | first [ apply step_com; cbn_st; rewrite ?P; fetch_tac
              | apply step_sts; cbn_st; rewrite ?P; fetch_tac ]
      | ]);
    (eapply avoids_S; [ cbn_st; rewrite ?P; lia | apply step_jmp; cbn_st; rewrite ?P; fetch_tac | ]);
    apply avoids_0; cbn_st; exact N.
Qed.

(** ** The capture phase over a train of bits *)

(** A WS2812 bit whose period starts at cycle [e]. *)
Definition pulse (inp : input) (e : Z) (b : bool) : Prop :=
  (forall t, e <= t < e + hi_len b -> inp t = true) /\
  (forall t, e + hi_len b <= t < e + 20 -> inp t = false).

(** Consecutive bits, one every 20 cycles from [e]. *)
Definition pulses (inp : input) (e : Z) (bits : list bool) : Prop :=
  forall i b, nth_error bits i = Some b -> pulse inp (e + 20 * Z.of_nat i) b.

Lemma pulses_cons inp e b bs :
  pulses inp e (b :: bs) -> pulse inp e b /\ pulses inp (e + 20) bs.
Proof.
  intros H. split.
  - specialize (H 0%nat b eq_refl). simpl in H. rewrite Z.add_0_r in H. exact H.
  - intros i b' Hi. specialize (H (S i) b' Hi).
    replace (e + 20 + 20 * Z.of_nat i) with (e + 20 * Z.of_nat (S i)) by lia. exact H.
Qed.

Lemma pulses_app inp e xs ys :
  pulses inp e (xs ++ ys) -> pulses inp e xs /\ pulses inp (e + 20 * Z.of_nat (length xs)) ys.
Proof.
  intros H. split.
  - intros i b Hi. apply H. rewrite nth_error_app1; [exact Hi|].
    apply nth_error_Some. congruence.
  - intros i b Hi. specialize (H (length xs + i)%nat b).
    rewrite nth_error_app2, Nat.add_comm, Nat.add_sub in H by lia.
    replace (e + 20 * Z.of_nat (length xs) + 20 * Z.of_nat i)
      with (e + 20 * Z.of_nat (i + length xs)) by lia. exact (H Hi).
Qed.

(** The registers after the [READ_BIT]s from bit index [k] on: bit [k]
    is shifted into register [capture_regs[k / 8]]. *)
Fixpoint capture_fold (c : config) (k : nat) (bits : list bool) (g : Z -> Z) : Z -> Z :=
  match bits with
  | [] => g
  | b :: bs =>
      let r := nth (k / 8) (capture_regs c) 0 in
      capture_fold c (S k) bs (upd g r (shift_in (g r) b))
  end.

Lemma capture_fold_ext c bs : forall k g g',
  (forall q, g q = g' q) -> forall q, capture_fold c k bs g q = capture_fold c k bs g' q.
Proof.
  induction bs as [|b bs IH]; intros k g g' H q; simpl; [apply H|].
  apply IH. intros q'. unfold upd. rewrite !H. reflexivity.
Qed.

Lemma capture_bits c inp bits : forall k s e,
  (k + length bits <= 8 * length (capture_regs c))%nat ->
  pc s = (11 * k + lab c capture_start)%nat ->
  time s <= e + 2 ->
  (forall t, time s <= t < e -> inp t = false) ->
  pulses inp e bits ->
  exists n s', run c inp n s = Some s' /\
    pc s' = (11 * (k + length bits) + lab c capture_start)%nat /\
    time s' <= e + 20 * Z.of_nat (length bits) + 2 /\
    (bits <> [] -> e + 20 * Z.of_nat (length bits) - 20 < time s') /\
    (forall t, time s' <= t < e + 20 * Z.of_nat (length bits) -> inp t = false) /\
    (forall q, regs s' q = capture_fold c k bits (regs s) q) /\
    ds s' = ds s.
Proof.
  induction bits as [|b bs IH]; intros k s e Hk P Hx Lo Pu.
  - exists 0%nat, s. simpl length. rewrite Nat.add_0_r.
    split; [reflexivity|]. split; [exact P|]. split; [lia|].
    split; [intros []; reflexivity|]. split; [intros t Ht; apply Lo; lia|].
    split; reflexivity.
  - change (length (b :: bs)) with (S (length bs)) in *.
    apply pulses_cons in Pu as [[Hi Lo2] Pu].
    assert (Hc := capture_code c k ltac:(lia)).
    destruct (read_bit_ok c inp _ _ s e (hi_len b) b Hc P) as (n1 & s1 & R1 & P1 & T1 & G1 & D1).
    + destruct b; simpl; [right | left]; split; auto; lia.
    + exact Hx.
    + exact Lo.
    + exact Hi.
    + intros t Ht. apply Lo2. destruct b; simpl in *; lia.
    + destruct (IH (S k) s1 (e + 20)) as (n2 & s' & R2 & P2 & T2 & L2 & Lo3 & G2 & D2).
      * lia.
      * rewrite P1. lia.
      * destruct b; simpl in T1; lia.
      * intros t Ht. apply Lo2. destruct b; simpl in *; lia.
      * exact Pu.
      * exists (n1 + n2)%nat, s'. split; [exact (run_seq _ _ _ _ _ _ _ R1 R2)|].
        split; [rewrite P2; lia|].
        split; [lia|].
        split.
        { intros _. destruct bs as [|b' bs'].
          - apply run_time_mono in R2. change (length (@nil bool)) with 0%nat in *. destruct b; simpl in T1; lia.
          - assert (L := L2 ltac:(discriminate)).
            change (length (b' :: bs')) with (S (length bs')) in *. lia. }
        split; [intros t Ht; apply Lo3; lia|].
        split; [|congruence].
        intros q. rewrite G2. simpl. apply capture_fold_ext. exact G1.
Qed.

(** ** From bits to channel bytes *)

(** The 8 bits of a byte as they arrive on the wire, most significant first. *)
Definition byte_bits (v : Z) : list bool :=
  map (fun i => Z.testbit v (7 - Z.of_nat i)) (seq 0 8).

Definition frame_bits (vs : list Z) : list bool := flat_map byte_bits vs.

(** Register [rs[i]] takes byte [vs[i]]. *)
Fixpoint load_bytes (rs vs : list Z) (g : Z -> Z) : Z -> Z :=
  match rs, vs with
  | r :: rs', v :: vs' => load_bytes rs' vs' (upd g r v)
  | _, _ => g
  end.

Definition shift_all (v : Z) (bs : list bool) : Z := fold_left shift_in bs v.

Lemma shift_in_mod v b : shift_in v b = (2 * v + (if b then 1 else 0)) mod 256.
Proof.
  unfold shift_in.
  assert (E : (2 * v) mod 256 = 2 * (v mod 128)).
  { change 256 with (2 * 128). apply Z.mul_mod_distr_l; lia. }
  assert (H := Z.mod_pos_bound v 128 ltac:(lia)).
  rewrite <- Z.add_mod_idemp_l by lia. rewrite E.
  symmetry. apply Z.mod_small. destruct b; lia.
Qed.

Lemma shift_in_range v b : 0 <= shift_in v b < 256.
Proof. rewrite shift_in_mod. apply Z.mod_pos_bound. lia. Qed.

Lemma shift_all_range bs : forall v, 0 <= v < 256 -> 0 <= shift_all v bs < 256.
Proof.
  unfold shift_all. induction bs as [|b bs IH]; intros v Hv; simpl; [exact Hv|].
  apply IH, shift_in_range.
Qed.

Lemma mod_mul_add_congr x y k d :
  x mod 256 = y mod 256 -> (x * k + d) mod 256 = (y * k + d) mod 256.
Proof.
  intros H. rewrite Z.add_mod, Z.mul_mod, H by lia.
  rewrite <- Z.mul_mod, <- Z.add_mod by lia. reflexivity.
Qed.

Lemma mod_add_congr a x y :
  x mod 256 = y mod 256 -> (a + x) mod 256 = (a + y) mod 256.
Proof. intros H. rewrite Z.add_mod, H, <- Z.add_mod by lia. reflexivity. Qed.

Lemma shift_all_mod bs : forall v,
  shift_all v bs mod 256 = (v * 2 ^ Z.of_nat (length bs) + shift_all 0 bs) mod 256.
Proof.
  induction bs as [|b bs IH]; intros v.
  - simpl. rewrite Z.mul_1_r, Z.add_0_r. reflexivity.
  - change (shift_all v (b :: bs)) with (shift_all (shift_in v b) bs).
    change (shift_all 0 (b :: bs)) with (shift_all (shift_in 0 b) bs).
    change (length (b :: bs)) with (S (length bs)).
    rewrite Nat2Z.inj_succ, Z.pow_succ_r by lia.
    rewrite IH. rewrite (mod_add_congr _ _ _ (IH (shift_in 0 b))).
    transitivity (((2 * v + (if b then 1 else 0)) * 2 ^ Z.of_nat (length bs)
                   + shift_all 0 bs) mod 256).
    + apply mod_mul_add_congr. rewrite shift_in_mod, Z.mod_mod; lia.
    + apply (f_equal (fun z => z mod 256)).
      destruct b; cbv [shift_in]; rewrite Zmod_0_l; ring.
Qed.

Lemma byte_bits_val_all :
  forallb (fun n => shift_all 0 (byte_bits (Z.of_nat n)) =? Z.of_nat n) (seq 0 256) = true.
Proof. vm_compute. reflexivity. Qed.

Lemma byte_bits_val x : 0 <= x < 256 -> shift_all 0 (byte_bits x) = x.
Proof.
  intros Hx. assert (H := byte_bits_val_all). rewrite forallb_forall in H.
  specialize (H (Z.to_nat x) ltac:(apply in_seq; lia)).
  rewrite Z2Nat.id in H by lia. apply Z.eqb_eq, H.
Qed.

(** Eight shifts load the byte whatever the register held before. *)
Lemma shift_all_byte v x : 0 <= x < 256 -> shift_all v (byte_bits x) = x.
Proof.
  intros Hx.
  assert (R := shift_all_range (byte_bits x) v).
  rewrite <- (Z.mod_small (shift_all v (byte_bits x)) 256).
  - rewrite shift_all_mod, byte_bits_val by exact Hx.
    change (2 ^ Z.of_nat (length (byte_bits x))) with 256.
    rewrite Z.add_comm, Z.mod_add by lia. apply Z.mod_small, Hx.
  - (* the first shift already lands in [0, 256) *)
    unfold shift_all, byte_bits. cbn [seq map fold_left]. apply shift_in_range.
Qed.

Lemma capture_fold_app c xs ys : forall k g,
  capture_fold c k (xs ++ ys) g = capture_fold c (length xs + k) ys (capture_fold c k xs g).
Proof.
  induction xs as [|x xs IH]; intros k g; [reflexivity|].
  simpl. rewrite IH. f_equal. lia.
Qed.

(** Bits that all fall into one register [nth j] shift into it. *)
Lemma capture_fold_reg c j bs : forall k g q,
  (forall i, (i < length bs)%nat -> ((k + i) / 8 = j)%nat) ->
  capture_fold c k bs g q =
  if q =? nth j (capture_regs c) 0 then shift_all (g (nth j (capture_regs c) 0)) bs else g q.
Proof.
  induction bs as [|b bs IH]; intros k g q H.
  - cbn [capture_fold]. destruct (Z.eqb_spec q (nth j (capture_regs c) 0)); subst; reflexivity.
  - assert (Hk : (k / 8 = j)%nat) by (rewrite <- (Nat.add_0_r k); apply H; simpl; lia).
    cbn [capture_fold]. rewrite Hk. rewrite IH.
    + unfold upd. rewrite Z.eqb_refl.
      destruct (q =? nth j (capture_regs c) 0); reflexivity.
    + intros i Hi. replace (S k + i)%nat with (k + S i)%nat by lia. apply H. simpl. lia.
Qed.

Lemma load_bytes_ext rs : forall vs g g',
  (forall q, g q = g' q) -> forall q, load_bytes rs vs g q = load_bytes rs vs g' q.
Proof.
  induction rs as [|r rs IH]; intros [|v vs] g g' H q; simpl; try apply H.
  apply IH. intros q'. unfold upd. rewrite H. reflexivity.
Qed.

Lemma skipn_nth_cons {A} j (l : list A) d :
  (j < length l)%nat -> skipn j l = nth j l d :: skipn (S j) l.
Proof.
  revert l. induction j as [|j IH]; intros [|x l] H; simpl in *; try lia; [reflexivity|].
  apply IH. lia.
Qed.

(** Capturing the bits of whole bytes from register [j] on loads the
    bytes into the registers, most significant bit first. *)
Lemma capture_fold_bytes c vs : forall j g q,
  (j + length vs <= length (capture_regs c))%nat ->
  Forall (fun v => 0 <= v < 256) vs ->
  capture_fold c (8 * j) (frame_bits vs) g q = load_bytes (skipn j (capture_regs c)) vs g q.
Proof.
  induction vs as [|v vs IH]; intros j g q Hj Hv.
  - simpl. destruct (skipn j (capture_regs c)); reflexivity.
  - inversion Hv as [|? ? Hv0 Hvs]; subst.
    change (frame_bits (v :: vs)) with (byte_bits v ++ frame_bits vs).
    change (length (v :: vs)) with (S (length vs)) in Hj.
    rewrite capture_fold_app.
    replace (length (byte_bits v) + 8 * j)%nat with (8 * S j)%nat by (simpl; lia).
    rewrite IH; [|lia|exact Hvs].
    rewrite (skipn_nth_cons j _ 0) by lia.
    cbn [load_bytes]. apply load_bytes_ext. intros q'.
    rewrite (capture_fold_reg c j).
    + unfold upd. rewrite shift_all_byte by exact Hv0. reflexivity.
    + intros i Hi. simpl in Hi. symmetry. apply Nat.div_unique with i; lia.
Qed.

(** ** The relay phase over a train of bits *)

Lemma update_ne_relay c : lab c update_now <> lab c relay_entry.
Proof. rewrite lab_update_now. lia. Qed.

(** One relayed bit: detected within 2 cycles of its rising edge, back to
    [relay_entry] 18 to 20 cycles after it, the output line low again. *)
Lemma relay_one c inp s e b :
  pc s = lab c relay_entry -> time s <= e + 2 -> e - time s <= 765 ->
  (forall t, time s <= t < e -> inp t = false) -> pulse inp e b ->
  exists n s', reaches c inp n s s' (lab c update_now) /\
    pc s' = lab c relay_entry /\ e + 18 <= time s' <= e + 20 /\
    regs s' = regs s /\ (forall q, q <> PORTD + 32 -> ds s' q = ds s q) /\
    out_level c s' = false.
Proof.
  intros P Hx Hy Lo [Hi Lo2].
  set (m := Z.to_nat ((e - time s + 2) / 3)).
  assert (Hm : e - time s <= 3 * Z.of_nat m <= e - time s + 2).
  { unfold m. rewrite Z2Nat.id by (apply Z.div_pos; lia).
    assert (H1 := Z.mul_div_le (e - time s + 2) 3 ltac:(lia)).
    assert (H2 := Z.mod_pos_bound (e - time s + 2) 3 ltac:(lia)).
    assert (H3 := Z.div_mod (e - time s + 2) 3 ltac:(lia)). lia. }
  assert (Hm256 : (m < 256)%nat) by lia.
  destruct (relay_spin c inp m 0 s ltac:(lia) ltac:(rewrite P; lia)) as [R1 A1].
  { intros j Hj. apply Lo. lia. }
  set (s1 := jump s (5 * (0 + m) + lab c relay_entry) (3 * Z.of_nat m)) in R1, A1.
  assert (D := relay_detect c inp m s1 Hm256 ltac:(unfold s1; cbn_st; lia)
                 ltac:(apply Hi; unfold s1; cbn_st; destruct b; unfold hi_len; lia)).
  set (sB := mkState (lab c relay_bit) (time s1 + 7) (regs s1) (raise_out c s1) (zf s1)) in D.
  assert (RB := relay_bit_ok c inp sB eq_refl). cbv zeta in RB.
  assert (I1 : inp (time sB) = b).
  { unfold sB, s1; cbn_st. destruct b; [apply Hi | apply Lo2]; unfold hi_len; lia. }
  rewrite I1 in RB.
  assert (I2 : inp (time sB + if b then 2 else 3) = b).
  { unfold sB, s1; cbn_st. destruct b; [apply Hi | apply Lo2]; unfold hi_len; lia. }
  rewrite I2 in RB.
  destruct RB as (s' & RB & P' & T' & G' & D' & _).
  exists (2 * m + 3 + relay_steps b b)%nat, s'.
  split; [| split; [exact P'|] ].
  { apply (reaches_seq _ _ _ _ _ sB); [apply (reaches_seq _ _ _ _ _ s1) |]; auto.
    split; assumption. }
  split; [ rewrite T'; unfold sB, s1; cbn_st; destruct b; unfold relay_dur; lia |].
  split; [ rewrite G'; reflexivity |].
  split.
  - intros q Hq. rewrite D'. rewrite <- Z.eqb_neq in Hq.
    unfold lower_out, upd. rewrite Hq. unfold sB. cbn [ds].
    unfold raise_out, upd. rewrite Hq. reflexivity.
  - unfold out_level. rewrite D'. unfold lower_out, upd. rewrite Z.eqb_refl.
    apply Z.clearbit_eq.
Qed.

Lemma relay_train c inp bits : forall s e,
  pc s = lab c relay_entry -> time s <= e + 2 -> e - time s <= 765 ->
  (forall t, time s <= t < e -> inp t = false) -> pulses inp e bits ->
  exists n s', reaches c inp n s s' (lab c update_now) /\
    (bits = [] -> s' = s) /\
    pc s' = lab c relay_entry /\
    time s' <= e + 20 * Z.of_nat (length bits) + 2 /\
    (bits <> [] -> e + 20 * Z.of_nat (length bits) - 2 <= time s') /\
    (forall t, time s' <= t < e + 20 * Z.of_nat (length bits) -> inp t = false) /\
    regs s' = regs s /\ (forall q, q <> PORTD + 32 -> ds s' q = ds s q) /\
    (bits <> [] -> out_level c s' = false).
Proof.
  induction bits as [|b bs IH]; intros s e P Hx Hy Lo Pu.
  - exists 0%nat, s. split; [apply reaches_0; rewrite P; apply not_eq_sym, update_ne_relay|].
    simpl length. split; [reflexivity|]. split; [exact P|]. split; [lia|].
    split; [intros []; reflexivity|]. split; [intros t Ht; apply Lo; lia|].
    split; [reflexivity|]. split; [reflexivity|]. intros []; reflexivity.
  - change (length (b :: bs)) with (S (length bs)).
    apply pulses_cons in Pu as [Pb Pu].
    destruct (relay_one c inp s e b P Hx Hy Lo Pb) as (n1 & s1 & R1 & P1 & T1 & G1 & D1 & O1).
    destruct (IH s1 (e + 20) P1 ltac:(lia) ltac:(lia)) as
      (n2 & s' & R2 & E2 & P2 & T2 & L2 & Lo2 & G2 & D2 & O2); [| exact Pu |].
    { intros t Ht. apply (proj2 Pb). destruct b; unfold hi_len; lia. }
    exists (n1 + n2)%nat, s'. split; [exact (reaches_seq _ _ _ _ _ _ _ _ R1 R2)|].
    split; [discriminate|]. split; [exact P2|]. split; [lia|].
    split.
    { intros _. destruct bs as [|b' bs'].
      - rewrite (E2 eq_refl). simpl. lia.
      - assert (L := L2 ltac:(discriminate)).
        change (length (b' :: bs')) with (S (length bs')) in *. lia. }
    split; [intros t Ht; apply Lo2; lia|].
    split; [congruence|]. split; [intros q Hq; rewrite D2, D1 by exact Hq; reflexivity|].
    intros _. destruct bs as [|b' bs'].
    + rewrite (E2 eq_refl). exact O1.
    + apply O2. discriminate.
Qed.

(** 256 checks that all see the line low: [jmp update_now], 771 cycles
    after [relay_entry]. *)
Lemma relay_idle c inp s :
  pc s = lab c relay_entry ->
  (forall t, time s <= t < time s + 766 -> inp t = false) ->
  run c inp 513 s = Some (jump s (lab c update_now) 771) /\
  avoids c inp 512 s (lab c update_now).
Proof.
  intros P Lo.
  destruct (relay_spin c inp 256 0 s ltac:(lia) ltac:(rewrite P; lia)) as [R1 A1].
  { intros j Hj. apply Lo. lia. }
  split; [|exact A1].
  change 513%nat with (2 * 256 + 1)%nat.
  eapply run_seq; [exact R1|].
  rewrite relay_exhausted by (cbn_st; lia).
  rewrite jump_jump. reflexivity.
Qed.

(** ** A whole frame *)

Lemma frame_bits_length vs : length (frame_bits vs) = (8 * length vs)%nat.
Proof.
  induction vs as [|v vs IH]; [reflexivity|].
  change (frame_bits (v :: vs)) with (byte_bits v ++ frame_bits vs).
  rewrite length_app, IH. simpl. lia.
Qed.

Lemma com_regs_ext c g g' :
  (forall q, g q = g' q) -> forall q, com_regs c g q = com_regs c g' q.
Proof. intros H q. unfold com_regs. rewrite !H. reflexivity. Qed.

Lemma commit_ds_ext g g' d d' :
  (forall q, g q = g' q) -> (forall q, q <> PORTD + 32 -> d q = d' q) ->
  forall q, q <> PORTD + 32 -> commit_ds g d q = commit_ds g' d' q.
Proof.
  intros Hg Hd q Hq. unfold commit_ds, ocr_writes. cbn [fold_left fst snd].
  unfold upd. rewrite !Hg. rewrite (Hd q Hq). reflexivity.
Qed.

Lemma capture_regs_length c : (3 <= length (capture_regs c))%nat.
Proof. unfold capture_regs. rewrite length_app. simpl. lia. Qed.

(** A frame from [capture_start]: the bytes [vs] are captured, the bits
    [rel] relayed, and after 768 cycles of idle line the inverted bytes
    are committed and capture starts again. *)
Lemma frame_ok c inp s e vs rel E F :
  pc s = lab c capture_start ->
  time s <= e + 2 ->
  (forall t, time s <= t < e -> inp t = false) ->
  length vs = length (capture_regs c) ->
  Forall (fun v => 0 <= v < 256) vs ->
  pulses inp e (frame_bits vs ++ rel) ->
  E = e + 20 * Z.of_nat (8 * length vs + length rel) ->
  E + 768 <= F ->
  (forall t, E <= t < F -> inp t = false) ->
  exists n s', run c inp n s = Some s' /\ pc s' = lab c capture_start /\
    E <= time s' <= E + 794 /\
    (forall q, regs s' q = com_regs c (load_bytes (capture_regs c) vs (regs s)) q) /\
    (forall q, q <> PORTD + 32 ->
       ds s' q = commit_ds (com_regs c (load_bytes (capture_regs c) vs (regs s))) (ds s) q).
Proof.
  intros P Hx Lo Hl Hv Pu HE HF LoF.
  apply pulses_app in Pu as [Pc Pr]. rewrite frame_bits_length in Pr.
  assert (L3 := capture_regs_length c).
  destruct (capture_bits c inp (frame_bits vs) 0 s e) as
    (n1 & s1 & R1 & P1 & T1 & L1 & Lo1 & G1 & D1); auto.
  { rewrite frame_bits_length. lia. }
  rewrite frame_bits_length in P1, T1, L1, Lo1.
  assert (L1' : e + 20 * Z.of_nat (8 * length vs) - 20 < time s1).
  { apply L1. intros Hn. apply (f_equal (@length bool)) in Hn.
    rewrite frame_bits_length in Hn. simpl in Hn. lia. }
  clear L1.
  assert (P1' : pc s1 = lab c relay_entry).
  { rewrite P1, lab_relay_entry, Hl. lia. }
  destruct (relay_train c inp rel s1 (e + 20 * Z.of_nat (8 * length vs)) P1') as
    (n2 & s2 & [R2 _] & E2 & P2 & T2 & L2 & Lo2 & G2 & D2 & _); auto; try lia.
  assert (L2' : E - 20 < time s2).
  { destruct rel as [|r rel'].
    - rewrite (E2 eq_refl). change (length (@nil bool)) with 0%nat in HE. lia.
    - assert (L := L2 ltac:(discriminate)). lia. }
  destruct (relay_idle c inp s2 P2) as [R3 _].
  { intros t Ht. destruct (Z.lt_ge_cases t E).
    - apply Lo2. lia.
    - apply LoF. lia. }
  destruct (update_ok c inp (jump s2 (lab c update_now) 771) eq_refl) as
    (s4 & R4 & P4 & T4 & G4 & D4).
  exists (n1 + n2 + 513 + update_steps c)%nat, s4.
  split.
  { eapply run_seq; [eapply run_seq; [eapply run_seq; [exact R1 | exact R2] | exact R3] | exact R4]. }
  split; [exact P4|].
  split.
  { rewrite T4. cbn [time jump]. unfold update_cycles. destruct (TWO_LEDS c); lia. }
  assert (G : forall q, regs (jump s2 (lab c update_now) 771) q =
                        load_bytes (capture_regs c) vs (regs s) q).
  { intros q. cbn [regs jump]. rewrite G2, G1.
    change 0%nat with (8 * 0)%nat at 1.
    rewrite capture_fold_bytes; [reflexivity | lia | exact Hv]. }
  split.
  - intros q. rewrite G4. apply com_regs_ext, G.
  - intros q Hq. rewrite D4. apply commit_ds_ext; auto.
    + intros q'. apply com_regs_ext, G.
    + intros q' Hq'. cbn [ds jump]. rewrite D2 by exact Hq'. rewrite D1. reflexivity.
Qed.

(** A frame whose capture is resumed at byte [j] of the capture registers:
    the remaining bytes [vs] are loaded, the rest of the train is relayed,
    and the commit shows them. *)
Lemma frame_from c inp s j e vs rel E F :
  pc s = (11 * (8 * j) + lab c capture_start)%nat ->
  time s <= e + 2 ->
  (forall t, time s <= t < e -> inp t = false) ->
  vs <> [] ->
  (j + length vs)%nat = length (capture_regs c) ->
  Forall (fun v => 0 <= v < 256) vs ->
  pulses inp e (frame_bits vs ++ rel) ->
  E = e + 20 * Z.of_nat (8 * length vs + length rel) ->
  E + 768 <= F ->
  (forall t, E <= t < F -> inp t = false) ->
  exists n s', run c inp n s = Some s' /\ pc s' = lab c capture_start /\
    E <= time s' <= E + 794 /\
    (forall q, regs s' q =
       com_regs c (load_bytes (skipn j (capture_regs c)) vs (regs s)) q) /\
    (forall q, q <> PORTD + 32 ->
       ds s' q = commit_ds (com_regs c (load_bytes (skipn j (capture_regs c)) vs (regs s)))
                   (ds s) q).
Proof.
  intros P Hx Lo Ne Hl Hv Pu HE HF LoF.
  apply pulses_app in Pu as [Pc Pr]. rewrite frame_bits_length in Pr.
  destruct (capture_bits c inp (frame_bits vs) (8 * j) s e) as
    (n1 & s1 & R1 & P1 & T1 & L1 & Lo1 & G1 & D1); auto.
  { rewrite frame_bits_length. lia. }
  rewrite frame_bits_length in P1, T1, L1, Lo1.
  assert (L1' : e + 20 * Z.of_nat (8 * length vs) - 20 < time s1).
  { apply L1. intros Hn. apply (f_equal (@length bool)) in Hn.
    rewrite frame_bits_length in Hn. destruct vs; [congruence|]. simpl in Hn. lia. }
  clear L1.
  assert (P1' : pc s1 = lab c relay_entry).
  { rewrite P1, lab_relay_entry, <- Hl. lia. }
  destruct (relay_train c inp rel s1 (e + 20 * Z.of_nat (8 * length vs)) P1') as
    (n2 & s2 & [R2 _] & E2 & P2 & T2 & L2 & Lo2 & G2 & D2 & _); auto; try lia.
  assert (L2' : E - 20 < time s2).
  { destruct rel as [|r rel'].
    - rewrite (E2 eq_refl). change (length (@nil bool)) with 0%nat in HE. lia.
    - assert (L := L2 ltac:(discriminate)). lia. }
  destruct (relay_idle c inp s2 P2) as [R3 _].
  { intros t Ht. destruct (Z.lt_ge_cases t E).
    - apply Lo2. lia.
    - apply LoF. lia. }
  destruct (update_ok c inp (jump s2 (lab c update_now) 771) eq_refl) as
    (s4 & R4 & P4 & T4 & G4 & D4).
  exists (n1 + n2 + 513 + update_steps c)%nat, s4.
  split.
  { eapply run_seq; [eapply run_seq; [eapply run_seq; [exact R1 | exact R2] | exact R3] | exact R4]. }
  split; [exact P4|].
  split.
  { rewrite T4. cbn [time jump]. unfold update_cycles. destruct (TWO_LEDS c); lia. }
  assert (G : forall q, regs (jump s2 (lab c update_now) 771) q =
                        load_bytes (skipn j (capture_regs c)) vs (regs s) q).
  { intros q. cbn [regs jump]. rewrite G2, G1.
    rewrite capture_fold_bytes; [reflexivity | lia | exact Hv]. }
  split.
  - intros q. rewrite G4. apply com_regs_ext, G.
  - intros q Hq. rewrite D4. apply commit_ds_ext; auto.
    + intros q'. apply com_regs_ext, G.
    + intros q' Hq'. cbn [ds jump]. rewrite D2 by exact Hq'. rewrite D1. reflexivity.
Qed.

(** ** WS2812 waveforms *)

(** The line driven with [bits] from cycle [e] on, one bit every 20 cycles
    (1.25us at 16MHz), high for [hi_len] cycles of each; low elsewhere. *)
Definition ws_wave (e : Z) (bits : list bool) (t : Z) : bool :=
  if t <? e then false
  else match nth_error bits (Z.to_nat ((t - e) / 20)) with
       | Some b => (t - e) mod 20 <? hi_len b
       | None => false
       end.

Lemma ws_wave_pulses e bits : pulses (ws_wave e bits) e bits.
Proof.
  intros i b Hi.
  assert (W : forall t, e + 20 * Z.of_nat i <= t < e + 20 * Z.of_nat i + 20 ->
            ws_wave e bits t = (t - e - 20 * Z.of_nat i <? hi_len b)).
  { intros t Ht. unfold ws_wave.
    replace (t <? e) with false by (symmetry; apply Z.ltb_ge; lia).
    replace ((t - e) / 20) with (Z.of_nat i)
      by (apply Z.div_unique with (t - e - 20 * Z.of_nat i); lia).
    replace ((t - e) mod 20) with (t - e - 20 * Z.of_nat i)
      by (apply Z.mod_unique with (Z.of_nat i); lia).
    rewrite Nat2Z.id, Hi. reflexivity. }
  assert (H := Z.le_refl (hi_len b)).
  split; intros t Ht; rewrite W by (destruct b; unfold hi_len in *; lia).
  - apply Z.ltb_lt. lia.
  - apply Z.ltb_ge. lia.
Qed.

Lemma ws_wave_before e bits t : t < e -> ws_wave e bits t = false.
Proof. intros H. unfold ws_wave. apply Z.ltb_lt in H. rewrite H. reflexivity. Qed.

Lemma ws_wave_after e bits t :
  e + 20 * Z.of_nat (length bits) <= t -> ws_wave e bits t = false.
Proof.
  intros H. unfold ws_wave.
  replace (t <? e) with false by (symmetry; apply Z.ltb_ge; lia).
  replace (nth_error bits (Z.to_nat ((t - e) / 20))) with (@None bool); [reflexivity|].
  symmetry. apply nth_error_None.
  assert (20 * Z.of_nat (length bits) <= t - e) by lia.
  assert (Z.of_nat (length bits) <= (t - e) / 20) by (apply Z.div_le_lower_bound; lia).
  lia.
Qed.

(** Two waveforms on the same line. *)
Definition wave_or (i1 i2 : input) : input := fun t => i1 t || i2 t.

Lemma pulses_or_l i1 i2 e bits :
  pulses i1 e bits ->
  (forall t, e <= t < e + 20 * Z.of_nat (length bits) -> i2 t = false) ->
  pulses (wave_or i1 i2) e bits.
Proof.
  intros P Z2 i b Hi. destruct (P i b Hi) as [H L].
  assert (Hl : (i < length bits)%nat) by (apply nth_error_Some; congruence).
  unfold wave_or. split; intros t Ht.
  - rewrite H by exact Ht. reflexivity.
  - rewrite L by exact Ht. apply Z2. destruct b; unfold hi_len in Ht; lia.
Qed.

Lemma pulses_or_r i1 i2 e bits :
  pulses i2 e bits ->
  (forall t, e <= t < e + 20 * Z.of_nat (length bits) -> i1 t = false) ->
  pulses (wave_or i1 i2) e bits.
Proof.
  intros P Z1 i b Hi. destruct (P i b Hi) as [H L].
  assert (Hl : (i < length bits)%nat) by (apply nth_error_Some; congruence).
  unfold wave_or. split; intros t Ht.
  - rewrite H by exact Ht. apply orb_true_r.
  - rewrite L by exact Ht. rewrite Z1; [reflexivity|]. destruct b; unfold hi_len in Ht; lia.
Qed.

(** ** Commit values *)

Lemma commit_ds_ocr g d :
  commit_ds g d 136 = g 17 /\ commit_ds g d 138 = g 16 /\ commit_ds g d 179 = g 18 /\
  commit_ds g d 180 = g 20 /\ commit_ds g d 72 = g 19 /\ commit_ds g d 71 = g 21.
Proof. unfold commit_ds, ocr_writes, upd. simpl. repeat split; reflexivity. Qed.

Lemma capture_regs_one c : TWO_LEDS c = false -> capture_regs c = [16; 17; 18].
Proof. intros H. unfold capture_regs. rewrite H. reflexivity. Qed.

Lemma capture_regs_two c : TWO_LEDS c = true -> capture_regs c = [16; 17; 18; 19; 20; 21].
Proof. intros H. unfold capture_regs. rewrite H. reflexivity. Qed.

(** ** After the commit, capture waits for a rising edge *)

Lemma capture_poll c :
  fetch c (lab c capture_start) = Some (poll_instr c true) /\
  fetch c (S (lab c capture_start)) = Some (RJMP (-4)).
Proof.
  assert (L3 := capture_regs_length c).
  assert (Hc := capture_code c 0 ltac:(lia)).
  rewrite Nat.mul_0_r, Nat.add_0_l in Hc. unfold poll_instr.
  split; fetch_tac.
Qed.

Lemma capture_ne_update c :
  lab c capture_start <> lab c update_now /\ S (lab c capture_start) <> lab c update_now.
Proof. rewrite lab_update_now, lab_relay_entry. lia. Qed.

Lemma update_steps_S c : update_steps c = S (pred (update_steps c)).
Proof. unfold update_steps. destruct (TWO_LEDS c); reflexivity. Qed.

(** An idle line from [relay_entry] to [T]: [update_now] is reached once,
    at step 513, and never again before [T]. *)
Lemma idle_once c inp s T :
  pc s = lab c relay_entry -> time s + 766 <= T ->
  (forall t, time s <= t < T -> inp t = false) ->
  forall i s', run c inp i s = Some s' -> time s' < T -> pc s' = lab c update_now ->
  i = 513%nat.
Proof.
  intros P HT Lo i s' R Ts Pu.
  destruct (relay_idle c inp s P) as [R1 A1]; [intros t Ht; apply Lo; lia|].
  destruct (Nat.le_gt_cases i 512) as [Hi|Hi]; [exfalso; exact (A1 i s' Hi R Pu)|].
  destruct (Nat.eq_dec i 513) as [->|Hne]; [reflexivity|]. exfalso.
  set (su := jump s (lab c update_now) 771) in R1.
  destruct (update_avoids c inp su eq_refl) as (s1 & E1 & A2).
  destruct (update_ok c inp su eq_refl) as (sc & R3 & P3 & T3 & _ & _).
  rewrite update_steps_S, (run_S _ _ _ _ _ E1) in R3.
  replace i with (513 + S (i - 514))%nat in R by lia.
  rewrite run_plus, R1, (run_S _ _ _ _ _ E1) in R.
  destruct (Nat.le_gt_cases (i - 514) (pred (update_steps c))) as [Hj|Hj].
  - exact (A2 _ _ Hj R Pu).
  - replace (i - 514)%nat with
      (pred (update_steps c) + (i - 514 - pred (update_steps c)))%nat in R by lia.
    rewrite run_plus, R3 in R.
    destruct (capture_poll c) as [F0 F1].
    destruct (poll_stay c inp true (lab c capture_start) F0 F1 T _ sc s'
                (or_introl P3) R Ts) as (P' & _ & _).
    + intros t Ht. apply Lo. rewrite T3 in Ht. unfold su in Ht. cbn [time jump] in Ht.
      unfold update_cycles in Ht. destruct (TWO_LEDS c); lia.
    + destruct (capture_ne_update c) as [N0 N1]. destruct P'; congruence.
Qed.

Lemma relay_dur_range b1 b2 : 10 <= relay_dur b1 b2 <= 12.
Proof. destruct b1, b2; unfold relay_dur; lia. Qed.

(** Checks 0 .. k-1 see the line low, check [k] sees it high: the bit is
    relayed and the loop starts again at check 0, without [update_now]. *)
Lemma relay_edge c inp s k :
  (k < 256)%nat -> pc s = lab c relay_entry ->
  (forall j, (j < k)%nat -> inp (time s + 3 * Z.of_nat j) = false) ->
  inp (time s + 3 * Z.of_nat k) = true ->
  exists n s', reaches c inp n s s' (lab c update_now) /\ pc s' = lab c relay_entry /\
    regs s' = regs s /\
    time s + 3 * Z.of_nat k + 17 <= time s' <= time s + 3 * Z.of_nat k + 19.
Proof.
  intros Hk P Lo Hi.
  destruct (relay_spin c inp k 0 s ltac:(lia) ltac:(rewrite P; lia) Lo) as [R1 A1].
  set (s2 := jump s (5 * (0 + k) + lab c relay_entry) (3 * Z.of_nat k)) in R1, A1.
  assert (A2 := relay_detect c inp k s2 Hk ltac:(unfold s2; cbn_st; lia) Hi).
  set (sB := mkState (lab c relay_bit) (time s2 + 7) (regs s2) (raise_out c s2) (zf s2)) in A2.
  destruct (relay_bit_ok c inp sB eq_refl) as (s' & A3 & P' & T' & G' & _ & _).
  eexists _, s'. split.
  { eapply reaches_seq; [split; [exact R1 | exact A1] |].
    eapply reaches_seq; [exact A2 | exact A3]. }
  split; [exact P'|]. split; [rewrite G'; reflexivity|].
  rewrite T'. unfold sB, s2. cbn_st.
  match goal with |- context [relay_dur ?a ?b] => pose proof (relay_dur_range a b) end.
  lia.
Qed.

(** ** Where the output line may be high *)

(** The [jmp relay_bit] of each check (just after its [sbi]) and
    [relay_bit] up to its last [cbi]. *)
Definition in_region (c : config) (p : nat) : bool :=
  let R := lab c relay_entry in
  let B := lab c relay_bit in
  (Nat.leb R p && Nat.ltb p (R + 1280) && Nat.eqb ((p - R) mod 5) 3) ||
  (Nat.leb B p && Nat.ltb p (B + 6)).

(** The addresses an instruction at [p] may go to. *)
Definition succs (c : config) (p : nat) (i : instr) : list nat :=
  match i with
  | SBIS _ _ | SBIC _ _ =>
      [S p; match fetch c (S p) with Some j => (size j + S p)%nat | None => S p end]
  | RJMP k => [Z.to_nat (Z.of_nat (S p) + k / 2)]
  | JMP l => [lab c l]
  | BRNE l => [S p; lab c l]
  | STS _ _ => [2 + p]%nat
  | _ => [S p]
  end.

Definition out_cbi (c : config) (i : instr) : bool :=
  match i with
  | CBI a b => (a =? PORTD) && (b =? DATA_OUT c)
  | _ => false
  end.

(** An [sbi] on PORTD only enters the region, no [sts] writes PORTD, and
    the region is only left by the [cbi] of the output line. *)
Definition pc_ok (c : config) (p : nat) : bool :=
  match fetch c p with
  | None => true
  | Some i =>
      match i with
      | SBI a _ => negb (a =? PORTD) || forallb (in_region c) (succs c p i)
      | STS a _ => negb (a =? PORTD + 32)
      | _ => true
      end &&
      (negb (in_region c p) || forallb (fun q => in_region c q || out_cbi c i) (succs c p i))
  end.

Lemma pc_ok_all :
  forallb (fun c => forallb (pc_ok c) (seq 0 (length (words c)))) all_configs = true.
Proof. vm_compute. reflexivity. Qed.

Lemma fetch_lt c p i : fetch c p = Some i -> (p < length (words c))%nat.
Proof.
  unfold fetch. intros H. apply nth_error_Some.
  destruct (nth_error (words c) p) as [[|]|]; congruence.
Qed.

Lemma pc_ok_of c p : (p < length (words c))%nat -> pc_ok c p = true.
Proof.
  intros Hp. pose proof pc_ok_all as H. rewrite forallb_forall in H.
  specialize (H c (all_configs_in c)). rewrite forallb_forall in H.
  apply H, in_seq. lia.
Qed.

Lemma step_succ c inp s s' i :
  fetch c (pc s) = Some i -> step c inp s = Some s' -> In (pc s') (succs c (pc s) i).
Proof.
  intros F E. unfold step in E. rewrite F in E.
  destruct i; cbn [succs];
  repeat match goal with
         | E : Some _ = Some _ |- _ => injection E as <-
         | E : skip _ _ _ = Some _ |- _ => unfold skip in E
         | E : (if ?b then _ else _) = Some _ |- _ => destruct b
         | E : match ?x with _ => _ end = Some _ |- _ => destruct x eqn:?
         | E : None = Some _ |- _ => discriminate E
         end;
  cbn [pc jump set_reg set_ds]; simpl; tauto.
Qed.

Lemma step_out_mono c inp s s' i :
  fetch c (pc s) = Some i -> step c inp s = Some s' ->
  match i with SBI a _ => a <> PORTD | STS a _ => a <> PORTD + 32 | _ => True end ->
  out_level c s' = true -> out_level c s = true.
Proof.
  intros F E W O. unfold step in E. rewrite F in E. unfold out_level in *.
  destruct i;
  repeat match goal with
         | E : Some _ = Some _ |- _ => injection E as <-
         | E : skip _ _ _ = Some _ |- _ => unfold skip in E
         | E : (if ?b then _ else _) = Some _ |- _ => destruct b
         | E : match ?x with _ => _ end = Some _ |- _ => destruct x eqn:?
         | E : None = Some _ |- _ => discriminate E
         end;
  cbn [ds jump set_reg set_ds] in O; try exact O; unfold upd in O.
  - destruct (Z.eqb_spec (PORTD + 32) (ioa + 32)); [unfold PORTD in *; lia | exact O].
  - destruct (Z.eqb_spec (PORTD + 32) (ioa + 32)) as [Ha|Ha]; [|exact O].
    rewrite Z.clearbit_eqb in O. apply andb_prop in O as [O _]. rewrite Ha. exact O.
  - destruct (Z.eqb_spec (PORTD + 32) a); [congruence | exact O].
Qed.

Definition out_inv (c : config) (s : state) : Prop :=
  in_region c (pc s) = true \/ out_level c s = false.

Lemma step_out_inv c inp s s' : step c inp s = Some s' -> out_inv c s -> out_inv c s'.
Proof.
  intros E I. destruct (fetch c (pc s)) as [i|] eqn:F;
    [|unfold step in E; rewrite F in E; discriminate].
  assert (Ok := pc_ok_of c (pc s) (fetch_lt _ _ _ F)). unfold pc_ok in Ok. rewrite F in Ok.
  assert (Sc := step_succ c inp s s' i F E).
  unfold out_inv. destruct (in_region c (pc s')) eqn:Rg'; [left; reflexivity|right].
  apply andb_prop in Ok as [Ow Oreg].
  destruct (in_region c (pc s)) eqn:Rg.
  - cbn [negb orb] in Oreg. rewrite forallb_forall in Oreg. specialize (Oreg _ Sc).
    rewrite Rg' in Oreg. cbn [orb] in Oreg.
    destruct i; try discriminate Oreg. cbn [out_cbi] in Oreg.
    apply andb_prop in Oreg as [Ha Hb]. apply Z.eqb_eq in Ha, Hb. subst.
    unfold step in E. rewrite F in E. injection E as <-.
    unfold out_level. cbn [ds set_ds]. unfold upd. rewrite Z.eqb_refl. apply Z.clearbit_eq.
  - destruct I as [I|I]; [congruence|].
    destruct (out_level c s') eqn:O; [|reflexivity]. exfalso.
    assert (Hw : match i with SBI a _ => a <> PORTD | STS a _ => a <> PORTD + 32
                             | _ => True end).
    { destruct i; cbv beta iota in Ow |- *; auto.
      - apply orb_prop in Ow as [Ow|Ow].
        + apply negb_true_iff, Z.eqb_neq in Ow. exact Ow.
        + rewrite forallb_forall in Ow. specialize (Ow _ Sc). congruence.
      - apply negb_true_iff, Z.eqb_neq in Ow. exact Ow. }
    rewrite (step_out_mono c inp s s' i F E Hw O) in I. discriminate.
Qed.

Lemma run_out_inv c inp n : forall s s', run c inp n s = Some s' -> out_inv c s -> out_inv c s'.
Proof.
  induction n as [|n IH]; intros s s' R I.
  - simpl in R. injection R as <-. exact I.
  - simpl in R. destruct (step c inp s) as [s1|] eqn:E; [|discriminate].
    exact (IH s1 s' R (step_out_inv c inp s s1 E I)).
Qed.

Lemma exit_not_region c p :
  (p = lab c update_now \/ p = lab c capture_start \/
   exists k, (k < 256)%nat /\ p = (5 * k + lab c relay_entry)%nat) ->
  in_region c p = false.
Proof.
  intros H. assert (L := capture_regs_length c).
  assert (E0 := lab_relay_entry c). assert (E1 := lab_relay_bit c).
  assert (E2 := lab_update_now c).
  unfold in_region.
  destruct (Nat.leb_spec (lab c relay_entry) p), (Nat.ltb_spec p (lab c relay_entry + 1280)),
           (Nat.leb_spec (lab c relay_bit) p), (Nat.ltb_spec p (lab c relay_bit + 6));
    cbn [andb orb]; try reflexivity; try (exfalso; lia).
  all: destruct H as [-> | [-> | (k & Hk & ->)]]; try (exfalso; lia).
  all: replace (5 * k + lab c relay_entry - lab c relay_entry)%nat with (k * 5)%nat by lia;
       rewrite Nat.Div0.mod_mul; reflexivity.
Qed.

(** ** One channel byte *)

Lemma shift_all_8_0 b1 b2 b3 b4 b5 b6 b7 b8 :
  shift_all 0 [b1; b2; b3; b4; b5; b6; b7; b8] =
  Z.b2z b1 * 128 + Z.b2z b2 * 64 + Z.b2z b3 * 32 + Z.b2z b4 * 16 +
  Z.b2z b5 * 8 + Z.b2z b6 * 4 + Z.b2z b7 * 2 + Z.b2z b8.
Proof. destruct b1, b2, b3, b4, b5, b6, b7, b8; reflexivity. Qed.

(** Eight shifts give the byte of the eight bits, first bit most
    significant, whatever the register held. *)
Lemma shift_all_8 v b1 b2 b3 b4 b5 b6 b7 b8 :
  shift_all v [b1; b2; b3; b4; b5; b6; b7; b8] =
  Z.b2z b1 * 128 + Z.b2z b2 * 64 + Z.b2z b3 * 32 + Z.b2z b4 * 16 +
  Z.b2z b5 * 8 + Z.b2z b6 * 4 + Z.b2z b7 * 2 + Z.b2z b8.
Proof.
  assert (Hr : 0 <= shift_all (shift_in v b1) [b2; b3; b4; b5; b6; b7; b8] < 256)
    by (apply shift_all_range, shift_in_range).
  change (shift_all (shift_in v b1) [b2; b3; b4; b5; b6; b7; b8])
    with (shift_all v [b1; b2; b3; b4; b5; b6; b7; b8]) in Hr.
  rewrite <- (Z.mod_small _ 256 Hr), shift_all_mod.
  change (2 ^ Z.of_nat (length [b1; b2; b3; b4; b5; b6; b7; b8])) with 256.
  rewrite Z.add_comm, Z.mod_add by lia.
  rewrite Z.mod_small by (apply shift_all_range; lia).
  apply shift_all_8_0.
Qed.

(** ** Which registers and data-space cells an instruction writes *)

Definition writes_reg (i : instr) (r : Z) : bool :=
  match i with
  | LSL r' | ORI r' _ | LDI r' _ | DEC r' | COM r' => r' =? r
  | _ => false
  end.

Definition writes_ds (i : instr) (a : Z) : bool :=
  match i with
  | SBI x _ | CBI x _ => x + 32 =? a
  | STS x _ => x =? a
  | _ => false
  end.

Ltac step_cases E :=
  repeat match goal with
         | E : Some _ = Some _ |- _ => injection E as <-
         | E : skip _ _ _ = Some _ |- _ => unfold skip in E
         | E : (if ?b then _ else _) = Some _ |- _ => destruct b
         | E : match ?x with _ => _ end = Some _ |- _ => destruct x eqn:?
         | E : None = Some _ |- _ => discriminate E
         end.

Lemma step_regs_keep c inp s s' i r :
  fetch c (pc s) = Some i -> step c inp s = Some s' -> writes_reg i r = false ->
  regs s' r = regs s r.
Proof.
  intros F E W. unfold step in E. rewrite F in E.
  destruct i; step_cases E; cbn [regs jump set_reg set_ds]; try reflexivity;
    cbn [writes_reg] in W; unfold upd; rewrite Z.eqb_sym, W; reflexivity.
Qed.

Lemma step_ds_keep c inp s s' i a :
  fetch c (pc s) = Some i -> step c inp s = Some s' -> writes_ds i a = false ->
  ds s' a = ds s a.
Proof.
  intros F E W. unfold step in E. rewrite F in E.
  destruct i; step_cases E; cbn [ds jump set_reg set_ds]; try reflexivity;
    cbn [writes_ds] in W; unfold upd; rewrite Z.eqb_sym, W; reflexivity.
Qed.

Lemma step_sts_val c inp s s' a r :
  fetch c (pc s) = Some (STS a r) -> step c inp s = Some s' -> ds s' a = regs s r.
Proof.
  intros F E. unfold step in E. rewrite F in E. injection E as <-.
  cbn [ds set_ds]. unfold upd. rewrite Z.eqb_refl. reflexivity.
Qed.

Lemma step_ldi c inp s r k :
  fetch c (pc s) = Some (LDI r k) ->
  step c inp s = Some (mkState (S (pc s)) (time s + 1) (upd (regs s) r k) (ds s) (zf s)).
Proof. intros F. unfold step. rewrite F. reflexivity. Qed.

(** ** One LED: the LED 2 registers *)

(** From word 3 on, the program stays at word 3 or above, never writes
    r19, r20, r21, and stores into OCR2B, OCR0B, OCR0A only from them. *)
Definition led2_ok (c : config) (p : nat) : bool :=
  match fetch c p with
  | None => true
  | Some i =>
      forallb (Nat.leb 3) (succs c p i) &&
      negb (existsb (writes_reg i) [19; 20; 21]) &&
      forallb (fun a => negb (writes_ds i a) ||
                        match i with STS _ r => existsb (Z.eqb r) [19; 20; 21] | _ => false end)
              [180; 72; 71]
  end.

Lemma led2_ok_all :
  forallb (fun c => TWO_LEDS c || forallb (led2_ok c) (seq 3 (length (words c) - 3)))
          all_configs = true.
Proof. vm_compute. reflexivity. Qed.

Lemma one_led_prefix c :
  TWO_LEDS c = false ->
  lab c start_frame = 0%nat /\ lab c wait_reset = 3%nat /\
  fetch c 0 = Some (LDI 19 255) /\ fetch c 1 = Some (LDI 20 255) /\
  fetch c 2 = Some (LDI 21 255).
Proof.
  intros H. destruct c as [[|] [|]]; vm_compute in H; try discriminate H;
    vm_compute; repeat split.
Qed.

Definition led2_off (s : state) : Prop :=
  (3 <= pc s)%nat /\ regs s 19 = 255 /\ regs s 20 = 255 /\ regs s 21 = 255.

Lemma step_led2 c inp s s' :
  TWO_LEDS c = false -> step c inp s = Some s' -> led2_off s ->
  led2_off s' /\ (forall a, In a [180; 72; 71] -> ds s' a = ds s a \/ ds s' a = 255).
Proof.
  intros H1 E (P & G19 & G20 & G21).
  destruct (fetch c (pc s)) as [i|] eqn:F; [|unfold step in E; rewrite F in E; discriminate].
  assert (Ok : led2_ok c (pc s) = true).
  { pose proof led2_ok_all as A. rewrite forallb_forall in A.
    specialize (A c (all_configs_in c)). rewrite H1 in A. cbn [orb] in A.
    rewrite forallb_forall in A. apply A, in_seq.
    pose proof (fetch_lt _ _ _ F). lia. }
  unfold led2_ok in Ok. rewrite F in Ok.
  apply andb_prop in Ok as [Ok Ods]. apply andb_prop in Ok as [Osucc Oreg].
  apply negb_true_iff in Oreg. cbn [existsb] in Oreg.
  apply orb_false_elim in Oreg as [W19 Oreg]. apply orb_false_elim in Oreg as [W20 Oreg].
  apply orb_false_elim in Oreg as [W21 _].
  split.
  - split.
    + rewrite forallb_forall in Osucc. apply Nat.leb_le, Osucc.
      exact (step_succ c inp s s' i F E).
    + rewrite (step_regs_keep c inp s s' i 19 F E W19), (step_regs_keep c inp s s' i 20 F E W20),
        (step_regs_keep c inp s s' i 21 F E W21). auto.
  - intros a Ha. rewrite forallb_forall in Ods. specialize (Ods a Ha).
    destruct (writes_ds i a) eqn:Wa.
    + right. cbn [negb orb] in Ods. destruct i; try discriminate Ods.
      cbn [writes_ds] in Wa. apply Z.eqb_eq in Wa. subst.
      rewrite (step_sts_val c inp s s' a r F E).
      cbn [existsb] in Ods. destruct (Z.eqb_spec r 19); [subst; exact G19|].
      destruct (Z.eqb_spec r 20); [subst; exact G20|].
      destruct (Z.eqb_spec r 21); [subst; exact G21|]. discriminate.
    + left. exact (step_ds_keep c inp s s' i a F E Wa).
Qed.

Lemma run_led2 c inp n : TWO_LEDS c = false -> forall s s',
  run c inp n s = Some s' -> led2_off s ->
  led2_off s' /\
  ((forall a, In a [180; 72; 71] -> ds s a = 255) -> forall a, In a [180; 72; 71] -> ds s' a = 255).
Proof.
  intros H1. induction n as [|n IH]; intros s s' R I.
  - simpl in R. injection R as <-. auto.
  - simpl in R. destruct (step c inp s) as [s1|] eqn:E; [|discriminate].
    destruct (step_led2 c inp s s1 H1 E I) as [I1 D1].
    destruct (IH s1 s' R I1) as [I' D']. split; [exact I'|].
    intros D a Ha. apply D'; [|exact Ha].
    intros a' Ha'. destruct (D1 a' Ha') as [-> | ->]; [apply D|]; auto.
Qed.

(** ** Capture waiting inside a frame *)

Lemma capture_poll_at c k :
  (k < 8 * length (capture_regs c))%nat ->
  fetch c (11 * k + lab c capture_start) = Some (poll_instr c true) /\
  fetch c (S (11 * k + lab c capture_start)) = Some (RJMP (-4)).
Proof.
  intros Hk. assert (Hc := capture_code c k Hk). unfold poll_instr.
  split; fetch_tac.
Qed.

(** ** Loading bytes twice *)

Lemma load_bytes_notin rs : forall vs g q, ~ In q rs -> load_bytes rs vs g q = g q.
Proof.
  induction rs as [|r rs IH]; intros [|v vs] g q H; simpl; try reflexivity.
  rewrite IH by (intros Hq; apply H; right; exact Hq).
  unfold upd. destruct (Z.eqb_spec q r); [subst; exfalso; apply H; left; reflexivity|reflexivity].
Qed.

Lemma load_bytes_in rs : forall vs g g' q,
  length vs = length rs -> In q rs -> load_bytes rs vs g q = load_bytes rs vs g' q.
Proof.
  induction rs as [|r rs IH]; intros [|v vs] g g' q Hl Hq; simpl in *;
    try discriminate; try contradiction.
  destruct (in_dec Z.eq_dec q rs) as [Hin|Hn].
  - apply IH; [lia | exact Hin].
  - rewrite !load_bytes_notin by exact Hn.
    destruct Hq as [<-|Hq]; [unfold upd; rewrite Z.eqb_refl; reflexivity | contradiction].
Qed.

Lemma existsb_eqb_in q l : existsb (Z.eqb q) l = true <-> In q l.
Proof.
  rewrite existsb_exists. split.
  - intros (x & Hx & E). apply Z.eqb_eq in E. subst. exact Hx.
  - intros H. exists q. split; [exact H | apply Z.eqb_refl].
Qed.

(** Loading the same bytes over registers that already went through a
    commit gives the same inverted values. *)
Lemma com_load_again c vs g g1 :
  length vs = length (capture_regs c) ->
  (forall q, g1 q = com_regs c (load_bytes (capture_regs c) vs g) q) ->
  forall q, com_regs c (load_bytes (capture_regs c) vs g1) q =
            com_regs c (load_bytes (capture_regs c) vs g) q.
Proof.
  intros Hl H q. unfold com_regs at 1 2.
  destruct (existsb (Z.eqb q) (capture_regs c)) eqn:X.
  - apply existsb_eqb_in in X. f_equal. apply load_bytes_in; assumption.
  - assert (N : ~ In q (capture_regs c)) by (rewrite <- existsb_eqb_in; congruence).
    rewrite !load_bytes_notin by exact N. rewrite H. unfold com_regs. rewrite X.
    apply load_bytes_notin, N.
Qed.

(** ** Two LEDs: who writes the LED 2 registers *)

Definition is_shift (i : instr) : bool :=
  match i with LSL _ | ORI _ _ => true | _ => false end.

Definition is_com (i : instr) : bool :=
  match i with COM _ => true | _ => false end.

(** With two LEDs, r19, r20, r21 are written only by the [lsl]/[ori] of
    the [READ_BIT] blocks of bits 25 to 48 and by the [com] of the update
    phase. *)
Definition led2_writer_ok (c : config) (p : nat) : bool :=
  match fetch c p with
  | None => true
  | Some i =>
      negb (existsb (writes_reg i) [19; 20; 21]) ||
      (Nat.leb (11 * 24 + lab c capture_start) p && Nat.ltb p (11 * 48 + lab c capture_start) &&
       is_shift i) ||
      (Nat.leb (lab c update_now) p && Nat.ltb p (lab c update_now + 6) && is_com i)
  end.

Lemma led2_writer_all :
  forallb (fun c => negb (TWO_LEDS c) || forallb (led2_writer_ok c) (seq 0 (length (words c))))
          all_configs = true.
Proof. vm_compute. reflexivity. Qed.

Lemma led2_writers c p i :
  TWO_LEDS c = true -> fetch c p = Some i -> existsb (writes_reg i) [19; 20; 21] = true ->
  ((11 * 24 + lab c capture_start <= p < 11 * 48 + lab c capture_start)%nat /\
   is_shift i = true) \/
  ((lab c update_now <= p < lab c update_now + 6)%nat /\ is_com i = true).
Proof.
  intros H2 F W.
  pose proof led2_writer_all as A. rewrite forallb_forall in A.
  specialize (A c (all_configs_in c)). rewrite H2 in A. cbn [negb orb] in A.
  rewrite forallb_forall in A.
  specialize (A p ltac:(apply in_seq; pose proof (fetch_lt _ _ _ F); lia)).
  unfold led2_writer_ok in A. rewrite F, W in A. cbn [negb orb] in A.
  apply orb_prop in A as [A|A]; apply andb_prop in A as [A S];
    apply andb_prop in A as [A1 A2]; apply Nat.leb_le in A1; apply Nat.ltb_lt in A2; auto.
Qed.

Lemma run_regs_keep c inp r n : forall s s',
  run c inp n s = Some s' ->
  (forall i s1 j, (i < n)%nat -> run c inp i s = Some s1 -> fetch c (pc s1) = Some j ->
     writes_reg j r = false) ->
  regs s' r = regs s r.
Proof.
  induction n as [|n IH]; intros s s' R H.
  - simpl in R. injection R as <-. reflexivity.
  - simpl in R. destruct (step c inp s) as [s1|] eqn:E; [|discriminate].
    destruct (fetch c (pc s)) as [j|] eqn:F; [|unfold step in E; rewrite F in E; discriminate].
    rewrite (IH s1 s' R).
    + apply (step_regs_keep c inp s s1 j r F E). apply (H 0%nat s j); [lia | reflexivity | exact F].
    + intros i s2 j' Hi R2 F2. apply (H (S i) s2 j'); [lia | | exact F2].
      simpl. rewrite E. exact R2.
Qed.

(** ** [setup()] *)

(** The C code names the registers by their data-space addresses
    ([<avr/io.h>]: I/O address + 0x20); the assembly above uses I/O
    addresses for PIND and PORTD. *)
Definition SREG : Z := 95.     (* 0x5F *)
Definition TIMSK0 : Z := 110.  (* 0x6E *)
Definition TIMSK1 : Z := 111.  (* 0x6F *)
Definition TIMSK2 : Z := 112.  (* 0x70 *)
Definition DDRB : Z := 36.     (* 0x24 *)
Definition DDRD : Z := 42.     (* 0x2A *)
Definition TCCR0A : Z := 68.   (* 0x44 *)
Definition TCCR0B : Z := 69.   (* 0x45 *)
Definition TCCR1A : Z := 128.  (* 0x80 *)
Definition TCCR1B : Z := 129.  (* 0x81 *)
Definition TCCR2A : Z := 176.  (* 0xB0 *)
Definition TCCR2B : Z := 177.  (* 0xB1 *)
Definition OCR0A : Z := 71.    (* 0x47 *)
Definition OCR0B : Z := 72.    (* 0x48 *)
Definition OCR1AL : Z := 136.  (* 0x88 *)
Definition OCR1AH : Z := 137.  (* 0x89 *)
Definition OCR1BL : Z := 138.  (* 0x8A *)
Definition OCR1BH : Z := 139.  (* 0x8B *)
Definition OCR2A : Z := 179.   (* 0xB3 *)
Definition OCR2B : Z := 180.   (* 0xB4 *)

(** Bit numbers. *)
Definition PB1 : Z := 1.
Definition PB2 : Z := 2.
Definition PB3 : Z := 3.
Definition DDD3 : Z := 3.
Definition DDD5 : Z := 5.
Definition DDD6 : Z := 6.
Definition COM0A1 : Z := 7.
Definition COM0A0 : Z := 6.
Definition COM0B1 : Z := 5.
Definition COM0B0 : Z := 4.
Definition WGM01 : Z := 1.
Definition WGM00 : Z := 0.
Definition CS00 : Z := 0.
Definition COM1A1 : Z := 7.
Definition COM1A0 : Z := 6.
Definition COM1B1 : Z := 5.
Definition COM1B0 : Z := 4.
Definition WGM10 : Z := 0.
Definition WGM12 : Z := 3.
Definition CS10 : Z := 0.
Definition COM2A1 : Z := 7.
Definition COM2A0 : Z := 6.
Definition COM2B1 : Z := 5.
Definition COM2B0 : Z := 4.
Definition WGM21 : Z := 1.
Definition WGM20 : Z := 0.
Definition CS20 : Z := 0.

(** [(1 << b)] *)
Definition bv (b : Z) : Z := Z.shiftl 1 b.

(** A store to an 8-bit register keeps the low 8 bits. *)
Definition wr8 (m : Z -> Z) (a v : Z) : Z -> Z := upd m a (Z.land v 255).

(** [setup()], statement by statement, on the data space. [noInterrupts()]
    is [cli], which clears the I bit (7) of SREG; a 16-bit [OCR1x = 255]
    stores the high byte, then the low byte. *)
Definition setup (c : config) (m0 : Z -> Z) : Z -> Z :=
  let m := wr8 m0 SREG (Z.clearbit (m0 SREG) 7) in
  let m := wr8 m TIMSK0 0 in
  let m := wr8 m TIMSK1 0 in
  let m := wr8 m TIMSK2 0 in
  let m := wr8 m DDRB (Z.lor (m DDRB) (Z.lor (Z.lor (bv PB1) (bv PB2)) (bv PB3))) in
  let m := wr8 m DDRD (Z.lor (m DDRD) (Z.lor (Z.lor (bv DDD3) (bv DDD5)) (bv DDD6))) in
  let m := wr8 m DDRD (Z.land (m DDRD) (Z.lnot (bv (DATA_IN c)))) in
  let m := wr8 m DDRD (Z.lor (m DDRD) (bv (DATA_OUT c))) in
  let m := wr8 m TCCR0A (Z.lor (Z.lor (Z.lor (Z.lor (Z.lor (bv COM0A1) (bv COM0A0))
                          (bv COM0B1)) (bv COM0B0)) (bv WGM01)) (bv WGM00)) in
  let m := wr8 m TCCR0B (bv CS00) in
  let m := wr8 m TCCR1A (Z.lor (Z.lor (Z.lor (Z.lor (bv COM1A1) (bv COM1A0))
                          (bv COM1B1)) (bv COM1B0)) (bv WGM10)) in
  let m := wr8 m TCCR1B (Z.lor (bv WGM12) (bv CS10)) in
  let m := wr8 m TCCR2A (Z.lor (Z.lor (Z.lor (Z.lor (Z.lor (bv COM2A1) (bv COM2A0))
                          (bv COM2B1)) (bv COM2B0)) (bv WGM21)) (bv WGM20)) in
  let m := wr8 m TCCR2B (bv CS20) in
  let m := wr8 m OCR0A 255 in
  let m := wr8 m OCR0B 255 in
  let m := wr8 m OCR1AH (Z.shiftr 255 8) in
  let m := wr8 m OCR1AL 255 in
  let m := wr8 m OCR1BH (Z.shiftr 255 8) in
  let m := wr8 m OCR1BL 255 in
  let m := wr8 m OCR2A 255 in
  let m := wr8 m OCR2B 255 in
  m.

(** The registers [setup()] stores to. *)
Definition setup_regs : list Z :=
  [SREG; TIMSK0; TIMSK1; TIMSK2; DDRB; DDRD; TCCR0A; TCCR0B; TCCR1A; TCCR1B;
   TCCR2A; TCCR2B; OCR0A; OCR0B; OCR1AH; OCR1AL; OCR1BH; OCR1BL; OCR2A; OCR2B].

Lemma bv_spec k b : 0 <= k -> 0 <= b -> Z.testbit (bv k) b = (b =? k).
Proof.
  intros Hk Hb. unfold bv. rewrite Z.shiftl_spec by exact Hb.
  destruct (Z.eqb_spec b k) as [->|Hne].
  - rewrite Z.sub_diag. reflexivity.
  - destruct (Z.lt_ge_cases (b - k) 0) as [Hl|Hl].
    + apply Z.testbit_neg_r. exact Hl.
    + replace (b - k) with (Z.succ (Z.pred (b - k))) by lia.
      apply (Z.bits_above_log2 1); simpl; lia.
Qed.

Lemma testbit_255 b : 0 <= b < 8 -> Z.testbit 255 b = true.
Proof.
  intros Hb. change 255 with (Z.ones 8). apply Z.ones_spec_low. exact Hb.
Qed.

Lemma setup_ddrd_bit c m b : 0 <= b < 8 ->
  Z.testbit (setup c m DDRD) b =
    ((Z.testbit (m DDRD) b || (b =? DDD3) || (b =? DDD5) || (b =? DDD6)) &&
     negb (b =? DATA_IN c)) || (b =? DATA_OUT c).
Proof.
  intros Hb.
  replace (setup c m DDRD) with
    (Z.land (Z.lor (Z.land (Z.land (Z.land (Z.lor (m DDRD)
        (Z.lor (Z.lor (bv DDD3) (bv DDD5)) (bv DDD6))) 255) (Z.lnot (bv (DATA_IN c)))) 255)
        (bv (DATA_OUT c))) 255) by reflexivity.
  assert (Hi : 0 <= DATA_IN c) by (unfold DATA_IN; destruct (alternate_data_pins c); lia).
  assert (Ho : 0 <= DATA_OUT c) by (unfold DATA_OUT; destruct (alternate_data_pins c); lia).
  repeat first [ rewrite Z.land_spec | rewrite Z.lor_spec | rewrite Z.lnot_spec by lia
                | rewrite bv_spec by (unfold DDD3, DDD5, DDD6; lia)
                | rewrite testbit_255 by lia ].
  rewrite !andb_true_r, !orb_assoc. reflexivity.
Qed.

Lemma setup_ddrb_bit c m b : 0 <= b < 8 ->
  Z.testbit (setup c m DDRB) b =
    Z.testbit (m DDRB) b || (b =? PB1) || (b =? PB2) || (b =? PB3).
Proof.
  intros Hb.
  replace (setup c m DDRB) with
    (Z.land (Z.lor (m DDRB) (Z.lor (Z.lor (bv PB1) (bv PB2)) (bv PB3))) 255) by reflexivity.
  repeat first [ rewrite Z.land_spec | rewrite Z.lor_spec
                | rewrite bv_spec by (unfold PB1, PB2, PB3; lia)
                | rewrite testbit_255 by lia ].
  rewrite !andb_true_r, !orb_assoc. reflexivity.
Qed.

(** ** The power-on sync: [wait_reset] / [r_chk] *)

Definition sync_loop (c : config) : list item :=
  [ Ins (LDI 22 250); Ins (SBIC PIND (DATA_IN c)); Ins (JMP wait_reset);
    Ins (DEC 22); Ins (BRNE r_chk) ].

Definition sync_layout_b (c : config) : bool :=
  code_atb (words c) (lab c wait_reset) (assemble (sync_loop c)) &&
  Nat.eqb (lab c r_chk) (1 + lab c wait_reset) &&
  Nat.eqb (lab c capture_start) (6 + lab c wait_reset).

Lemma sync_layouts_ok : forallb sync_layout_b all_configs = true.
Proof. vm_compute. reflexivity. Qed.

Lemma sync_layout c :
  code_at c (lab c wait_reset) (assemble (sync_loop c)) /\
  lab c r_chk = (1 + lab c wait_reset)%nat /\
  lab c capture_start = (6 + lab c wait_reset)%nat.
Proof.
  pose proof sync_layouts_ok as H. rewrite forallb_forall in H.
  specialize (H c (all_configs_in c)). unfold sync_layout_b in H.
  apply andb_prop in H as [H H3]. apply andb_prop in H as [H1 H2].
  apply Nat.eqb_eq in H2, H3. split; [apply code_atb_ok, H1|]. auto.
Qed.

Section Sync.
Variables (c : config) (inp : input).
Let W := lab c wait_reset.

Lemma step_dec s r :
  fetch c (pc s) = Some (DEC r) ->
  step c inp s = Some (set_reg s r ((regs s r - 1) mod 256) 1).
Proof. intros F. unfold step. rewrite F. reflexivity. Qed.

Lemma step_brne_taken s l :
  fetch c (pc s) = Some (BRNE l) -> zf s = false ->
  step c inp s = Some (jump s (lab c l) 2).
Proof. intros F Z. unfold step. rewrite F, Z. reflexivity. Qed.

Lemma step_brne_not s l :
  fetch c (pc s) = Some (BRNE l) -> zf s = true ->
  step c inp s = Some (jump s (S (pc s)) 1).
Proof. intros F Z. unfold step. rewrite F, Z. reflexivity. Qed.

(** Counting down from [m]: [m] checks 6 cycles apart that see the line
    low reach [capture_start] 6m - 1 cycles after the first one, r22 = 0. *)
Lemma sync_count m : forall s,
  (1 <= m <= 256)%nat -> pc s = (1 + W)%nat -> regs s 22 = Z.of_nat m ->
  (forall j, (j < m)%nat -> inp (time s + 6 * Z.of_nat j) = false) ->
  exists s', run c inp (3 * m) s = Some s' /\
    pc s' = lab c capture_start /\ time s' = time s + 6 * Z.of_nat m - 1 /\
    (forall q, regs s' q = upd (regs s) 22 0 q) /\ ds s' = ds s.
Proof.
  destruct (sync_layout c) as (Hc & Lr & Lc). fold W in Hc, Lr, Lc.
  induction m as [|m IH]; intros s Hm P G Lo; [lia|].
  assert (E1 : step c inp s = Some (jump s (3 + S W) 3)).
  { rewrite (step_sbic_yes _ _ _ PIND (DATA_IN c) (JMP wait_reset)).
    - rewrite P. reflexivity.
    - rewrite P. fetch_tac.
    - rewrite io_bit_in. replace (time s) with (time s + 6 * Z.of_nat 0) by lia.
      apply Lo. lia.
    - rewrite P. fetch_tac. }
  assert (E2 : step c inp (jump s (3 + S W) 3) =
               Some (set_reg (jump s (3 + S W) 3) 22 (Z.of_nat m) 1)).
  { rewrite (step_dec _ 22) by (cbn_st; fetch_tac).
    cbn_st. rewrite G. f_equal. f_equal. rewrite Z.mod_small; lia. }
  set (s2 := set_reg (jump s (3 + S W) 3) 22 (Z.of_nat m) 1) in E2.
  assert (F2 : fetch c (pc s2) = Some (BRNE r_chk)) by (unfold s2; cbn_st; fetch_tac).
  destruct m as [|m'].
  - (* last check: r22 reaches 0, [brne] falls through *)
    eexists. split.
    + change (3 * 1)%nat with 3%nat.
      rewrite (run_S _ _ _ _ _ E1), (run_S _ _ _ _ _ E2).
      erewrite run_S; [reflexivity | apply (step_brne_not _ _ F2); reflexivity].
    + unfold s2. cbn_st. split; [rewrite Lc; lia|]. split; [lia|].
      split; [|reflexivity]. intros q. reflexivity.
  - assert (E3 : step c inp s2 = Some (jump s2 (1 + W) 2)).
    { rewrite <- Lr. apply (step_brne_taken _ _ F2). unfold s2. cbn_st. apply Z.eqb_neq. lia. }
    destruct (IH (jump s2 (1 + W) 2)) as (s' & R & P' & T' & G' & D').
    + lia.
    + reflexivity.
    + unfold s2. cbn_st. unfold upd. simpl. lia.
    + intros j Hj. unfold s2. cbn_st.
      replace (time s + 3 + 1 + 2 + 6 * Z.of_nat j) with (time s + 6 * Z.of_nat (S j)) by lia.
      apply Lo. lia.
    + exists s'. split.
      * replace (3 * S (S m'))%nat with (S (S (S (3 * S m')))) by lia.
        rewrite (run_S _ _ _ _ _ E1), (run_S _ _ _ _ _ E2), (run_S _ _ _ _ _ E3). exact R.
      * split; [exact P'|]. split; [rewrite T'; unfold s2; cbn_st; lia|].
        split; [|rewrite D'; reflexivity].
        intros q. rewrite G'. unfold s2. cbn_st. unfold upd.
        destruct (q =? 22); reflexivity.
Qed.


(** From [wait_reset]: [ldi r22, 250], then 250 checks that see the line
    low, 6 cycles apart, reach [capture_start] 1500 cycles later. *)
Lemma sync_ready s :
  pc s = W ->
  (forall j, (j < 250)%nat -> inp (time s + 1 + 6 * Z.of_nat j) = false) ->
  exists s', run c inp 751 s = Some s' /\
    pc s' = lab c capture_start /\ time s' = time s + 1500 /\
    (forall q, regs s' q = upd (regs s) 22 0 q) /\ ds s' = ds s.
Proof.
  intros P Lo. destruct (sync_layout c) as (Hc & Lr & Lc). fold W in Hc, Lr, Lc.
  assert (E1 := step_ldi c inp s 22 250 ltac:(rewrite P; fetch_tac)).
  set (s1 := mkState (S (pc s)) (time s + 1) (upd (regs s) 22 250) (ds s) (zf s)) in E1.
  destruct (sync_count 250 s1) as (s' & R & P' & T' & G' & D').
  - lia.
  - unfold s1. cbn_st. rewrite P. reflexivity.
  - unfold s1, upd. cbn_st. reflexivity.
  - intros j Hj. apply Lo. exact Hj.
  - exists s'. split; [rewrite (run_S _ _ _ _ _ E1) in *; exact R|].
    split; [exact P'|]. split; [rewrite T'; unfold s1; cbn_st; lia|].
    split; [|exact D'].
    intros q. rewrite G'. unfold s1, upd. cbn_st. destruct (q =? 22); reflexivity.
Qed.

(** Where the sync loop can be, and what the line did before: at [r_chk]
    and the following [dec] and [brne], the checks since the last
    [ldi r22, 250] all saw the line low; at [capture_start], 250 of them. *)
Definition sync_inv (s : state) : Prop :=
  pc s = W \/
  pc s = (2 + W)%nat \/
  (pc s = (1 + W)%nat /\ 1 <= regs s 22 <= 250 /\
     forall j, 0 <= j < 250 - regs s 22 -> inp (time s - 6 - 6 * j) = false) \/
  (pc s = (4 + W)%nat /\ 1 <= regs s 22 <= 250 /\
     forall j, 0 <= j < 251 - regs s 22 -> inp (time s - 3 - 6 * j) = false) \/
  (pc s = (5 + W)%nat /\ 0 <= regs s 22 <= 249 /\ zf s = (regs s 22 =? 0) /\
     forall j, 0 <= j < 250 - regs s 22 -> inp (time s - 4 - 6 * j) = false) \/
  (pc s = (6 + W)%nat /\ forall j, 0 <= j < 250 -> inp (time s - 5 - 6 * j) = false).

Lemma step_sync_inv s s' :
  sync_inv s -> pc s <> lab c capture_start -> step c inp s = Some s' -> sync_inv s'.
Proof.
  destruct (sync_layout c) as (Hc & Lr & Lc). fold W in Hc, Lr, Lc.
  intros I N E. unfold sync_inv in I |- *.
  destruct I as [P | [P | [(P & Hr & Lo) | [(P & Hr & Lo) | [(P & Hr & Z & Lo) | (P & _)]]]]].
  - rewrite (step_ldi c inp s 22 250 ltac:(rewrite P; fetch_tac)) in E.
    injection E as <-. right; right; left. cbn_st. rewrite P.
    unfold upd. rewrite Z.eqb_refl. split; [reflexivity|]. split; [lia|].
    intros j Hj. lia.
  - rewrite (step_jmp c inp s wait_reset ltac:(rewrite P; fetch_tac)) in E.
    injection E as <-. left. reflexivity.
  - destruct (inp (time s)) eqn:I.
    + rewrite (step_sbic_no c inp s PIND (DATA_IN c) ltac:(rewrite P; fetch_tac)
                 ltac:(rewrite io_bit_in; exact I)) in E.
      injection E as <-. right; left. cbn_st. rewrite P. reflexivity.
    + rewrite (step_sbic_yes c inp s PIND (DATA_IN c) (JMP wait_reset)
                 ltac:(rewrite P; fetch_tac) ltac:(rewrite io_bit_in, I; reflexivity)
                 ltac:(rewrite P; fetch_tac)) in E.
      injection E as <-. do 3 right; left. cbn_st. rewrite P.
      split; [reflexivity|]. split; [exact Hr|].
      intros j Hj. destruct (Z.eq_dec j 0) as [->|Hj0].
      * rewrite <- I. f_equal. lia.
      * replace (time s + 3 - 3 - 6 * j) with (time s - 6 - 6 * (j - 1)) by lia.
        apply Lo. lia.
  - rewrite (step_dec s 22 ltac:(rewrite P; fetch_tac)) in E.
    injection E as <-. do 4 right; left. cbn_st. rewrite P.
    unfold upd. rewrite Z.eqb_refl. rewrite Z.mod_small by lia.
    split; [reflexivity|]. split; [lia|]. split; [reflexivity|].
    intros j Hj. replace (time s + 1 - 4 - 6 * j) with (time s - 3 - 6 * j) by lia.
    apply Lo. lia.
  - destruct (zf s) eqn:Zs.
    + rewrite (step_brne_not s r_chk ltac:(rewrite P; fetch_tac) Zs) in E.
      injection E as <-. do 5 right. cbn_st. rewrite P. split; [reflexivity|].
      symmetry in Z. apply Z.eqb_eq in Z. rewrite Z in Lo.
      intros j Hj. replace (time s + 1 - 5 - 6 * j) with (time s - 4 - 6 * j) by lia.
      apply Lo. lia.
    + rewrite (step_brne_taken s r_chk ltac:(rewrite P; fetch_tac) Zs) in E.
      injection E as <-. right; right; left. cbn_st. rewrite Lr.
      symmetry in Z. apply Z.eqb_neq in Z.
      split; [reflexivity|]. split; [lia|].
      intros j Hj. replace (time s + 2 - 6 - 6 * j) with (time s - 4 - 6 * j) by lia.
      apply Lo. lia.
  - exfalso. apply N. rewrite P, Lc. reflexivity.
Qed.


Lemma run_sync_inv n : forall s s',
  sync_inv s -> run c inp n s = Some s' ->
  (forall i s1, (i < n)%nat -> run c inp i s = Some s1 -> pc s1 <> lab c capture_start) ->
  sync_inv s'.
Proof.
  induction n as [|n IH]; intros s s' I R A.
  - simpl in R. injection R as <-. exact I.
  - simpl in R. destruct (step c inp s) as [s1|] eqn:E; [|discriminate].
    apply (IH s1); [ | exact R | ].
    + apply (step_sync_inv s); [exact I | apply (A 0%nat); [lia | reflexivity] | exact E].
    + intros i s2 Hi R2. apply (A (S i)); [lia|]. simpl. rewrite E. exact R2.
Qed.

End Sync.

Fixpoint avoidsb (c : config) (inp : input) (n : nat) (s : state) (p : nat) : bool :=
  match n with
  | O => true
  | S n' => negb (Nat.eqb (pc s) p) &&
            match step c inp s with Some s' => avoidsb c inp n' s' p | None => true end
  end.

Lemma avoidsb_ok c inp n : forall s p,
  avoidsb c inp n s p = true ->
  forall i s1, (i < n)%nat -> run c inp i s = Some s1 -> pc s1 <> p.
Proof.
  induction n as [|n IH]; intros s p H i s1 Hi R; [lia|].
  simpl in H. apply andb_prop in H as [H0 H1].
  destruct i as [|i].
  - simpl in R. injection R as <-. apply negb_true_iff, Nat.eqb_neq in H0. exact H0.
  - simpl in R. destruct (step c inp s) as [s2|]; [|discriminate].
    exact (IH s2 p H1 i s1 ltac:(lia) R).
Qed.

(** ** What the loop writes, and that it never gets stuck *)

(** [sbi]/[cbi] touch only the output bit of PORTD; [sts] stores only the
    six (address, register) pairs of the update phase. *)
Definition ds_write_ok (c : config) (p : nat) : bool :=
  match fetch c p with
  | Some (SBI a b) | Some (CBI a b) => (a =? PORTD) && (b =? DATA_OUT c)
  | Some (STS a r) =>
      existsb (fun ar => (fst ar =? a) && (snd ar =? r)) ocr_writes &&
      Nat.leb (lab c update_now) p
  | _ => true
  end.

(** Every register an instruction writes is one of r16 .. r22. *)
Definition reg_write_ok (c : config) (p : nat) : bool :=
  match fetch c p with
  | Some (LSL r) | Some (ORI r _) | Some (LDI r _) | Some (DEC r) | Some (COM r) =>
      (16 <=? r) && (r <=? 22)
  | _ => true
  end.

(** Every address an instruction may go to, the word after a skip
    included, holds an instruction. *)
Definition succ_ok (c : config) (p : nat) : bool :=
  match fetch c p with
  | None => true
  | Some i => forallb (fun q => match fetch c q with Some _ => true | None => false end)
                      (succs c p i)
  end.

Lemma program_checks :
  forallb (fun c => forallb (fun p => ds_write_ok c p && reg_write_ok c p && succ_ok c p)
                            (seq 0 (length (words c)))) all_configs = true.
Proof. vm_compute. reflexivity. Qed.

Lemma program_check_at c p i :
  fetch c p = Some i -> ds_write_ok c p = true /\ reg_write_ok c p = true /\ succ_ok c p = true.
Proof.
  intros F. pose proof program_checks as H. rewrite forallb_forall in H.
  specialize (H c (all_configs_in c)). rewrite forallb_forall in H.
  specialize (H p ltac:(apply in_seq; pose proof (fetch_lt _ _ _ F); lia)).
  apply andb_prop in H as [H H3]. apply andb_prop in H as [H1 H2]. auto.
Qed.

Lemma step_total c inp s :
  fetch c (pc s) <> None -> exists s', step c inp s = Some s' /\ fetch c (pc s') <> None.
Proof.
  intros F. destruct (fetch c (pc s)) as [i|] eqn:Fi; [clear F|congruence].
  destruct (program_check_at c (pc s) i Fi) as (_ & _ & Ok).
  unfold succ_ok in Ok. rewrite Fi in Ok. rewrite forallb_forall in Ok.
  assert (Ex : exists s', step c inp s = Some s').
  { unfold step. rewrite Fi.
    destruct i; try (eexists; reflexivity);
      try (destruct (zf s); eexists; reflexivity);
      unfold skip;
      (match goal with |- context [if ?b then _ else _] => destruct b end);
      try (eexists; reflexivity);
      (assert (Fs := Ok (S (pc s)) ltac:(cbn [succs]; left; reflexivity));
       destruct (fetch c (S (pc s))); [eexists; reflexivity | discriminate]). }
  destruct Ex as [s' E]. exists s'. split; [exact E|].
  assert (Sc := step_succ c inp s s' i Fi E). specialize (Ok _ Sc).
  destruct (fetch c (pc s')); congruence.
Qed.

Lemma step_ds_writes c inp s s' :
  step c inp s = Some s' ->
  (forall a, a <> PORTD + 32 -> ~ In a (map fst ocr_writes) -> ds s' a = ds s a) /\
  (forall b, 0 <= b -> b <> DATA_OUT c ->
     Z.testbit (ds s' (PORTD + 32)) b = Z.testbit (ds s (PORTD + 32)) b).
Proof.
  intros E. destruct (fetch c (pc s)) as [i|] eqn:F;
    [|unfold step in E; rewrite F in E; discriminate].
  destruct (program_check_at c (pc s) i F) as (Ok & _ & _).
  unfold ds_write_ok in Ok. rewrite F in Ok.
  unfold step in E. rewrite F in E.
  destruct i; step_cases E; cbn [ds jump set_reg set_ds];
    try (split; [intros; reflexivity | intros; reflexivity]).
  - (* sbi *)
    apply andb_prop in Ok as [Ha Hb]. apply Z.eqb_eq in Ha, Hb. subst.
    split.
    + intros a Ha _. unfold upd. destruct (Z.eqb_spec a (PORTD + 32)); [congruence | reflexivity].
    + intros b Hb Hne. unfold upd. rewrite Z.eqb_refl, Z.setbit_neq by (auto; unfold DATA_OUT; destruct (alternate_data_pins c); lia). reflexivity.
  - (* cbi *)
    apply andb_prop in Ok as [Ha Hb]. apply Z.eqb_eq in Ha, Hb. subst.
    split.
    + intros a Ha _. unfold upd. destruct (Z.eqb_spec a (PORTD + 32)); [congruence | reflexivity].
    + intros b Hb Hne. unfold upd. rewrite Z.eqb_refl, Z.clearbit_neq by (auto; unfold DATA_OUT; destruct (alternate_data_pins c); lia). reflexivity.
  - (* sts *)
    apply andb_prop in Ok as [Ha _]. apply existsb_exists in Ha as ([x y] & Hin & Hxy).
    cbn [fst snd] in Hxy. apply andb_prop in Hxy as [Hx _]. apply Z.eqb_eq in Hx. subst.
    split.
    + intros a' _ N. unfold upd. destruct (Z.eqb_spec a' a) as [->|]; [|reflexivity].
      exfalso. apply N. apply (in_map fst _ (a, y)). exact Hin.
    + intros b _ _. unfold upd. destruct (Z.eqb_spec (PORTD + 32) a) as [Ha|]; [|reflexivity].
      exfalso. simpl in Hin. unfold PORTD in Ha.
      repeat (destruct Hin as [Hin|Hin]; [injection Hin; lia|]). exact Hin.
Qed.

(** ** The output line over time *)

(** Level of the output line at cycle [t] along the run of [n] steps from
    [s]: the level left by the last instruction done by cycle [t]. *)
Fixpoint out_at (c : config) (inp : input) (n : nat) (s : state) (t : Z) : bool :=
  match n with
  | O => out_level c s
  | S n' =>
      match step c inp s with
      | Some s' => if time s' <=? t then out_at c inp n' s' t else out_level c s
      | None => out_level c s
      end
  end.

Lemma out_at_S c inp n s s' t :
  step c inp s = Some s' ->
  out_at c inp (S n) s t = if time s' <=? t then out_at c inp n s' t else out_level c s.
Proof. intros E. simpl. rewrite E. reflexivity. Qed.

Ltac out_simpl :=
  unfold out_level; cbn [ds jump set_ds set_reg];
  unfold upd; rewrite ?Z.eqb_refl, ?Z.clearbit_eq, ?Z.setbit_eq
    by (unfold DATA_OUT; destruct (alternate_data_pins _); lia).

Ltac leb_cases :=
  repeat match goal with
         | |- context [?x <=? ?y] => destruct (Z.leb_spec x y)
         | |- context [?x <? ?y] => destruct (Z.ltb_spec x y)
         end;
  cbn [andb orb negb]; try reflexivity; exfalso; lia.

(** ** The relay output over a bit train *)

Lemma relay_wave c inp k s :
  (k < 256)%nat -> pc s = (5 * k + lab c relay_entry)%nat ->
  inp (time s) = true -> out_level c s = false ->
  let b1 := inp (time s + 7) in
  let b2 := inp (time s + 7 + if b1 then 2 else 3) in
  let w := if b1 then (if b2 then 11 else 10) else 6 in
  forall t, time s <= t ->
    out_at c inp (3 + relay_steps b1 b2) s t = (time s + 4 <=? t) && (t <? time s + 4 + w).
Proof.
  intros Hk P I O b1 b2 w t Ht.
  assert (Hc := relay_code c k Hk). assert (Hb := relay_bit_code c).
  assert (L := lab_relay_bit c).
  unfold w, b2, b1; clear w b2 b1.
  unfold out_level in O.
  change (3 + relay_steps ?x ?y)%nat with (S (S (S (relay_steps x y)))).
  erewrite out_at_S; [ | apply (step_sbis_yes _ _ _ PIND (DATA_IN c) (RJMP 6));
    [ rewrite P; fetch_tac | rewrite io_bit_in; exact I | rewrite P; fetch_tac ] ].
  erewrite out_at_S; [ | apply step_sbi; cbn_st; rewrite P; fetch_tac ].
  erewrite out_at_S; [ | apply step_jmp; cbn_st; rewrite P; fetch_tac ].
  destruct (inp (time s + 7)) eqn:I1;
  [ destruct (inp (time s + 7 + 2)) eqn:I2 | destruct (inp (time s + 7 + 3)) eqn:I2 ];
  cbn [relay_steps].
  - erewrite out_at_S; [ | apply (step_sbis_yes _ _ _ PIND (DATA_IN c) (CBI PORTD (DATA_OUT c)));
      [ cbn_st; fetch_tac | rewrite io_bit_in; cbn_st; rewrite <- I1; f_equal; lia
      | cbn_st; fetch_tac ] ].
    erewrite out_at_S; [ | apply (step_sbic_no _ _ _ PIND (DATA_IN c));
      [ cbn_st; fetch_tac | rewrite io_bit_in; cbn_st; rewrite <- I2; f_equal; lia ] ].
    erewrite out_at_S; [ | apply (step_rjmp _ _ _ 0 (4 + lab c relay_bit));
      [ cbn_st; fetch_tac | cbn_st; change (0 / 2) with 0; lia ] ].
    erewrite out_at_S; [ | apply step_nop; cbn_st; fetch_tac ].
    erewrite out_at_S; [ | apply step_cbi; cbn_st; fetch_tac ].
    erewrite out_at_S; [ | apply step_jmp; cbn_st; fetch_tac ].
    cbn [out_at]. cbn_st. out_simpl. rewrite O. leb_cases.
  - erewrite out_at_S; [ | apply (step_sbis_yes _ _ _ PIND (DATA_IN c) (CBI PORTD (DATA_OUT c)));
      [ cbn_st; fetch_tac | rewrite io_bit_in; cbn_st; rewrite <- I1; f_equal; lia
      | cbn_st; fetch_tac ] ].
    erewrite out_at_S; [ | apply (step_sbic_yes _ _ _ PIND (DATA_IN c) (RJMP 0));
      [ cbn_st; fetch_tac | rewrite io_bit_in; cbn_st; rewrite <- I2; f_equal; lia
      | cbn_st; fetch_tac ] ].
    erewrite out_at_S; [ | apply step_nop; cbn_st; fetch_tac ].
    erewrite out_at_S; [ | apply step_cbi; cbn_st; fetch_tac ].
    erewrite out_at_S; [ | apply step_jmp; cbn_st; fetch_tac ].
    cbn [out_at]. cbn_st. out_simpl. rewrite O. leb_cases.
  - erewrite out_at_S; [ | apply (step_sbis_no _ _ _ PIND (DATA_IN c));
      [ cbn_st; fetch_tac | rewrite io_bit_in; cbn_st; rewrite <- I1; f_equal; lia ] ].
    erewrite out_at_S; [ | apply step_cbi; cbn_st; fetch_tac ].
    erewrite out_at_S; [ | apply (step_sbic_no _ _ _ PIND (DATA_IN c));
      [ cbn_st; fetch_tac | rewrite io_bit_in; cbn_st; rewrite <- I2; f_equal; lia ] ].
    erewrite out_at_S; [ | apply (step_rjmp _ _ _ 0 (4 + lab c relay_bit));
      [ cbn_st; fetch_tac | cbn_st; change (0 / 2) with 0; lia ] ].
    erewrite out_at_S; [ | apply step_nop; cbn_st; fetch_tac ].
    erewrite out_at_S; [ | apply step_cbi; cbn_st; fetch_tac ].
    erewrite out_at_S; [ | apply step_jmp; cbn_st; fetch_tac ].
    cbn [out_at]. cbn_st. out_simpl. rewrite O. leb_cases.
  - erewrite out_at_S; [ | apply (step_sbis_no _ _ _ PIND (DATA_IN c));
      [ cbn_st; fetch_tac | rewrite io_bit_in; cbn_st; rewrite <- I1; f_equal; lia ] ].
    erewrite out_at_S; [ | apply step_cbi; cbn_st; fetch_tac ].
    erewrite out_at_S; [ | apply (step_sbic_yes _ _ _ PIND (DATA_IN c) (RJMP 0));
      [ cbn_st; fetch_tac | rewrite io_bit_in; cbn_st; rewrite <- I2; f_equal; lia
      | cbn_st; fetch_tac ] ].
    erewrite out_at_S; [ | apply step_nop; cbn_st; fetch_tac ].
    erewrite out_at_S; [ | apply step_cbi; cbn_st; fetch_tac ].
    erewrite out_at_S; [ | apply step_jmp; cbn_st; fetch_tac ].
    cbn [out_at]. cbn_st. out_simpl. rewrite O. leb_cases.
Qed.

Lemma out_at_before c inp n s t : t < time s -> out_at c inp n s t = out_level c s.
Proof.
  intros Ht. destruct n as [|n]; [reflexivity|]. simpl.
  destruct (step c inp s) as [s'|] eqn:E; [|reflexivity].
  assert (T := step_time _ _ _ _ E).
  replace (time s' <=? t) with false by (symmetry; apply Z.leb_gt; lia). reflexivity.
Qed.

Lemma out_at_seq c inp n1 n2 : forall s s1 t,
  run c inp n1 s = Some s1 ->
  out_at c inp (n1 + n2) s t =
    if time s1 <=? t then out_at c inp n2 s1 t else out_at c inp n1 s t.
Proof.
  induction n1 as [|n IH]; intros s s1 t R.
  - simpl in R. injection R as <-. simpl.
    destruct (Z.leb_spec (time s) t); [reflexivity|]. apply out_at_before. lia.
  - simpl in R. destruct (step c inp s) as [s'|] eqn:E; [|discriminate].
    assert (M := run_time_mono _ _ _ _ _ R).
    change (S n + n2)%nat with (S (n + n2)).
    rewrite !(out_at_S _ _ _ _ _ _ E), (IH s' s1 t R).
    destruct (Z.leb_spec (time s1) t); destruct (Z.leb_spec (time s') t);
      try reflexivity; lia.
Qed.

Lemma out_at_spin c inp m : forall k s t,
  (k + m <= 256)%nat -> pc s = (5 * k + lab c relay_entry)%nat ->
  (forall j, (j < m)%nat -> inp (time s + 3 * Z.of_nat j) = false) ->
  out_at c inp (2 * m) s t = out_level c s.
Proof.
  induction m as [|m IH]; intros k s t Hk P I; [reflexivity|].
  assert (Hc := relay_code c k ltac:(lia)).
  assert (E1 : step c inp s = Some (jump s (S (pc s)) 1)).
  { apply (step_sbis_no _ _ _ PIND (DATA_IN c)).
    - rewrite P. fetch_tac.
    - rewrite io_bit_in. replace (time s) with (time s + 3 * Z.of_nat 0) by lia.
      apply I. lia. }
  assert (E2 : step c inp (jump s (S (pc s)) 1) =
               Some (jump (jump s (S (pc s)) 1) (5 * S k + lab c relay_entry) 2)).
  { apply (step_rjmp _ _ _ 6).
    - cbn_st. rewrite P. fetch_tac.
    - cbn_st. rewrite P. change (6 / 2) with 3. lia. }
  replace (2 * S m)%nat with (S (S (2 * m))) by lia.
  rewrite (out_at_S _ _ _ _ _ _ E1), (out_at_S _ _ _ _ _ _ E2).
  rewrite (IH (S k)); [ | lia | reflexivity | ].
  - destruct (Z.leb _ t); [|reflexivity]. destruct (Z.leb _ t); reflexivity.
  - intros j Hj. cbn_st.
    replace (time s + 1 + 2 + 3 * Z.of_nat j) with (time s + 3 * Z.of_nat (S j)) by lia.
    apply I. lia.
Qed.

(** The output pulse a relayed bit [b] detected at cycle [d] produces:
    high from [d + 4] on, 11 cycles for a 1 and 6 for a 0. *)
Definition out_window (d : Z) (b : bool) (t : Z) : bool :=
  (d + 4 <=? t) && (t <? d + 4 + (if b then 11 else 6)).

(** The output of a relayed bit train: bit [i], detected at cycle
    [nth i dets], gives its pulse; the line is low elsewhere. *)
Fixpoint relay_out (dets : list Z) (bits : list bool) (t : Z) : bool :=
  match dets, bits with
  | d :: dets', b :: bits' => out_window d b t || relay_out dets' bits' t
  | _, _ => false
  end.

Lemma relay_out_before lo dets : forall bits t,
  (forall i d, nth_error dets i = Some d -> lo <= d) -> t < lo + 4 ->
  relay_out dets bits t = false.
Proof.
  induction dets as [|d dets IH]; intros [|b bits] t H Ht; try reflexivity.
  simpl. rewrite (IH bits t); [ | intros i d' Hi; apply (H (S i)); exact Hi | exact Ht ].
  assert (lo <= d) by (apply (H 0%nat); reflexivity).
  unfold out_window. replace (d + 4 <=? t) with false by (symmetry; apply Z.leb_gt; lia).
  reflexivity.
Qed.

Lemma relay_one_wave c inp s e b :
  pc s = lab c relay_entry -> time s <= e + 2 -> e - time s <= 765 ->
  (forall t, time s <= t < e -> inp t = false) -> pulse inp e b ->
  out_level c s = false ->
  exists n s' d, reaches c inp n s s' (lab c update_now) /\
    pc s' = lab c relay_entry /\ e + 18 <= time s' <= e + 20 /\
    regs s' = regs s /\ (forall q, q <> PORTD + 32 -> ds s' q = ds s q) /\
    out_level c s' = false /\ e <= d <= e + 2 /\
    (forall t, time s <= t -> out_at c inp n s t = out_window d b t).
Proof.
  intros P Hx Hy Lo [Hi Lo2] O.
  set (m := Z.to_nat ((e - time s + 2) / 3)).
  assert (Hm : e - time s <= 3 * Z.of_nat m <= e - time s + 2).
  { unfold m. rewrite Z2Nat.id by (apply Z.div_pos; lia).
    assert (H1 := Z.mul_div_le (e - time s + 2) 3 ltac:(lia)).
    assert (H2 := Z.mod_pos_bound (e - time s + 2) 3 ltac:(lia)).
    assert (H3 := Z.div_mod (e - time s + 2) 3 ltac:(lia)). lia. }
  assert (Hm256 : (m < 256)%nat) by lia.
  assert (Lm : forall j, (j < m)%nat -> inp (time s + 3 * Z.of_nat j) = false).
  { intros j Hj. apply Lo. lia. }
  destruct (relay_spin c inp m 0 s ltac:(lia) ltac:(rewrite P; lia) Lm) as [R1 A1].
  set (s1 := jump s (5 * (0 + m) + lab c relay_entry) (3 * Z.of_nat m)) in R1, A1.
  assert (Hs1 : inp (time s1) = true).
  { apply Hi. unfold s1; cbn_st. destruct b; unfold hi_len; lia. }
  assert (D := relay_detect c inp m s1 Hm256 ltac:(unfold s1; cbn_st; lia) Hs1).
  set (sB := mkState (lab c relay_bit) (time s1 + 7) (regs s1) (raise_out c s1) (zf s1)) in D.
  assert (RB := relay_bit_ok c inp sB eq_refl). cbv zeta in RB.
  assert (I1 : inp (time sB) = b).
  { unfold sB, s1; cbn_st. destruct b; [apply Hi | apply Lo2]; unfold hi_len; lia. }
  rewrite I1 in RB.
  assert (I2 : inp (time sB + if b then 2 else 3) = b).
  { unfold sB, s1; cbn_st. destruct b; [apply Hi | apply Lo2]; unfold hi_len; lia. }
  rewrite I2 in RB.
  destruct RB as (s' & RB & P' & T' & G' & D' & _).
  exists (2 * m + (3 + relay_steps b b))%nat, s', (time s1).
  split.
  { apply (reaches_seq _ _ _ _ _ s1); [split; assumption|].
    apply (reaches_seq _ _ _ _ _ sB); auto. }
  split; [exact P'|].
  split; [ rewrite T'; unfold sB, s1; cbn_st; destruct b; unfold relay_dur; lia |].
  split; [ rewrite G'; reflexivity |].
  split.
  { intros q Hq. rewrite D'. rewrite <- Z.eqb_neq in Hq.
    unfold lower_out, upd. rewrite Hq. unfold sB. cbn [ds].
    unfold raise_out, upd. rewrite Hq. reflexivity. }
  split.
  { unfold out_level. rewrite D'. unfold lower_out, upd. rewrite Z.eqb_refl.
    apply Z.clearbit_eq. }
  split; [unfold s1; cbn_st; lia|].
  intros t Ht. rewrite (out_at_seq _ _ _ _ _ _ t R1).
  destruct (Z.leb_spec (time s1) t) as [Ht1|Ht1].
  - assert (W := relay_wave c inp m s1 Hm256 ltac:(unfold s1; cbn_st; lia) Hs1
                   ltac:(unfold s1; exact O) t Ht1).
    cbv zeta in W. unfold sB in I1, I2. cbn [time] in I1, I2.
    rewrite I1 in W. rewrite I2 in W. rewrite W.
    unfold out_window. destruct b; reflexivity.
  - rewrite (out_at_spin c inp m 0 s t ltac:(lia) ltac:(rewrite P; lia) Lm).
    unfold out_window.
    replace (time s1 + 4 <=? t) with false by (symmetry; apply Z.leb_gt; lia).
    exact O.
Qed.

Lemma relay_train_wave c inp bits : forall s e,
  pc s = lab c relay_entry -> time s <= e + 2 -> e - time s <= 765 ->
  (forall t, time s <= t < e -> inp t = false) -> pulses inp e bits ->
  out_level c s = false ->
  exists n s' dets, reaches c inp n s s' (lab c update_now) /\
    (bits = [] -> s' = s) /\
    pc s' = lab c relay_entry /\
    (bits <> [] -> e + 20 * Z.of_nat (length bits) - 2 <= time s' <=
                   e + 20 * Z.of_nat (length bits) + 2) /\
    regs s' = regs s /\ (forall q, q <> PORTD + 32 -> ds s' q = ds s q) /\
    out_level c s' = false /\
    length dets = length bits /\
    (forall i d, nth_error dets i = Some d ->
       e + 20 * Z.of_nat i <= d <= e + 20 * Z.of_nat i + 2) /\
    (forall t, time s <= t -> out_at c inp n s t = relay_out dets bits t).
Proof.
  induction bits as [|b bs IH]; intros s e P Hx Hy Lo Pu O.
  - exists 0%nat, s, []. split; [apply reaches_0; rewrite P; apply not_eq_sym, update_ne_relay|].
    split; [reflexivity|]. split; [exact P|]. split; [intros []; reflexivity|].
    split; [reflexivity|]. split; [reflexivity|]. split; [exact O|].
    split; [reflexivity|]. split; [intros [|i] d H; discriminate H|].
    intros t _. exact O.
  - change (length (b :: bs)) with (S (length bs)).
    apply pulses_cons in Pu as [Pb Pu].
    destruct (relay_one_wave c inp s e b P Hx Hy Lo Pb O) as
      (n1 & s1 & d1 & R1 & P1 & T1 & G1 & D1 & O1 & Hd1 & W1).
    destruct (IH s1 (e + 20) P1 ltac:(lia) ltac:(lia)) as
      (n2 & s' & dets & R2 & E2 & P2 & T2 & G2 & D2 & O2 & L2 & N2 & W2);
      [| exact Pu | exact O1 |].
    { intros t Ht. apply (proj2 Pb). destruct b; unfold hi_len; lia. }
    exists (n1 + n2)%nat, s', (d1 :: dets).
    split; [exact (reaches_seq _ _ _ _ _ _ _ _ R1 R2)|].
    split; [discriminate|]. split; [exact P2|].
    split.
    { intros _. destruct bs as [|b' bs'].
      - rewrite (E2 eq_refl). simpl. lia.
      - assert (L := T2 ltac:(discriminate)).
        change (length (b' :: bs')) with (S (length bs')) in *. lia. }
    split; [congruence|]. split; [intros q Hq; rewrite D2, D1 by exact Hq; reflexivity|].
    split; [exact O2|].
    split; [simpl; rewrite L2; reflexivity|].
    split.
    { intros [|i] d H; simpl in H.
      - injection H as <-. lia.
      - apply N2 in H. lia. }
    intros t Ht. rewrite (out_at_seq _ _ _ _ _ _ t (proj1 R1)). simpl relay_out.
    destruct (Z.leb_spec (time s1) t) as [Ht1|Ht1].
    + rewrite (W2 t Ht1). unfold out_window.
      replace (t <? d1 + 4 + (if b then 11 else 6)) with false
        by (symmetry; apply Z.ltb_ge; destruct b; lia).
      rewrite andb_false_r. reflexivity.
    + rewrite (W1 t Ht). rewrite (relay_out_before (e + 20) dets bs t); [symmetry; apply orb_false_r | | lia].
      intros i d H. apply N2 in H. lia.
Qed.

(** ** Commit helpers *)

Lemma commit_ds_other g d a : ~ In a (map fst ocr_writes) -> commit_ds g d a = d a.
Proof.
  intros N. unfold commit_ds, ocr_writes. cbn [fold_left fst snd].
  unfold upd. simpl in N.
  repeat match goal with
         | |- context [Z.eqb a ?x] => destruct (Z.eqb_spec a x); [exfalso; apply N; subst; tauto|]
         end.
  reflexivity.
Qed.

Lemma capture_regs_nodup c : NoDup (capture_regs c).
Proof.
  unfold capture_regs. destruct (TWO_LEDS c); simpl;
    repeat constructor; simpl; intuition lia.
Qed.

Lemma load_bytes_nth rs : forall vs g j,
  NoDup rs -> length vs = length rs -> (j < length rs)%nat ->
  load_bytes rs vs g (nth j rs 0) = nth j vs 0.
Proof.
  induction rs as [|r rs IH]; intros [|v vs] g j Nd Hl Hj; simpl in *; try lia.
  inversion Nd as [|r' rs' Nr Nd']; subst.
  destruct j as [|j].
  - rewrite load_bytes_notin by exact Nr. unfold upd. rewrite Z.eqb_refl. reflexivity.
  - apply IH; auto; lia.
Qed.

Lemma com_regs_nth c g j :
  (j < length (capture_regs c))%nat ->
  com_regs c g (nth j (capture_regs c) 0) = 255 - g (nth j (capture_regs c) 0).
Proof.
  intros Hj. unfold com_regs.
  replace (existsb _ _) with true; [reflexivity|].
  symmetry. apply existsb_exists. exists (nth j (capture_regs c) 0).
  split; [apply nth_In, Hj | apply Z.eqb_refl].
Qed.

(** * Claims *)

(** C1: with one pixel, a frame whose captured bytes are green 0x00, red
    0xFF, blue 0x80, followed by any relayed bits and an idle gap of 768
    cycles, commits OCR1A (red) = 255 - 0xFF, OCR1B (green) = 255 - 0x00
    and OCR2A (blue) = 255 - 0x80: the first byte goes to green, the second
    to red, the third to blue, each inverted. *)
Theorem C1_one_pixel_commit c inp s e rel E F :
  TWO_LEDS c = false ->
  pc s = lab c capture_start -> time s <= e + 2 ->
  (forall t, time s <= t < e -> inp t = false) ->
  pulses inp e (frame_bits [0; 255; 128] ++ rel) ->
  E = e + 20 * Z.of_nat (24 + length rel) -> E + 768 <= F ->
  (forall t, E <= t < F -> inp t = false) ->
  exists n s', run c inp n s = Some s' /\ pc s' = lab c capture_start /\
    ds s' 136 = 255 - 255 /\ ds s' 138 = 255 - 0 /\ ds s' 179 = 255 - 128.
Proof.
  intros H1 P Hx Lo Pu HE HF LoF.
  destruct (frame_ok c inp s e [0; 255; 128] rel E F P Hx Lo) as
    (n & s' & R & P' & _ & _ & D); auto.
  - rewrite capture_regs_one by exact H1. reflexivity.
  - repeat constructor; lia.
  - exists n, s'. split; [exact R|]. split; [exact P'|].
    destruct (commit_ds_ocr (com_regs c (load_bytes (capture_regs c) [0; 255; 128] (regs s)))
                (ds s)) as (O1 & O2 & O3 & _).
    unfold PORTD in D. rewrite !D by lia. rewrite O1, O2, O3.
    unfold com_regs. rewrite capture_regs_one by exact H1.
    cbn. repeat split; reflexivity.
Qed.

Definition one_led_start : state :=
  mkState (lab cfg_one_led capture_start) 0 (fun _ => 0) (fun _ => 255) false.

Definition scenario_a : input := ws_wave 10 (frame_bits [0; 255; 128]).

Lemma C1_witness :
  exists n s', run cfg_one_led scenario_a n one_led_start = Some s' /\
    pc s' = lab cfg_one_led capture_start /\
    ds s' 136 = 255 - 255 /\ ds s' 138 = 255 - 0 /\ ds s' 179 = 255 - 128.
Proof.
  apply (C1_one_pixel_commit cfg_one_led scenario_a one_led_start 10 [] 490 1258).
  - reflexivity.
  - reflexivity.
  - simpl. lia.
  - intros t Ht. apply ws_wave_before. simpl in Ht. lia.
  - rewrite app_nil_r. apply ws_wave_pulses.
  - reflexivity.
  - lia.
  - intros t Ht. apply ws_wave_after. simpl. lia.
Defined.

(** C2 (amended): a check that sees the line high raises the output 4
    cycles later; the bit's path from [relay_bit] back to [relay_entry]
    takes [relay_dur b1 b2] cycles, where [b1] and [b2] are the line at the
    two samples: 11 cycles for both paths exactly when the two samples
    agree, 10 or 12 otherwise. A standard 0-bit or 1-bit (high 6 or 12
    cycles of a 20-cycle period) is back at [relay_entry] 18 to 20 cycles
    after its own rising edge, output low, whatever came before: each bit
    re-synchronises on its edge. *)
Theorem C2_relay_timing c inp :
  (forall k s, (k < 256)%nat -> pc s = (5 * k + lab c relay_entry)%nat ->
     inp (time s) = true ->
     let b1 := inp (time s + 7) in
     let b2 := inp (time s + 7 + if b1 then 2 else 3) in
     exists s1 s', run c inp 2 s = Some s1 /\ time s1 = time s + 4 /\
       out_level c s1 = true /\
       reaches c inp (1 + relay_steps b1 b2) s1 s' (lab c update_now) /\
       pc s' = lab c relay_entry /\ time s' = time s + 7 + relay_dur b1 b2 /\
       out_level c s' = false /\ (relay_dur b1 b2 = 11 <-> b1 = b2)) /\
  (forall s e b, pc s = lab c relay_entry -> time s <= e + 2 -> e - time s <= 765 ->
     (forall t, time s <= t < e -> inp t = false) -> pulse inp e b ->
     exists n s', reaches c inp n s s' (lab c update_now) /\
       pc s' = lab c relay_entry /\ e + 18 <= time s' <= e + 20 /\
       out_level c s' = false).
Proof.
  split.
  - intros k s Hk P I b1 b2.
    destruct (relay_raise c inp k s Hk P I) as (s1 & R1 & T1 & O1 & A1).
    set (sB := mkState (lab c relay_bit) (time s + 7) (regs s) (raise_out c s) (zf s)) in A1.
    destruct (relay_bit_ok c inp sB eq_refl) as (s' & A2 & P' & T' & _ & D' & _).
    exists s1, s'. split; [exact R1|]. split; [exact T1|]. split; [exact O1|].
    split; [exact (reaches_seq _ _ _ _ _ _ _ _ A1 A2)|].
    split; [exact P'|]. split; [rewrite T'; cbn [time sB]; fold b1 b2; lia|].
    split.
    + unfold out_level. rewrite D'. unfold lower_out, upd. rewrite Z.eqb_refl.
      apply Z.clearbit_eq.
    + destruct b1, b2; unfold relay_dur; split; congruence.
  - intros s e b P Hx Hy Lo Pb.
    destruct (relay_one c inp s e b P Hx Hy Lo Pb) as (n & s' & A & P' & T' & _ & _ & O).
    exists n, s'. auto.
Qed.

Definition relay_start : state :=
  mkState (lab cfg_default relay_entry) 0 (fun _ => 0) (fun _ => 0) false.

Definition pulse_of (h : Z) : input := fun t => (0 <=? t) && (t <? h).

Lemma C2_witness :
  (exists s1 s', run cfg_default (pulse_of 12) 2 relay_start = Some s1 /\
     time s1 = time relay_start + 4 /\ out_level cfg_default s1 = true /\
     reaches cfg_default (pulse_of 12) (1 + relay_steps true true) s1 s'
       (lab cfg_default update_now) /\
     pc s' = lab cfg_default relay_entry /\
     time s' = time relay_start + 7 + relay_dur true true /\
     out_level cfg_default s' = false /\ (relay_dur true true = 11 <-> true = true)) /\
  (exists n s', reaches cfg_default (pulse_of 12) n relay_start s'
       (lab cfg_default update_now) /\
     pc s' = lab cfg_default relay_entry /\ 0 + 18 <= time s' <= 0 + 20 /\
     out_level cfg_default s' = false).
Proof.
  split.
  - exact (proj1 (C2_relay_timing cfg_default (pulse_of 12)) 0%nat relay_start
             ltac:(lia) eq_refl eq_refl).
  - apply (proj2 (C2_relay_timing cfg_default (pulse_of 12)) relay_start 0 true).
    + reflexivity.
    + simpl. lia.
    + simpl. lia.
    + intros t Ht. simpl in Ht. lia.
    + split; intros t Ht; unfold pulse_of; simpl in Ht.
      * apply andb_true_iff. split; [apply Z.leb_le | apply Z.ltb_lt]; lia.
      * apply andb_false_iff. right. apply Z.ltb_ge. lia.
Defined.

(** The time and place after [n] steps. *)
Definition pc_time (c : config) (inp : input) (n : nat) (s : state) : option (nat * Z) :=
  option_map (fun s' => (pc s', time s')) (run c inp n s).

(** C2 counterexample: from the relay loop, a 6-cycle and a 12-cycle pulse
    are back at [relay_entry] at cycle 18, an 8-cycle pulse (taking the
    1-bit path and low at its second sample) at cycle 17. *)
Lemma C2_unbalanced_paths :
  pc_time cfg_default (pulse_of 6) 9 relay_start = Some (lab cfg_default relay_entry, 18) /\
  pc_time cfg_default (pulse_of 12) 9 relay_start = Some (lab cfg_default relay_entry, 18) /\
  pc_time cfg_default (pulse_of 8) 8 relay_start = Some (lab cfg_default relay_entry, 17).
Proof. vm_compute. repeat split; reflexivity. Qed.

(** C3 (amended): the relay does not wait for the line to fall. From
    [relay_bit], whatever the input does, it is back at [relay_entry] 10 to
    12 cycles later with the output line low and nothing else of the data
    space changed: the output pulse ends at a fixed delay after it began,
    not when the input pulse ends. *)
Theorem C3_fixed_drop c inp s :
  pc s = lab c relay_bit ->
  exists n s', reaches c inp n s s' (lab c update_now) /\
    pc s' = lab c relay_entry /\ time s + 10 <= time s' <= time s + 12 /\
    out_level c s' = false /\ (forall q, q <> PORTD + 32 -> ds s' q = ds s q).
Proof.
  intros P.
  destruct (relay_bit_ok c inp s P) as (s' & A & P' & T' & _ & D' & _).
  exists (relay_steps (inp (time s)) (inp (time s + if inp (time s) then 2 else 3))), s'.
  split; [exact A|]. split; [exact P'|].
  split; [rewrite T'; destruct (inp (time s)), (inp (_ + _)); unfold relay_dur; lia|].
  split.
  - unfold out_level. rewrite D'. unfold lower_out, upd. rewrite Z.eqb_refl.
    apply Z.clearbit_eq.
  - intros q Hq. rewrite D'. unfold lower_out, upd.
    apply Z.eqb_neq in Hq. rewrite Hq. reflexivity.
Qed.

Definition relay_bit_start : state :=
  mkState (lab cfg_default relay_bit) 0 (fun _ => 0) (raise_out cfg_default relay_start) false.

Lemma C3_witness :
  exists n s', reaches cfg_default (pulse_of 100) n relay_bit_start s'
      (lab cfg_default update_now) /\
    pc s' = lab cfg_default relay_entry /\
    time relay_bit_start + 10 <= time s' <= time relay_bit_start + 12 /\
    out_level cfg_default s' = false /\
    (forall q, q <> PORTD + 32 -> ds s' q = ds relay_bit_start q).
Proof. apply C3_fixed_drop. reflexivity. Defined.

(** The state after [n] steps seen from the outside: place, cycle, output
    line and input line. *)
Definition observe (c : config) (inp : input) (n : nat) (s : state)
  : option (nat * Z * bool * bool) :=
  option_map (fun s' => (pc s', time s', out_level c s', inp (time s'))) (run c inp n s).

(** C3 counterexample: a pulse held high for 100 cycles. The relay is back
    at [relay_entry] at cycle 18 with the output low while the input is
    still high, and raises the output again at cycle 22. *)
Lemma C3_long_pulse :
  observe cfg_default (pulse_of 100) 9 relay_start =
    Some (lab cfg_default relay_entry, 18, false, true) /\
  observe cfg_default (pulse_of 100) 11 relay_start =
    Some ((3 + lab cfg_default relay_entry)%nat, 22, true, true).
Proof. vm_compute. split; reflexivity. Qed.

(** C4: in the relay loop, a line that stays low until [T] (at least the
    766 cycles of the 256 checks) takes the loop to [update_now] at step
    513, 771 cycles after [relay_entry], and that is the only visit to
    [update_now] before [T]: after the commit, capture waits for a rising
    edge. A check [k < 256] that sees the line high after checks
    [0 .. k-1] saw it low relays a bit and returns to check 0 of
    [relay_entry] (the full budget), with no visit to [update_now] and the
    registers unchanged. *)
Theorem C4_idle_commit_once c inp :
  (forall s T, pc s = lab c relay_entry -> time s + 766 <= T ->
     (forall t, time s <= t < T -> inp t = false) ->
     run c inp 513 s = Some (jump s (lab c update_now) 771) /\
     (forall i s', run c inp i s = Some s' -> time s' < T ->
        pc s' = lab c update_now -> i = 513%nat)) /\
  (forall s k, (k < 256)%nat -> pc s = lab c relay_entry ->
     (forall j, (j < k)%nat -> inp (time s + 3 * Z.of_nat j) = false) ->
     inp (time s + 3 * Z.of_nat k) = true ->
     exists n s', reaches c inp n s s' (lab c update_now) /\
       pc s' = lab c relay_entry /\ regs s' = regs s /\
       time s + 3 * Z.of_nat k + 17 <= time s' <= time s + 3 * Z.of_nat k + 19).
Proof.
  split.
  - intros s T P HT Lo. split.
    + apply (relay_idle c inp s P). intros t Ht. apply Lo. lia.
    + exact (idle_once c inp s T P HT Lo).
  - intros s k Hk P Lo Hi. exact (relay_edge c inp s k Hk P Lo Hi).
Qed.

(** A line with one pulse of 12 cycles from cycle 6 on. *)
Definition late_pulse : input := fun t => (6 <=? t) && (t <? 18).

Lemma C4_witness :
  (run cfg_default (pulse_of 0) 513 relay_start =
     Some (jump relay_start (lab cfg_default update_now) 771) /\
   (forall i s', run cfg_default (pulse_of 0) i relay_start = Some s' -> time s' < 2000 ->
      pc s' = lab cfg_default update_now -> i = 513%nat)) /\
  (exists n s', reaches cfg_default late_pulse n relay_start s' (lab cfg_default update_now) /\
     pc s' = lab cfg_default relay_entry /\ regs s' = regs relay_start /\
     0 + 3 * Z.of_nat 2 + 17 <= time s' <= 0 + 3 * Z.of_nat 2 + 19).
Proof.
  split.
  - apply (proj1 (C4_idle_commit_once cfg_default (pulse_of 0)) relay_start 2000).
    + reflexivity.
    + simpl. lia.
    + intros t Ht. simpl in Ht. unfold pulse_of. apply andb_false_iff. right. apply Z.ltb_ge. lia.
  - apply (proj2 (C4_idle_commit_once cfg_default late_pulse) relay_start 2%nat).
    + lia.
    + reflexivity.
    + intros j Hj. destruct j as [|[|j]]; [reflexivity | reflexivity | lia].
    + reflexivity.
Defined.

(** C5: from any state with the output line low, every later state at
    [update_now] (the commit), at [capture_start] or at one of the 256
    checks of the relay loop (waiting for the next edge) has the output
    line low. *)
Theorem C5_out_low_at_exits c inp n s s' :
  out_level c s = false -> run c inp n s = Some s' ->
  (pc s' = lab c update_now \/ pc s' = lab c capture_start \/
   exists k, (k < 256)%nat /\ pc s' = (5 * k + lab c relay_entry)%nat) ->
  out_level c s' = false.
Proof.
  intros O R X.
  destruct (run_out_inv c inp n s s' R (or_intror O)) as [I|I]; [|exact I].
  rewrite (exit_not_region c (pc s') X) in I. discriminate.
Qed.

Lemma C5_witness :
  exists s', run cfg_default (pulse_of 12) 9 relay_start = Some s' /\
    out_level cfg_default s' = false.
Proof.
  destruct (run cfg_default (pulse_of 12) 9 relay_start) as [s'|] eqn:E.
  - exists s'. split; [reflexivity|].
    assert (Hp : option_map pc (run cfg_default (pulse_of 12) 9 relay_start) =
                 Some (lab cfg_default relay_entry)) by (vm_compute; reflexivity).
    rewrite E in Hp. injection Hp as Hp.
    apply (C5_out_low_at_exits cfg_default (pulse_of 12) 9 relay_start s');
      [reflexivity | exact E | ].
    right; right. exists 0%nat. split; [lia | rewrite Hp; reflexivity].
  - vm_compute in E. discriminate.
Defined.

(** C6: capture reads 3 bytes with one LED and 6 with two; the capture
    code is [8 * length capture_regs] copies of [READ_BIT], eight per
    register, followed by [relay_entry]; and the eight bits [b1 .. b8] of
    byte [j], arriving as WS2812 pulses, leave
    [b1 * 128 + b2 * 64 + ... + b8] in register [capture_regs[j]], first
    bit most significant, the other registers and the data space unchanged. *)
Theorem C6_capture_msb_first c inp :
  length (capture_regs c) = (if TWO_LEDS c then 6 else 3)%nat /\
  lab c relay_entry = (11 * (8 * length (capture_regs c)) + lab c capture_start)%nat /\
  (forall k, (k < 8 * length (capture_regs c))%nat ->
     code_at c (11 * k + lab c capture_start)
       (assemble (READ_BIT c (nth (k / 8) (capture_regs c) 0)))) /\
  (forall j s e b1 b2 b3 b4 b5 b6 b7 b8,
     (j < length (capture_regs c))%nat ->
     pc s = (11 * (8 * j) + lab c capture_start)%nat -> time s <= e + 2 ->
     (forall t, time s <= t < e -> inp t = false) ->
     pulses inp e [b1; b2; b3; b4; b5; b6; b7; b8] ->
     exists n s', run c inp n s = Some s' /\
       pc s' = (11 * (8 * S j) + lab c capture_start)%nat /\
       regs s' (nth j (capture_regs c) 0) =
         Z.b2z b1 * 128 + Z.b2z b2 * 64 + Z.b2z b3 * 32 + Z.b2z b4 * 16 +
         Z.b2z b5 * 8 + Z.b2z b6 * 4 + Z.b2z b7 * 2 + Z.b2z b8 /\
       (forall q, q <> nth j (capture_regs c) 0 -> regs s' q = regs s q) /\
       ds s' = ds s).
Proof.
  split; [unfold capture_regs; rewrite length_app; destruct (TWO_LEDS c); reflexivity|].
  split; [rewrite lab_relay_entry; lia|].
  split; [exact (capture_code c)|].
  intros j s e b1 b2 b3 b4 b5 b6 b7 b8 Hj P Hx Lo Pu.
  destruct (capture_bits c inp [b1; b2; b3; b4; b5; b6; b7; b8] (8 * j) s e)
    as (n & s' & R & P' & _ & _ & _ & G & D); auto.
  { change (length [b1; b2; b3; b4; b5; b6; b7; b8]) with 8%nat. lia. }
  change (length [b1; b2; b3; b4; b5; b6; b7; b8]) with 8%nat in P'.
  assert (Hf : forall q, capture_fold c (8 * j) [b1; b2; b3; b4; b5; b6; b7; b8] (regs s) q =
     if q =? nth j (capture_regs c) 0
     then shift_all (regs s (nth j (capture_regs c) 0)) [b1; b2; b3; b4; b5; b6; b7; b8]
     else regs s q).
  { intros q. apply capture_fold_reg. intros i Hi. simpl in Hi.
    symmetry. apply Nat.div_unique with i; lia. }
  exists n, s'. split; [exact R|]. split; [rewrite P'; lia|].
  split; [rewrite G, Hf, Z.eqb_refl; apply shift_all_8|].
  split; [|exact D].
  intros q Hq. rewrite G, Hf. apply Z.eqb_neq in Hq. rewrite Hq. reflexivity.
Qed.

Definition capture_at_start (c : config) : state :=
  mkState (lab c capture_start) 0 (fun _ => 0) (fun _ => 255) false.

Lemma C6_witness :
  exists n s', run cfg_default (ws_wave 10 [true; false; true; true; false; false; true; false])
      n (capture_at_start cfg_default) = Some s' /\
    pc s' = (11 * (8 * S 0) + lab cfg_default capture_start)%nat /\
    regs s' (nth 0 (capture_regs cfg_default) 0) =
      Z.b2z true * 128 + Z.b2z false * 64 + Z.b2z true * 32 + Z.b2z true * 16 +
      Z.b2z false * 8 + Z.b2z false * 4 + Z.b2z true * 2 + Z.b2z false /\
    (forall q, q <> nth 0 (capture_regs cfg_default) 0 ->
       regs s' q = regs (capture_at_start cfg_default) q) /\
    ds s' = ds (capture_at_start cfg_default).
Proof.
  apply (proj2 (proj2 (proj2 (C6_capture_msb_first cfg_default
           (ws_wave 10 [true; false; true; true; false; false; true; false]))))
           0%nat (capture_at_start cfg_default) 10).
  - simpl. lia.
  - reflexivity.
  - simpl. lia.
  - intros t Ht. apply ws_wave_before. simpl in Ht. lia.
  - apply ws_wave_pulses.
Defined.

(** C7: with one LED, capture reads only r16, r17, r18. The three [ldi]
    of r19, r20, r21 with 255 are the first words of the program, below
    [wait_reset]; run from [start_frame], they are the first three steps
    and every later state is at word 3 or above, so they run once, whatever
    the input. From then on r19, r20, r21 hold 255; every commit stores 255
    into OCR2B, OCR0B and OCR0A, and if these hold 255 at the start (as
    [setup()] leaves them) they hold 255 forever. *)
Theorem C7_one_led_off c inp s n s' :
  TWO_LEDS c = false -> pc s = lab c start_frame -> run c inp n s = Some s' -> (3 <= n)%nat ->
  capture_regs c = [16; 17; 18] /\
  lab c start_frame = 0%nat /\ lab c wait_reset = 3%nat /\
  fetch c 0 = Some (LDI 19 255) /\ fetch c 1 = Some (LDI 20 255) /\
  fetch c 2 = Some (LDI 21 255) /\
  (3 <= pc s')%nat /\ regs s' 19 = 255 /\ regs s' 20 = 255 /\ regs s' 21 = 255 /\
  (pc s' = lab c update_now ->
     exists s'', run c inp (update_steps c) s' = Some s'' /\
       ds s'' 180 = 255 /\ ds s'' 72 = 255 /\ ds s'' 71 = 255) /\
  (ds s 180 = 255 -> ds s 72 = 255 -> ds s 71 = 255 ->
     ds s' 180 = 255 /\ ds s' 72 = 255 /\ ds s' 71 = 255).
Proof.
  intros H1 P R Hn.
  destruct (one_led_prefix c H1) as (L0 & L3 & F0 & F1 & F2).
  rewrite L0 in P.
  set (s3 := mkState 3 (time s + 1 + 1 + 1)
               (upd (upd (upd (regs s) 19 255) 20 255) 21 255) (ds s) (zf s)).
  assert (R3 : run c inp 3 s = Some s3).
  { rewrite (run_S _ _ _ _ _ (step_ldi c inp s 19 255 ltac:(rewrite P; exact F0))).
    erewrite run_S; [|apply step_ldi; cbn [pc]; rewrite P; exact F1].
    erewrite run_S; [|apply step_ldi; cbn [pc]; rewrite P; exact F2].
    rewrite P. reflexivity. }
  replace n with (3 + (n - 3))%nat in R by lia.
  rewrite run_plus, R3 in R.
  destruct (run_led2 c inp (n - 3) H1 s3 s' R) as ((P' & G19 & G20 & G21) & D).
  { unfold led2_off, s3, upd. cbn [pc regs]. repeat split; reflexivity. }
  split; [exact (capture_regs_one c H1)|].
  do 9 (split; [assumption|]).
  split.
  - intros U. destruct (update_ok c inp s' U) as (s'' & R'' & _ & _ & _ & D'').
    exists s''. split; [exact R''|].
    destruct (commit_ds_ocr (com_regs c (regs s')) (ds s')) as (_ & _ & _ & O4 & O5 & O6).
    rewrite !D'', O4, O5, O6. unfold com_regs. rewrite (capture_regs_one c H1).
    cbn [existsb Z.eqb Pos.eqb]. auto.
  - intros D180 D72 D71.
    assert (D0 : forall a, In a [180; 72; 71] -> ds s3 a = 255).
    { intros a Ha. cbn [ds s3]. destruct Ha as [<- | [<- | [<- | []]]]; assumption. }
    repeat split; apply (D D0); simpl; auto.
Qed.

Definition boot_state : state := mkState 0 0 (fun _ => 0) (fun _ => 255) false.

Lemma C7_witness :
  exists s', run cfg_one_led (pulse_of 0) 10 boot_state = Some s' /\
  (capture_regs cfg_one_led = [16; 17; 18] /\
   lab cfg_one_led start_frame = 0%nat /\ lab cfg_one_led wait_reset = 3%nat /\
   fetch cfg_one_led 0 = Some (LDI 19 255) /\ fetch cfg_one_led 1 = Some (LDI 20 255) /\
   fetch cfg_one_led 2 = Some (LDI 21 255) /\
   (3 <= pc s')%nat /\ regs s' 19 = 255 /\ regs s' 20 = 255 /\ regs s' 21 = 255 /\
   (pc s' = lab cfg_one_led update_now ->
      exists s'', run cfg_one_led (pulse_of 0) (update_steps cfg_one_led) s' = Some s'' /\
        ds s'' 180 = 255 /\ ds s'' 72 = 255 /\ ds s'' 71 = 255) /\
   (ds boot_state 180 = 255 -> ds boot_state 72 = 255 -> ds boot_state 71 = 255 ->
      ds s' 180 = 255 /\ ds s' 72 = 255 /\ ds s' 71 = 255)).
Proof.
  destruct (run cfg_one_led (pulse_of 0) 10 boot_state) as [s'|] eqn:E.
  - exists s'. split; [reflexivity|].
    apply (C7_one_led_off cfg_one_led (pulse_of 0) boot_state 10 s').
    + reflexivity.
    + vm_compute. reflexivity.
    + exact E.
    + lia.
  - vm_compute in E. discriminate.
Defined.

(** C8 (amended): with two LEDs, a frame of only 24 bits (bytes [g1],
    [r1], [b1]) followed by a low line leaves g1, r1, b1 in r16, r17, r18
    and r19, r20, r21 and the data space as they were; but capture then
    waits for bit 25 for as long as the line stays low: whatever the length
    of the gap, nothing is committed, and the next bits on the line are
    captured into r19, r20, r21. When these are the first 24 bits (bytes
    [g2], [r2], [b2]) of the next frame and the line then stays low, the
    next commit shows LED 1 with the short frame and LED 2 with them:
    OCR1B, OCR1A, OCR2A = 255 - g1, 255 - r1, 255 - b1 and OCR0B, OCR2B,
    OCR0A = 255 - g2, 255 - r2, 255 - b2. *)
Theorem C8_short_frame_waits c inp s e g1 r1 b1 T :
  TWO_LEDS c = true -> pc s = lab c capture_start -> time s <= e + 2 ->
  (forall t, time s <= t < e -> inp t = false) ->
  Forall (fun v => 0 <= v < 256) [g1; r1; b1] ->
  pulses inp e (frame_bits [g1; r1; b1]) ->
  (forall t, e + 480 <= t < T -> inp t = false) ->
  exists n s1, run c inp n s = Some s1 /\
    pc s1 = (11 * 24 + lab c capture_start)%nat /\ time s1 <= e + 482 /\
    regs s1 16 = g1 /\ regs s1 17 = r1 /\ regs s1 18 = b1 /\
    regs s1 19 = regs s 19 /\ regs s1 20 = regs s 20 /\ regs s1 21 = regs s 21 /\
    ds s1 = ds s /\
    (forall m s', run c inp m s1 = Some s' -> time s' < T ->
       (pc s' = pc s1 \/ pc s' = S (pc s1)) /\ regs s' = regs s1 /\ ds s' = ds s) /\
    (forall e2 g2 r2 b2 rel E F,
       e + 480 <= e2 -> (forall t, e + 480 <= t < e2 -> inp t = false) ->
       Forall (fun v => 0 <= v < 256) [g2; r2; b2] ->
       pulses inp e2 (frame_bits [g2; r2; b2] ++ rel) ->
       E = e2 + 20 * Z.of_nat (24 + length rel) -> E + 768 <= F ->
       (forall t, E <= t < F -> inp t = false) ->
       exists m s', run c inp m s1 = Some s' /\ pc s' = lab c capture_start /\
         E <= time s' <= E + 794 /\
         ds s' 138 = 255 - g1 /\ ds s' 136 = 255 - r1 /\ ds s' 179 = 255 - b1 /\
         ds s' 72 = 255 - g2 /\ ds s' 180 = 255 - r2 /\ ds s' 71 = 255 - b2).
Proof.
  intros H2 P Hx Lo Hv Pu LoT.
  destruct (capture_bits c inp (frame_bits [g1; r1; b1]) 0 s e)
    as (n & s1 & R & P1 & T1 & _ & Lo1 & G1 & D1); auto.
  { rewrite frame_bits_length, capture_regs_two by exact H2. simpl. lia. }
  change (length (frame_bits [g1; r1; b1])) with 24%nat in P1, T1, Lo1.
  assert (G : forall q, regs s1 q = upd (upd (upd (regs s) 16 g1) 17 r1) 18 b1 q).
  { intros q. rewrite G1. change 0%nat with (8 * 0)%nat at 1.
    rewrite capture_fold_bytes; [| rewrite capture_regs_two by exact H2; simpl; lia | exact Hv].
    rewrite capture_regs_two by exact H2. reflexivity. }
  exists n, s1. split; [exact R|]. split; [rewrite P1; reflexivity|].
  split; [lia|].
  do 6 (split; [rewrite G; reflexivity|]).
  split; [exact D1|].
  split.
  - intros m s' Rm Ts.
    destruct (capture_poll_at c 24) as [F0 F1].
    { rewrite capture_regs_two by exact H2. simpl. lia. }
    replace (11 * 24 + lab c capture_start)%nat with (pc s1) in F0, F1 by (rewrite P1; lia).
    destruct (poll_stay c inp true (pc s1) F0 F1 T m s1 s' (or_introl eq_refl) Rm Ts)
      as (P' & G' & D').
    + intros t Ht. destruct (Z.lt_ge_cases t (e + 480)).
      * apply Lo1. lia.
      * apply LoT. lia.
    + split; [exact P'|]. split; [exact G'|]. congruence.
  - intros e2 g2 r2 b2 rel E F He2 Gap Hv2 Pu2 HE HF LoF.
    assert (Pf : pc s1 = (11 * (8 * 3) + lab c capture_start)%nat) by (rewrite P1; reflexivity).
    assert (Lf : forall t, time s1 <= t < e2 -> inp t = false).
    { intros t Ht. destruct (Z.lt_ge_cases t (e + 480)).
      - apply Lo1. lia.
      - apply Gap. lia. }
    assert (Hf : (3 + length [g2; r2; b2])%nat = length (capture_regs c))
      by (rewrite capture_regs_two by exact H2; reflexivity).
    destruct (frame_from c inp s1 3 e2 [g2; r2; b2] rel E F Pf ltac:(lia) Lf
                ltac:(discriminate) Hf Hv2 Pu2 HE HF LoF) as
      (m & s' & Rm & Pm & Tm & _ & D).
    exists m, s'. split; [exact Rm|]. split; [exact Pm|]. split; [exact Tm|].
    set (L := load_bytes (skipn 3 (capture_regs c)) [g2; r2; b2] (regs s1)) in D.
    destruct (commit_ds_ocr (com_regs c L) (ds s1)) as (O1 & O2 & O3 & O4 & O5 & O6).
    unfold PORTD in D. rewrite !D by lia. rewrite O1, O2, O3, O4, O5, O6.
    unfold L, com_regs. rewrite capture_regs_two by exact H2.
    cbn [skipn load_bytes existsb]. unfold upd. rewrite !G. unfold upd. cbn.
    repeat split; reflexivity.
Qed.

Definition short_frame : input := ws_wave 10 (frame_bits [1; 2; 3]).

Lemma C8_witness :
  exists n s1, run cfg_default short_frame n (capture_at_start cfg_default) = Some s1 /\
    pc s1 = (11 * 24 + lab cfg_default capture_start)%nat /\ time s1 <= 10 + 482 /\
    regs s1 16 = 1 /\ regs s1 17 = 2 /\ regs s1 18 = 3 /\
    regs s1 19 = regs (capture_at_start cfg_default) 19 /\
    regs s1 20 = regs (capture_at_start cfg_default) 20 /\
    regs s1 21 = regs (capture_at_start cfg_default) 21 /\
    ds s1 = ds (capture_at_start cfg_default) /\
    (forall m s', run cfg_default short_frame m s1 = Some s' -> time s' < 5000 ->
       (pc s' = pc s1 \/ pc s' = S (pc s1)) /\ regs s' = regs s1 /\
       ds s' = ds (capture_at_start cfg_default)) /\
    (forall e2 g2 r2 b2 rel E F,
       10 + 480 <= e2 -> (forall t, 10 + 480 <= t < e2 -> short_frame t = false) ->
       Forall (fun v => 0 <= v < 256) [g2; r2; b2] ->
       pulses short_frame e2 (frame_bits [g2; r2; b2] ++ rel) ->
       E = e2 + 20 * Z.of_nat (24 + length rel) -> E + 768 <= F ->
       (forall t, E <= t < F -> short_frame t = false) ->
       exists m s', run cfg_default short_frame m s1 = Some s' /\
         pc s' = lab cfg_default capture_start /\
         E <= time s' <= E + 794 /\
         ds s' 138 = 255 - 1 /\ ds s' 136 = 255 - 2 /\ ds s' 179 = 255 - 3 /\
         ds s' 72 = 255 - g2 /\ ds s' 180 = 255 - r2 /\ ds s' 71 = 255 - b2).
Proof.
  apply C8_short_frame_waits.
  - reflexivity.
  - reflexivity.
  - simpl. lia.
  - intros t Ht. apply ws_wave_before. simpl in Ht. lia.
  - repeat constructor; lia.
  - apply ws_wave_pulses.
  - intros t Ht. apply ws_wave_after. simpl. lia.
Defined.

(** A frame of 24 bits at cycle 10, then, after a gap of 1510 cycles, a
    full frame of 48 bits at cycle 2000. *)
Definition short_then_full : input :=
  wave_or short_frame (ws_wave 2000 (frame_bits [10; 20; 30; 40; 50; 60])).

(** The place, the cycle and OCR1B, OCR1A, OCR2A, OCR0B, OCR2B, OCR0A
    after [n] steps. *)
Definition observe_ocr (c : config) (inp : input) (n : nat) (s : state)
  : option (nat * Z * list Z) :=
  option_map (fun s' => (pc s', time s', map (ds s') [138; 136; 179; 72; 180; 71]))
             (run c inp n s).

(** C8 counterexample: 980 cycles into the gap capture still waits for bit
    25 and nothing has been committed; the next commit shows LED 1 with the
    short frame (255 - 1, 255 - 2, 255 - 3) and LED 2 with the first three
    bytes of the next frame (255 - 10, 255 - 20, 255 - 30). *)
Lemma C8_partial_frame :
  observe_ocr cfg_default short_then_full 1000 (capture_at_start cfg_default) =
    Some (270%nat, 1470, [255; 255; 255; 255; 255; 255]) /\
  observe_ocr cfg_default short_then_full 2470 (capture_at_start cfg_default) =
    Some (lab cfg_default capture_start, 3750, [254; 253; 252; 245; 235; 225]).
Proof. vm_compute. split; reflexivity. Qed.

(** C9: two consecutive frames that carry the same channel bytes [vs]
    (each followed by any relayed bits and an idle gap) are committed with
    the same values on all six compare registers, whatever the registers
    held before the first one. *)
Theorem C9_same_frames_same_commit c inp s e1 vs rel1 E1 e2 rel2 E2 F2 :
  pc s = lab c capture_start -> time s <= e1 + 2 ->
  (forall t, time s <= t < e1 -> inp t = false) ->
  length vs = length (capture_regs c) -> Forall (fun v => 0 <= v < 256) vs ->
  pulses inp e1 (frame_bits vs ++ rel1) ->
  E1 = e1 + 20 * Z.of_nat (8 * length vs + length rel1) ->
  E1 + 792 <= e2 -> (forall t, E1 <= t < e2 -> inp t = false) ->
  pulses inp e2 (frame_bits vs ++ rel2) ->
  E2 = e2 + 20 * Z.of_nat (8 * length vs + length rel2) ->
  E2 + 768 <= F2 -> (forall t, E2 <= t < F2 -> inp t = false) ->
  exists n1 s1 n2 s2, run c inp n1 s = Some s1 /\ run c inp n2 s1 = Some s2 /\
    pc s1 = lab c capture_start /\ pc s2 = lab c capture_start /\
    forall a, In a [136; 138; 179; 180; 72; 71] -> ds s2 a = ds s1 a.
Proof.
  intros P Hx Lo Hl Hv Pu1 HE1 H12 Lo12 Pu2 HE2 HF2 LoF2.
  destruct (frame_ok c inp s e1 vs rel1 E1 e2 P Hx Lo Hl Hv Pu1 HE1 ltac:(lia) Lo12)
    as (n1 & s1 & R1 & P1 & T1 & G1 & D1).
  destruct (frame_ok c inp s1 e2 vs rel2 E2 F2 P1 ltac:(lia)) as (n2 & s2 & R2 & P2 & _ & _ & D2);
    auto.
  { intros t Ht. apply Lo12. lia. }
  exists n1, s1, n2, s2. do 4 (split; [assumption|]).
  assert (Hg := com_load_again c vs (regs s) (regs s1) Hl G1).
  intros a Ha. rewrite D2, D1 by (unfold PORTD; simpl in Ha; lia).
  destruct (commit_ds_ocr (com_regs c (load_bytes (capture_regs c) vs (regs s1))) (ds s1))
    as (A1 & A2 & A3 & A4 & A5 & A6).
  destruct (commit_ds_ocr (com_regs c (load_bytes (capture_regs c) vs (regs s))) (ds s))
    as (B1 & B2 & B3 & B4 & B5 & B6).
  simpl in Ha. destruct Ha as [<- | [<- | [<- | [<- | [<- | [<- | []]]]]]];
    [rewrite A1, B1 | rewrite A2, B2 | rewrite A3, B3 | rewrite A4, B4 | rewrite A5, B5
    | rewrite A6, B6]; apply Hg.
Qed.

(** The same frame (green 0x00, red 0xFF, blue 0x80) twice, at cycles 10
    and 1300. *)
Definition two_frames : input :=
  wave_or scenario_a (ws_wave 1300 (frame_bits [0; 255; 128])).

Lemma C9_witness :
  exists n1 s1 n2 s2, run cfg_one_led two_frames n1 one_led_start = Some s1 /\
    run cfg_one_led two_frames n2 s1 = Some s2 /\
    pc s1 = lab cfg_one_led capture_start /\ pc s2 = lab cfg_one_led capture_start /\
    forall a, In a [136; 138; 179; 180; 72; 71] -> ds s2 a = ds s1 a.
Proof.
  apply (C9_same_frames_same_commit cfg_one_led two_frames one_led_start
           10 [0; 255; 128] [] 490 1300 [] 1780 2548).
  - reflexivity.
  - simpl. lia.
  - intros t Ht. simpl in Ht. unfold two_frames, wave_or, scenario_a.
    rewrite !ws_wave_before by lia. reflexivity.
  - reflexivity.
  - repeat constructor; lia.
  - rewrite app_nil_r. apply pulses_or_l; [apply ws_wave_pulses|].
    intros t Ht. apply ws_wave_before. simpl in Ht. lia.
  - reflexivity.
  - lia.
  - intros t Ht. unfold two_frames, wave_or, scenario_a.
    rewrite ws_wave_after by (simpl; lia). rewrite ws_wave_before by lia. reflexivity.
  - rewrite app_nil_r. apply pulses_or_r; [apply ws_wave_pulses|].
    intros t Ht. apply ws_wave_after. simpl in Ht |- *. lia.
  - reflexivity.
  - lia.
  - intros t Ht. unfold two_frames, wave_or, scenario_a.
    rewrite !ws_wave_after by (simpl; lia). reflexivity.
Defined.

(** C10 (amended): with two LEDs, the only instructions that write r19,
    r20, r21 are the [lsl]/[ori] of the [READ_BIT] blocks of bits 25 to 48
    and the [com] of the update phase; none sets them to 255. A run that
    stays out of these places leaves them as they were, and a complete
    frame with bytes [v1 .. v6] commits 255 - v4, 255 - v5, 255 - v6 to
    OCR0B, OCR2B, OCR0A whatever they held before. They keep their initial
    contents only until capture reaches bit 25, not until a 48-bit capture
    completes. *)
Theorem C10_led2_registers c inp :
  TWO_LEDS c = true ->
  (forall p i r, fetch c p = Some i -> In r [19; 20; 21] -> writes_reg i r = true ->
     ((11 * 24 + lab c capture_start <= p < 11 * 48 + lab c capture_start)%nat /\
      is_shift i = true) \/
     ((lab c update_now <= p < lab c update_now + 6)%nat /\ is_com i = true)) /\
  (forall n s s', run c inp n s = Some s' ->
     (forall i s1, (i < n)%nat -> run c inp i s = Some s1 ->
        ~ (11 * 24 + lab c capture_start <= pc s1 < 11 * 48 + lab c capture_start)%nat /\
        ~ (lab c update_now <= pc s1 < lab c update_now + 6)%nat) ->
     regs s' 19 = regs s 19 /\ regs s' 20 = regs s 20 /\ regs s' 21 = regs s 21) /\
  (forall s e v1 v2 v3 v4 v5 v6 rel E F,
     pc s = lab c capture_start -> time s <= e + 2 ->
     (forall t, time s <= t < e -> inp t = false) ->
     Forall (fun v => 0 <= v < 256) [v1; v2; v3; v4; v5; v6] ->
     pulses inp e (frame_bits [v1; v2; v3; v4; v5; v6] ++ rel) ->
     E = e + 20 * Z.of_nat (48 + length rel) -> E + 768 <= F ->
     (forall t, E <= t < F -> inp t = false) ->
     exists n s', run c inp n s = Some s' /\ pc s' = lab c capture_start /\
       ds s' 72 = 255 - v4 /\ ds s' 180 = 255 - v5 /\ ds s' 71 = 255 - v6).
Proof.
  intros H2. split; [|split].
  - intros p i r F Hr W. apply (led2_writers c p i H2 F).
    destruct Hr as [<- | [<- | [<- | []]]]; cbn [existsb]; rewrite W;
      [reflexivity | apply orb_true_r | rewrite !orb_true_r; reflexivity].
  - intros n s s' R H.
    assert (K : forall r, In r [19; 20; 21] -> regs s' r = regs s r).
    { intros r Hr. apply (run_regs_keep c inp r n s s' R).
      intros i s1 j Hi R1 F1. destruct (writes_reg j r) eqn:W; [|reflexivity].
      exfalso. destruct (H i s1 Hi R1) as [N1 N2].
      assert (W' : existsb (writes_reg j) [19; 20; 21] = true).
      { apply existsb_exists. exists r. auto. }
      destruct (led2_writers c (pc s1) j H2 F1 W') as [[A _] | [A _]]; auto. }
    repeat split; apply K; simpl; auto.
  - intros s e v1 v2 v3 v4 v5 v6 rel E F P Hx Lo Hv Pu HE HF LoF.
    destruct (frame_ok c inp s e [v1; v2; v3; v4; v5; v6] rel E F P Hx Lo) as
      (n & s' & R & P' & _ & _ & D); auto.
    + rewrite capture_regs_two by exact H2. reflexivity.
    + exists n, s'. split; [exact R|]. split; [exact P'|].
      destruct (commit_ds_ocr (com_regs c (load_bytes (capture_regs c)
                  [v1; v2; v3; v4; v5; v6] (regs s))) (ds s)) as (_ & _ & _ & O4 & O5 & O6).
      unfold PORTD in D. rewrite !D by lia. rewrite O4, O5, O6.
      unfold com_regs. rewrite capture_regs_two by exact H2.
      cbn. repeat split; reflexivity.
Qed.

Definition full_frame : input := ws_wave 10 (frame_bits [1; 2; 3; 4; 5; 6]).

Lemma C10_witness :
  (forall p i r, fetch cfg_default p = Some i -> In r [19; 20; 21] -> writes_reg i r = true ->
     ((11 * 24 + lab cfg_default capture_start <= p < 11 * 48 + lab cfg_default capture_start)%nat /\
      is_shift i = true) \/
     ((lab cfg_default update_now <= p < lab cfg_default update_now + 6)%nat /\
      is_com i = true)) /\
  (exists s', run cfg_default full_frame 2 (capture_at_start cfg_default) = Some s' /\
     regs s' 19 = 0 /\ regs s' 20 = 0 /\ regs s' 21 = 0) /\
  (exists n s', run cfg_default full_frame n (capture_at_start cfg_default) = Some s' /\
     pc s' = lab cfg_default capture_start /\
     ds s' 72 = 255 - 4 /\ ds s' 180 = 255 - 5 /\ ds s' 71 = 255 - 6).
Proof.
  destruct (C10_led2_registers cfg_default full_frame eq_refl) as (A & B & C).
  split; [exact A|]. split.
  - destruct (run cfg_default full_frame 2 (capture_at_start cfg_default)) as [s'|] eqn:E.
    + exists s'. split; [reflexivity|].
      apply (B 2%nat (capture_at_start cfg_default) s' E).
      intros i s1 Hi R. destruct i as [|[|i]]; [| | lia];
        vm_compute in R; injection R as <-; vm_compute; lia.
    + vm_compute in E. discriminate.
  - apply (C (capture_at_start cfg_default) 10 1 2 3 4 5 6 [] 970 1738).
    + reflexivity.
    + simpl. lia.
    + intros t Ht. apply ws_wave_before. simpl in Ht. lia.
    + repeat constructor; lia.
    + rewrite app_nil_r. apply ws_wave_pulses.
    + reflexivity.
    + lia.
    + intros t Ht. apply ws_wave_after. simpl. lia.
Defined.

(** The line carries 24 bits and then a 1-bit. *)
Definition bit25_frame : input := ws_wave 10 (frame_bits [1; 2; 3] ++ [true]).

(** C10 counterexample: after the 25th bit capture is at bit 26, far from
    a completed 48-bit capture, and r19 (initially 0) already holds 1. *)
Lemma C10_partial_shift :
  option_map (fun s => (pc s, regs s 19))
    (run cfg_default bit25_frame 359 (capture_at_start cfg_default)) =
    Some ((11 * 25 + lab cfg_default capture_start)%nat, 1) /\
  regs (capture_at_start cfg_default) 19 = 0.
Proof. vm_compute. split; reflexivity. Qed.

(** * Further properties *)

(** ** [setup()] *)

(** X1: [setup()] leaves the six PWM compare registers (OCR1A, OCR1B,
    OCR2A, OCR2B, OCR0B, OCR0A: the addresses the update phase stores to) at
    255 with the high bytes of OCR1A and OCR1B at 0, the timers in their
    inverting fast-PWM modes with no prescaler (TCCR0A = 0xF3, TCCR0B = 1,
    TCCR1A = 0xF1, TCCR1B = 9, TCCR2A = 0xF3, TCCR2B = 1), the timer
    interrupts masked and the global interrupt flag cleared. *)
Theorem X_setup_pwm c m :
  let m' := setup c m in
  (forall a r, In (a, r) ocr_writes -> m' a = 255) /\
  m' OCR1AH = 0 /\ m' OCR1BH = 0 /\
  m' TCCR0A = 243 /\ m' TCCR0B = 1 /\ m' TCCR1A = 241 /\ m' TCCR1B = 9 /\
  m' TCCR2A = 243 /\ m' TCCR2B = 1 /\
  m' TIMSK0 = 0 /\ m' TIMSK1 = 0 /\ m' TIMSK2 = 0 /\ Z.testbit (m' SREG) 7 = false.
Proof.
  intros m'. unfold m', setup, wr8, upd. cbv zeta.
  repeat split.
  - intros a r H. simpl in H.
    repeat (destruct H as [H|H]; [injection H as <- <-; reflexivity|]). contradiction.
  - match goal with |- Z.testbit ?x 7 = false =>
      replace x with (Z.land (Z.clearbit (m SREG) 7) 255) by reflexivity end.
    rewrite Z.land_spec, Z.clearbit_eq by lia. reflexivity.
Qed.

(** X2: [setup()] makes the data-in pin an input, the data-out pin an
    output, and D3, D5, D9, D10, D11 outputs; D6 is an output unless the
    alternate pins are selected (then it is the data-in pin). The other
    bits of DDRD and DDRB keep their values. *)
Theorem X_setup_pins c m :
  let d := setup c m DDRD in
  let b := setup c m DDRB in
  Z.testbit d (DATA_IN c) = false /\ Z.testbit d (DATA_OUT c) = true /\
  Z.testbit d DDD3 = true /\ Z.testbit d DDD5 = true /\
  Z.testbit d DDD6 = negb (alternate_data_pins c) /\
  Z.testbit b PB1 = true /\ Z.testbit b PB2 = true /\ Z.testbit b PB3 = true /\
  (forall k, 0 <= k < 8 -> ~ In k [DDD3; DDD5; DDD6; DATA_IN c; DATA_OUT c] ->
     Z.testbit d k = Z.testbit (m DDRD) k) /\
  (forall k, 0 <= k < 8 -> ~ In k [PB1; PB2; PB3] -> Z.testbit b k = Z.testbit (m DDRB) k).
Proof.
  intros d b. unfold d, b.
  assert (Hi : 0 <= DATA_IN c < 8) by (unfold DATA_IN; destruct (alternate_data_pins c); lia).
  assert (Ho : 0 <= DATA_OUT c < 8) by (unfold DATA_OUT; destruct (alternate_data_pins c); lia).
  rewrite !setup_ddrd_bit, !setup_ddrb_bit by (unfold DDD3, DDD5, DDD6, PB1, PB2, PB3; lia).
  unfold DATA_IN, DATA_OUT, DDD3, DDD5, DDD6, PB1, PB2, PB3.
  repeat split.
  - destruct (alternate_data_pins c); simpl; rewrite ?andb_false_r; reflexivity.
  - destruct (alternate_data_pins c); simpl; rewrite ?orb_true_r; reflexivity.
  - destruct (alternate_data_pins c); simpl; rewrite ?orb_true_r; reflexivity.
  - destruct (alternate_data_pins c); simpl; rewrite ?orb_true_r; reflexivity.
  - destruct (alternate_data_pins c); simpl; rewrite ?orb_true_r, ?andb_false_r; reflexivity.
  - rewrite ?orb_true_r. reflexivity.
  - rewrite ?orb_true_r. reflexivity.
  - rewrite ?orb_true_r. reflexivity.
  - intros k Hk N. rewrite setup_ddrd_bit by exact Hk. simpl in N.
    unfold DATA_IN, DATA_OUT, DDD3, DDD5, DDD6 in *.
    assert (Hk' : k = 0 \/ k = 1 \/ k = 2 \/ k = 3 \/ k = 4 \/ k = 5 \/ k = 6 \/ k = 7) by lia.
    destruct (alternate_data_pins c);
      repeat destruct Hk' as [-> | Hk']; subst; simpl in N |- *;
      rewrite ?orb_false_r, ?andb_true_r; try reflexivity; tauto.
  - intros k Hk N. rewrite setup_ddrb_bit by exact Hk. simpl in N.
    unfold PB1, PB2, PB3 in *.
    assert (Hk' : k = 0 \/ k = 1 \/ k = 2 \/ k = 3 \/ k = 4 \/ k = 5 \/ k = 6 \/ k = 7) by lia.
    repeat destruct Hk' as [-> | Hk']; subst; simpl in N |- *;
      rewrite ?orb_false_r; try reflexivity; tauto.
Qed.

(** X3: [setup()] writes no data-space address besides its twenty
    registers, and not PORTD: if the output latch was 0 at reset, the
    output line is low when the loop starts. *)
Theorem X_setup_rest c m :
  (forall a, ~ In a setup_regs -> setup c m a = m a) /\
  ~ In (PORTD + 32) setup_regs /\
  forall s, ds s (PORTD + 32) = 0 ->
    out_level c (mkState (pc s) (time s) (regs s) (setup c (ds s)) (zf s)) = false.
Proof.
  assert (A : forall m1 a, ~ In a setup_regs -> setup c m1 a = m1 a).
  { intros m1 a N. unfold setup, wr8, upd. cbv zeta. simpl in N.
    repeat match goal with
           | |- context [Z.eqb a ?x] => destruct (Z.eqb_spec a x) as [E|_];
               [exfalso; apply N; subst; repeat (try (left; reflexivity); right)|]
           end.
    reflexivity. }
  split; [apply A|]. split; [simpl; unfold PORTD, SREG, TIMSK0, TIMSK1, TIMSK2, DDRB, DDRD, TCCR0A, TCCR0B, TCCR1A, TCCR1B, TCCR2A, TCCR2B, OCR0A, OCR0B, OCR1AH, OCR1AL, OCR1BH, OCR1BL, OCR2A, OCR2B; intuition lia|].
  intros s H. unfold out_level. cbn [ds]. rewrite A, H; [apply Z.testbit_0_l|].
  simpl. unfold PORTD, SREG, TIMSK0, TIMSK1, TIMSK2, DDRB, DDRD, TCCR0A, TCCR0B, TCCR1A, TCCR1B, TCCR2A, TCCR2B, OCR0A, OCR0B, OCR1AH, OCR1AL, OCR1BH, OCR1BL, OCR2A, OCR2B; intuition lia.
Qed.

(** ** The power-on sync *)

(** X4: from [wait_reset], if the line is low at the 250 checks (6 cycles
    apart, from 1 cycle after [wait_reset] on), the loop reaches
    [capture_start] after 751 instructions and exactly 1500 cycles, with r22
    = 0 and the other registers and the data space unchanged. *)
Theorem X_sync_ready c inp s :
  pc s = lab c wait_reset ->
  (forall j, (j < 250)%nat -> inp (time s + 1 + 6 * Z.of_nat j) = false) ->
  exists s', run c inp 751 s = Some s' /\
    pc s' = lab c capture_start /\ time s' = time s + 1500 /\
    regs s' 22 = 0 /\ (forall q, q <> 22 -> regs s' q = regs s q) /\ ds s' = ds s.
Proof.
  intros P Lo. destruct (sync_ready c inp s P Lo) as (s' & R & P' & T' & G & D).
  exists s'. split; [exact R|]. split; [exact P'|]. split; [exact T'|].
  split; [rewrite G; unfold upd; reflexivity|]. split; [|exact D].
  intros q Hq. rewrite G. unfold upd. apply Z.eqb_neq in Hq. rewrite Hq. reflexivity.
Qed.

Definition sync_start : state := mkState (lab cfg_default wait_reset) 0 (fun _ => 0) (fun _ => 0) false.

(** The line goes high 1500 cycles after power-on. *)
Definition late_high : input := fun t => 1500 <=? t.

Lemma X_sync_ready_witness :
  exists s', run cfg_default late_high 751 sync_start = Some s' /\
    pc s' = lab cfg_default capture_start /\ time s' = time sync_start + 1500 /\
    regs s' 22 = 0 /\ (forall q, q <> 22 -> regs s' q = regs sync_start q) /\
    ds s' = ds sync_start.
Proof.
  apply X_sync_ready.
  - reflexivity.
  - intros j Hj. unfold late_high. apply Z.leb_gt. cbn [time sync_start]. lia.
Defined.

(** X5: the sync loop lets capture start only after a quiet line: a run
    from [wait_reset] whose first visit to [capture_start] is its last state
    has seen the line low at 250 checks 6 cycles apart, the last one 5
    cycles before [capture_start]. *)
Theorem X_sync_quiet c inp n s s' :
  pc s = lab c wait_reset -> run c inp n s = Some s' -> pc s' = lab c capture_start ->
  (forall i s1, (i < n)%nat -> run c inp i s = Some s1 -> pc s1 <> lab c capture_start) ->
  forall j, 0 <= j < 250 -> inp (time s' - 5 - 6 * j) = false.
Proof.
  intros P R Pc A. assert (I := run_sync_inv c inp n s s' (or_introl P) R A).
  destruct (sync_layout c) as (_ & _ & Lc).
  unfold sync_inv in I. rewrite Pc, Lc in I.
  destruct I as [P' | [P' | [(P' & _) | [(P' & _) | [(P' & _) | (_ & Lo)]]]]];
    try (exfalso; lia). exact Lo.
Qed.

Definition sync_end : state :=
  match run cfg_default (fun _ => false) 751 sync_start with
  | Some s' => s' | None => sync_start end.

Lemma X_sync_quiet_witness :
  pc sync_end = lab cfg_default capture_start /\
  forall j, 0 <= j < 250 -> (fun _ : Z => false) (time sync_end - 5 - 6 * j) = false.
Proof.
  split; [vm_compute; reflexivity|].
  apply (X_sync_quiet cfg_default (fun _ => false) 751 sync_start sync_end).
  - reflexivity.
  - vm_compute. reflexivity.
  - vm_compute. reflexivity.
  - apply avoidsb_ok. vm_compute. reflexivity.
Defined.

(** ** [READ_BIT] *)

(** X6: whatever the line does after its rising edge, [READ_BIT] takes
    the bit it shifts into its register from one sample, 7 cycles after the
    poll that saw the line high (that poll is 0 to 2 cycles after the edge),
    and reaches its wait for the falling edge 9 cycles after that poll; the
    data space is untouched. *)
Theorem X_read_bit_sample c inp r a s e :
  code_at c a (assemble (READ_BIT c r)) -> pc s = a -> time s <= e + 2 ->
  (forall t, time s <= t < e -> inp t = false) ->
  (forall t, e <= t <= e + 2 -> inp t = true) ->
  exists n d s', Z.max (time s) e <= d <= e + 2 /\ run c inp n s = Some s' /\
    pc s' = (9 + a)%nat /\ time s' = d + 9 /\
    (forall q, regs s' q = upd (regs s) r (shift_in (regs s r) (inp (d + 7))) q) /\
    ds s' = ds s.
Proof.
  intros H P Hx Lo Hi.
  destruct (poll_ok c inp true a ltac:(fetch_tac) ltac:(fetch_tac) s e P Hx Lo)
    as (n1 & d & Hd & R1).
  { intros t Ht. apply Hi. lia. }
  set (s1 := jump s (2 + a) (d + 2 - time s)) in R1.
  assert (R2 : run c inp 5 s1 =
               Some (set_reg (jump s1 (6 + a) 4) r ((2 * regs s r) mod 256) 1)).
  { unfold s1. do 4 nop_step.
    erewrite run_S; [ | apply step_lsl; cbn_st; fetch_tac ].
    cbn_st. rewrite !jump_jump. reflexivity. }
  set (s2 := set_reg (jump s1 (6 + a) 4) r ((2 * regs s r) mod 256) 1) in R2.
  assert (T2 : time s2 = d + 7) by (unfold s2, s1; cbn_st; lia).
  assert (R3 : exists s3, run c inp (if inp (d + 7) then 2%nat else 1%nat) s2 = Some s3 /\
                 pc s3 = (9 + a)%nat /\ time s3 = d + 9 /\
                 (forall q, regs s3 q = upd (regs s) r (shift_in (regs s r) (inp (d + 7))) q) /\
                 ds s3 = ds s).
  { destruct (inp (d + 7)) eqn:I.
    - eexists. split.
      + erewrite run_S; [ | apply (step_sbic_no _ _ _ PIND (DATA_IN c));
          [ unfold s2; cbn_st; fetch_tac | rewrite io_bit_in, T2; exact I ] ].
        erewrite run_S; [reflexivity | apply step_ori; unfold s2; cbn_st; fetch_tac ].
      + unfold s2, s1, shift_in. cbn_st. repeat split; try lia.
        intros q. unfold upd. destruct (q =? r); [|reflexivity].
        rewrite Z.eqb_refl.
        replace ((2 * regs s r) mod 256) with (2 * (regs s r mod 128))
          by (symmetry; apply (Z.mul_mod_distr_l _ 128 2); lia).
        apply lor_double_1.
    - eexists. split.
      + erewrite run_S; [reflexivity | ].
        apply (step_sbic_yes _ _ _ PIND (DATA_IN c) (ORI r 1));
          [ unfold s2; cbn_st; fetch_tac
          | rewrite io_bit_in, T2, I; reflexivity
          | unfold s2; cbn_st; fetch_tac ].
      + unfold s2, s1, shift_in. cbn_st. repeat split; try lia.
        intros q. unfold upd. destruct (q =? r); lia. }
  destruct R3 as (s3 & R3 & P3 & T3 & G3 & D3).
  exists (Nat.add (Nat.add n1 5) (if inp (d + 7) then 2%nat else 1%nat)), d, s3.
  split; [exact Hd|]. split.
  { eapply run_seq; [eapply run_seq; [exact R1 | exact R2] | exact R3]. }
  auto.
Qed.

(** A pulse high on cycles 1 to 8: sampled high 7 cycles after the edge. *)
Definition short_one : input := fun t => (1 <=? t) && (t <? 9).

Definition read_start : state :=
  mkState (lab cfg_default capture_start) 0 (fun _ => 0) (fun _ => 0) false.

Lemma X_read_bit_sample_witness :
  exists n d s', Z.max (time read_start) 1 <= d <= 1 + 2 /\
    run cfg_default short_one n read_start = Some s' /\
    pc s' = (9 + lab cfg_default capture_start)%nat /\ time s' = d + 9 /\
    (forall q, regs s' q = upd (regs read_start) 16
                 (shift_in (regs read_start 16) (short_one (d + 7))) q) /\
    ds s' = ds read_start.
Proof.
  apply (X_read_bit_sample cfg_default short_one 16 (lab cfg_default capture_start)
           read_start 1).
  - apply code_atb_ok. vm_compute. reflexivity.
  - reflexivity.
  - cbn [time read_start]. lia.
  - intros t Ht. cbn [time read_start] in Ht. unfold short_one.
    replace (1 <=? t) with false by (symmetry; apply Z.leb_gt; lia). reflexivity.
  - intros t Ht. unfold short_one. apply andb_true_intro.
    split; [apply Z.leb_le | apply Z.ltb_lt]; lia.
Defined.

(** X7: a high pulse of 4 to 7 cycles decodes as 0 and one of 10 cycles
    or more as 1: [READ_BIT] shifts the bit into its register, keeps the
    data space and leaves after the falling edge, at most 13 cycles after
    the rising edge or 4 after the falling edge. *)
Theorem X_read_bit_decode c inp r a s e h b :
  code_at c a (assemble (READ_BIT c r)) -> pc s = a ->
  (b = false /\ 4 <= h <= 7 \/ b = true /\ 10 <= h) ->
  time s <= e + 2 ->
  (forall t, time s <= t < e -> inp t = false) ->
  (forall t, e <= t < e + h -> inp t = true) ->
  (forall t, e + h <= t < e + h + 8 -> inp t = false) ->
  exists n s', run c inp n s = Some s' /\ pc s' = (11 + a)%nat /\
    e + h < time s' <= Z.max (e + 13) (e + h + 4) /\
    (forall q, regs s' q = upd (regs s) r (shift_in (regs s r) b) q) /\
    ds s' = ds s.
Proof. exact (read_bit_ok c inp r a s e h b). Qed.

(** A 0-bit pulse, high on cycles 3 to 8. *)
Definition zero_pulse : input := fun t => (3 <=? t) && (t <? 9).

Lemma X_read_bit_decode_witness :
  exists n s', run cfg_default zero_pulse n read_start = Some s' /\
    pc s' = (11 + lab cfg_default capture_start)%nat /\
    3 + 6 < time s' <= Z.max (3 + 13) (3 + 6 + 4) /\
    (forall q, regs s' q = upd (regs read_start) 16 (shift_in (regs read_start 16) false) q) /\
    ds s' = ds read_start.
Proof.
  apply (X_read_bit_decode cfg_default zero_pulse 16 (lab cfg_default capture_start)
           read_start 3 6 false).
  - apply code_atb_ok. vm_compute. reflexivity.
  - reflexivity.
  - left. split; [reflexivity | lia].
  - cbn [time read_start]. lia.
  - intros t Ht. cbn [time read_start] in Ht. unfold zero_pulse.
    replace (3 <=? t) with false by (symmetry; apply Z.leb_gt; lia). reflexivity.
  - intros t Ht. unfold zero_pulse. apply andb_true_intro.
    split; [apply Z.leb_le | apply Z.ltb_lt]; lia.
  - intros t Ht. unfold zero_pulse.
    replace (t <? 9) with false by (symmetry; apply Z.ltb_ge; lia). apply andb_false_r.
Defined.

(** X8: capture has no timeout: at the poll of any [READ_BIT] of the
    capture block, as long as the line stays low the program stays on the
    poll and its [rjmp] and changes neither registers nor data space. *)
Theorem X_capture_waits c inp k s n s' T :
  (k < 8 * length (capture_regs c))%nat ->
  pc s = (11 * k + lab c capture_start)%nat ->
  run c inp n s = Some s' -> time s' < T ->
  (forall t, time s <= t < T -> inp t = false) ->
  (pc s' = pc s \/ pc s' = S (pc s)) /\ regs s' = regs s /\ ds s' = ds s.
Proof.
  intros Hk P R Ts Lo.
  destruct (capture_poll_at c k Hk) as [F0 F1].
  rewrite P.
  apply (poll_stay c inp true _ F0 F1 T n s s'); [left; exact P | exact R | exact Ts | exact Lo].
Qed.

Definition poll_end : state :=
  match run cfg_default (fun _ => false) 11 read_start with
  | Some s' => s' | None => read_start end.

Lemma X_capture_waits_witness :
  (pc poll_end = pc read_start \/ pc poll_end = S (pc read_start)) /\
  regs poll_end = regs read_start /\ ds poll_end = ds read_start.
Proof.
  apply (X_capture_waits cfg_default (fun _ => false) 0 read_start 11 poll_end 100).
  - vm_compute. lia.
  - reflexivity.
  - vm_compute. reflexivity.
  - vm_compute. reflexivity.
  - intros t _. reflexivity.
Defined.

(** ** Relay *)

(** X9: the output pulse of one relayed bit. When a relay check sees the
    line high at cycle [d], the output line is high exactly on the cycles
    [d + 4 .. d + 4 + w - 1] until the relay is back at [relay_entry], with
    [w] = 6 if the line is low at [d + 7], 11 if it is high at [d + 7] and
    [d + 9], 10 if high then low. *)
Theorem X_relay_wave c inp k s :
  (k < 256)%nat -> pc s = (5 * k + lab c relay_entry)%nat ->
  inp (time s) = true -> out_level c s = false ->
  let b1 := inp (time s + 7) in
  let b2 := inp (time s + 7 + if b1 then 2 else 3) in
  let w := if b1 then (if b2 then 11 else 10) else 6 in
  forall t, time s <= t ->
    out_at c inp (3 + relay_steps b1 b2) s t = (time s + 4 <=? t) && (t <? time s + 4 + w).
Proof. exact (relay_wave c inp k s). Qed.

Definition relay_at : state :=
  mkState (lab cfg_default relay_entry) 0 (fun _ => 0) (fun _ => 0) false.

Definition one_pulse : input := fun t => (0 <=? t) && (t <? 12).

Lemma X_relay_wave_witness :
  out_at cfg_default one_pulse (3 + relay_steps true true) relay_at 10 =
    (0 + 4 <=? 10) && (10 <? 0 + 4 + 11).
Proof.
  apply (X_relay_wave cfg_default one_pulse 0 relay_at).
  - lia.
  - vm_compute. reflexivity.
  - vm_compute. reflexivity.
  - vm_compute. reflexivity.
  - cbn [time relay_at]. lia.
Defined.

(** X10: a train of WS2812 bits arriving at the relay loop, with the
    output low, is forwarded bit by bit: bit [i], whose rising edge is at
    [e + 20 i], is detected at a cycle [d_i] in [e + 20 i .. e + 20 i + 2]
    and reproduced on the output as a pulse from [d_i + 4], 6 cycles long
    for a 0 and 11 for a 1 ([relay_out]); the output is low at every other
    cycle of the run. The relay ends at [relay_entry] within 2 cycles of the
    end of the train, never visiting [update_now], with the output low, the
    registers as they were and only PORTD of the data space changed. *)
Theorem X_relay_train c inp bits s e :
  pc s = lab c relay_entry -> time s <= e + 2 -> e - time s <= 765 ->
  (forall t, time s <= t < e -> inp t = false) -> pulses inp e bits -> bits <> [] ->
  out_level c s = false ->
  exists n s' dets, reaches c inp n s s' (lab c update_now) /\
    pc s' = lab c relay_entry /\
    e + 20 * Z.of_nat (length bits) - 2 <= time s' <= e + 20 * Z.of_nat (length bits) + 2 /\
    regs s' = regs s /\ (forall q, q <> PORTD + 32 -> ds s' q = ds s q) /\
    out_level c s' = false /\
    length dets = length bits /\
    (forall i d, nth_error dets i = Some d ->
       e + 20 * Z.of_nat i <= d <= e + 20 * Z.of_nat i + 2) /\
    (forall t, time s <= t -> out_at c inp n s t = relay_out dets bits t).
Proof.
  intros P Hx Hy Lo Pu Ne O.
  destruct (relay_train_wave c inp bits s e P Hx Hy Lo Pu O) as
    (n & s' & dets & R & _ & P' & T' & G & D & O' & L & N & W).
  exists n, s', dets. split; [exact R|]. split; [exact P'|]. split; [exact (T' Ne)|].
  auto 10.
Qed.

Definition three_bits : input := ws_wave 0 [true; false; true].

Lemma X_relay_train_witness :
  exists n s' dets, reaches cfg_default three_bits n relay_at s' (lab cfg_default update_now) /\
    pc s' = lab cfg_default relay_entry /\
    0 + 20 * Z.of_nat (length [true; false; true]) - 2 <= time s' <=
      0 + 20 * Z.of_nat (length [true; false; true]) + 2 /\
    regs s' = regs relay_at /\ (forall q, q <> PORTD + 32 -> ds s' q = ds relay_at q) /\
    out_level cfg_default s' = false /\
    length dets = length [true; false; true] /\
    (forall i d, nth_error dets i = Some d ->
       0 + 20 * Z.of_nat i <= d <= 0 + 20 * Z.of_nat i + 2) /\
    (forall t, time relay_at <= t ->
       out_at cfg_default three_bits n relay_at t = relay_out dets [true; false; true] t).
Proof.
  apply X_relay_train.
  - reflexivity.
  - cbn [time relay_at]. lia.
  - cbn [time relay_at]. lia.
  - intros t Ht. cbn [time relay_at] in Ht. lia.
  - apply ws_wave_pulses.
  - discriminate.
  - vm_compute. reflexivity.
Defined.

(** ** Update and frames *)

(** X11: the update phase inverts the captured registers and stores
    them: from [update_now], after 10 (one LED) or 13 (two LEDs)
    instructions and 18 or 21 cycles it is back at [capture_start]; OCR1A,
    OCR1B, OCR2A get 255 - r17, r16, r18, and OCR2B, OCR0B, OCR0A get r20,
    r19, r21, inverted only with two LEDs; no other address changes. *)
Theorem X_update_commit c inp s :
  pc s = lab c update_now ->
  exists s', run c inp (update_steps c) s = Some s' /\
    pc s' = lab c capture_start /\
    time s' = time s + (if TWO_LEDS c then 21 else 18) /\
    ds s' 136 = 255 - regs s 17 /\ ds s' 138 = 255 - regs s 16 /\
    ds s' 179 = 255 - regs s 18 /\
    ds s' 180 = (if TWO_LEDS c then 255 - regs s 20 else regs s 20) /\
    ds s' 72 = (if TWO_LEDS c then 255 - regs s 19 else regs s 19) /\
    ds s' 71 = (if TWO_LEDS c then 255 - regs s 21 else regs s 21) /\
    (forall a, ~ In a (map fst ocr_writes) -> ds s' a = ds s a) /\
    (forall q, regs s' q =
       if existsb (Z.eqb q) (capture_regs c) then 255 - regs s q else regs s q).
Proof.
  intros P. destruct (update_ok c inp s P) as (s' & R & P' & T & G & D).
  exists s'. split; [exact R|]. split; [exact P'|].
  split; [rewrite T; reflexivity|].
  destruct (commit_ds_ocr (com_regs c (regs s)) (ds s)) as (O1 & O2 & O3 & O4 & O5 & O6).
  rewrite !D, O1, O2, O3, O4, O5, O6.
  unfold com_regs, capture_regs.
  split; [reflexivity|]. split; [reflexivity|]. split; [reflexivity|].
  split; [destruct (TWO_LEDS c); reflexivity|].
  split; [destruct (TWO_LEDS c); reflexivity|].
  split; [destruct (TWO_LEDS c); reflexivity|].
  split.
  - intros a N. rewrite D. apply commit_ds_other, N.
  - intros q. rewrite G. reflexivity.
Qed.

Definition update_at : state :=
  mkState (lab cfg_default update_now) 0 (fun q => q) (fun _ => 0) false.

Lemma X_update_commit_witness :
  exists s', run cfg_default (fun _ => false) (update_steps cfg_default) update_at = Some s' /\
    pc s' = lab cfg_default capture_start /\
    time s' = time update_at + (if TWO_LEDS cfg_default then 21 else 18) /\
    ds s' 136 = 255 - regs update_at 17 /\ ds s' 138 = 255 - regs update_at 16 /\
    ds s' 179 = 255 - regs update_at 18 /\
    ds s' 180 = (if TWO_LEDS cfg_default then 255 - regs update_at 20 else regs update_at 20) /\
    ds s' 72 = (if TWO_LEDS cfg_default then 255 - regs update_at 19 else regs update_at 19) /\
    ds s' 71 = (if TWO_LEDS cfg_default then 255 - regs update_at 21 else regs update_at 21) /\
    (forall a, ~ In a (map fst ocr_writes) -> ds s' a = ds update_at a) /\
    (forall q, regs s' q =
       if existsb (Z.eqb q) (capture_regs cfg_default) then 255 - regs update_at q
       else regs update_at q).
Proof. apply X_update_commit. reflexivity. Defined.

(** X12: a complete frame of [n] bytes (3 or 6 by the configuration),
    followed by relayed bits and a 768-cycle idle line, is committed within
    794 cycles of its end: OCR1B, OCR1A, OCR2A get 255 minus bytes 1, 2, 3,
    each capture register holds 255 minus its byte, and the data space
    outside PORTD and the six compare registers is unchanged. *)
Theorem X_frame_commit c inp s e vs rel E F :
  pc s = lab c capture_start -> time s <= e + 2 ->
  (forall t, time s <= t < e -> inp t = false) ->
  length vs = length (capture_regs c) -> Forall (fun v => 0 <= v < 256) vs ->
  pulses inp e (frame_bits vs ++ rel) ->
  E = e + 20 * Z.of_nat (8 * length vs + length rel) -> E + 768 <= F ->
  (forall t, E <= t < F -> inp t = false) ->
  exists n s', run c inp n s = Some s' /\ pc s' = lab c capture_start /\
    E <= time s' <= E + 794 /\
    ds s' 138 = 255 - nth 0 vs 0 /\ ds s' 136 = 255 - nth 1 vs 0 /\
    ds s' 179 = 255 - nth 2 vs 0 /\
    (forall a, a <> PORTD + 32 -> ~ In a (map fst ocr_writes) -> ds s' a = ds s a) /\
    (forall j, (j < length vs)%nat -> regs s' (nth j (capture_regs c) 0) = 255 - nth j vs 0).
Proof.
  intros P Hx Lo Hl Hv Pu HE HF LoF.
  destruct (frame_ok c inp s e vs rel E F P Hx Lo Hl Hv Pu HE HF LoF) as
    (n & s' & R & P' & T & G & D).
  assert (L3 := capture_regs_length c).
  assert (Nd := capture_regs_nodup c).
  set (L := load_bytes (capture_regs c) vs (regs s)) in G, D.
  assert (Rj : forall j, (j < length (capture_regs c))%nat ->
            com_regs c L (nth j (capture_regs c) 0) = 255 - nth j vs 0).
  { intros j Hj. rewrite com_regs_nth by exact Hj. unfold L.
    rewrite load_bytes_nth; auto. }
  assert (N0 : nth 0 (capture_regs c) 0 = 16) by (unfold capture_regs; reflexivity).
  assert (N1 : nth 1 (capture_regs c) 0 = 17) by (unfold capture_regs; reflexivity).
  assert (N2 : nth 2 (capture_regs c) 0 = 18) by (unfold capture_regs; reflexivity).
  destruct (commit_ds_ocr (com_regs c L) (ds s)) as (O1 & O2 & O3 & _).
  exists n, s'. split; [exact R|]. split; [exact P'|]. split; [exact T|].
  split; [rewrite D by (unfold PORTD; lia); rewrite O2, <- N0; apply Rj; lia|].
  split; [rewrite D by (unfold PORTD; lia); rewrite O1, <- N1; apply Rj; lia|].
  split; [rewrite D by (unfold PORTD; lia); rewrite O3, <- N2; apply Rj; lia|].
  split.
  - intros a Ha N. rewrite D by exact Ha. apply commit_ds_other, N.
  - intros j Hj. rewrite G. apply Rj. lia.
Qed.

Definition frame123 : input := ws_wave 10 (frame_bits [1; 2; 3]).

Definition frame_at : state :=
  mkState (lab cfg_one_led capture_start) 0 (fun _ => 0) (fun _ => 0) false.

Lemma X_frame_commit_witness :
  exists n s', run cfg_one_led frame123 n frame_at = Some s' /\
    pc s' = lab cfg_one_led capture_start /\
    490 <= time s' <= 490 + 794 /\
    ds s' 138 = 255 - nth 0 [1; 2; 3] 0 /\ ds s' 136 = 255 - nth 1 [1; 2; 3] 0 /\
    ds s' 179 = 255 - nth 2 [1; 2; 3] 0 /\
    (forall a, a <> PORTD + 32 -> ~ In a (map fst ocr_writes) -> ds s' a = ds frame_at a) /\
    (forall j, (j < length [1; 2; 3])%nat ->
       regs s' (nth j (capture_regs cfg_one_led) 0) = 255 - nth j [1; 2; 3] 0).
Proof.
  apply (X_frame_commit cfg_one_led frame123 frame_at 10 [1; 2; 3] [] 490 1258).
  - reflexivity.
  - cbn [time frame_at]. lia.
  - intros t Ht. apply ws_wave_before. cbn [time frame_at] in Ht. lia.
  - reflexivity.
  - repeat constructor; lia.
  - rewrite app_nil_r. apply ws_wave_pulses.
  - reflexivity.
  - lia.
  - intros t Ht. apply ws_wave_after. rewrite frame_bits_length. simpl. lia.
Defined.

(** ** The whole loop *)

(** X13: the program never runs off its code: from any instruction, every
    number of steps leads to a state at an instruction. *)
Theorem X_never_stuck c inp n : forall s,
  fetch c (pc s) <> None -> exists s', run c inp n s = Some s' /\ fetch c (pc s') <> None.
Proof.
  induction n as [|n IH]; intros s F.
  - exists s. auto.
  - destruct (step_total c inp s F) as (s1 & E & F1).
    rewrite (run_S _ _ _ _ _ E). exact (IH s1 F1).
Qed.

Definition power_on : state := mkState 0 0 (fun _ => 0) (fun _ => 0) false.

Lemma X_never_stuck_witness :
  exists s', run cfg_default late_high 3000 power_on = Some s' /\
    fetch cfg_default (pc s') <> None.
Proof. apply X_never_stuck. vm_compute. intros H. discriminate H. Defined.

(** X14: the loop writes the data space only at the six compare
    registers and at the output bit of PORTD: every other address, and
    every other bit of PORTD, keeps its value along any run. *)
Theorem X_ds_writes c inp n : forall s s',
  run c inp n s = Some s' ->
  (forall a, a <> PORTD + 32 -> ~ In a (map fst ocr_writes) -> ds s' a = ds s a) /\
  (forall b, 0 <= b -> b <> DATA_OUT c ->
     Z.testbit (ds s' (PORTD + 32)) b = Z.testbit (ds s (PORTD + 32)) b).
Proof.
  induction n as [|n IH]; intros s s' R.
  - simpl in R. injection R as <-. split; reflexivity.
  - simpl in R. destruct (step c inp s) as [s1|] eqn:E; [|discriminate].
    destruct (step_ds_writes c inp s s1 E) as [D1 B1].
    destruct (IH s1 s' R) as [D2 B2]. split.
    + intros a Ha N. rewrite D2, D1 by assumption. reflexivity.
    + intros b Hb Hne. rewrite B2, B1 by assumption. reflexivity.
Qed.

Definition frame6 : input := ws_wave 10 (frame_bits [1; 2; 3; 4; 5; 6]).

Definition frame_state : state :=
  mkState (lab cfg_default capture_start) 0 (fun _ => 7) (fun _ => 5) false.

Definition frame6_end : state :=
  match run cfg_default frame6 1200 frame_state with
  | Some s' => s' | None => frame_state end.

Lemma X_ds_writes_witness :
  (forall a, a <> PORTD + 32 -> ~ In a (map fst ocr_writes) ->
     ds frame6_end a = ds frame_state a) /\
  (forall b, 0 <= b -> b <> DATA_OUT cfg_default ->
     Z.testbit (ds frame6_end (PORTD + 32)) b = Z.testbit (ds frame_state (PORTD + 32)) b).
Proof. apply (X_ds_writes cfg_default frame6 1200). vm_compute. reflexivity. Defined.

(** X15: the loop writes only registers r16 to r22 (inside the clobber
    list r16 .. r23 of the asm statement): any other register keeps its
    value along any run. *)
Theorem X_reg_clobbers c inp n : forall s s',
  run c inp n s = Some s' -> forall r, ~ (16 <= r <= 22) -> regs s' r = regs s r.
Proof.
  induction n as [|n IH]; intros s s' R r Hr.
  - simpl in R. injection R as <-. reflexivity.
  - simpl in R. destruct (step c inp s) as [s1|] eqn:E; [|discriminate].
    rewrite (IH s1 s' R r Hr).
    destruct (fetch c (pc s)) as [i|] eqn:F; [|unfold step in E; rewrite F in E; discriminate].
    apply (step_regs_keep c inp s s1 i r F E).
    destruct (program_check_at c (pc s) i F) as (_ & Ok & _).
    unfold reg_write_ok in Ok. rewrite F in Ok.
    destruct i; cbn [writes_reg]; try reflexivity;
      apply andb_prop in Ok as [O1 O2]; apply Z.leb_le in O1; apply Z.leb_le in O2;
      apply Z.eqb_neq; lia.
Qed.

Lemma X_reg_clobbers_witness : regs frame6_end 23 = regs frame_state 23.
Proof.
  apply (X_reg_clobbers cfg_default frame6 1200 frame_state frame6_end).
  - vm_compute. reflexivity.
  - lia.
Defined.
